(** * Session recorder, suspicious-activity tracker and session replayer

    A shallow embedding of the JavaScript sources of the forensic toolkit
    (src/record.js, src/core/network.js, src/core/suspicious.js,
    src/core/dom.js and the session replayer) together with the properties
    its specification states about them and further properties that the
    code itself shows.

    Conventions of the embedding:
    - a JavaScript string is a [string] (a sequence of 8-bit characters;
      [toLowerCase] folds the ASCII letters only);
    - [Date.now()] readings and recorded timestamps are integers of
      milliseconds, modelled as [Z];
    - the replay speed and the progress percentage are binary64 numbers,
      modelled by the primitive [float] type, so that quotients and
      [Math.floor] round as they do in the engine;
    - [Dom.Element] is an HTML element below HTML elements only, whose
      [className] is a string; [Node.Element] is an element of any
      namespace, whose [className] may be an [SVGAnimatedString];
    - an object that is created once and mutated afterwards (the recorder,
      the tracker, the replayer) is a record that each method takes and
      returns; what a method does to the browser (listeners, timers, the
      dispatched synthetic events) is part of that explicit state. *)

From Stdlib Require Import ZArith Lia Bool List String Ascii Floats Sorted
  DecimalString.
From stdpp Require Import base option list strings gmap.
Import ListNotations.

Set Warnings "-inexact-float,-register-all".
Local Open Scope string_scope.

(** ** JavaScript values and string primitives *)

Module JS.

(** The JSON-shaped values the modules exchange.  Numbers are restricted to
    integers (every number the recorder writes is one); an object is the
    ordered list of its own properties. *)
Inductive value : Type :=
  | VUndef
  | VNull
  | VBool (b : bool)
  | VNum (n : Z)
  | VStr (s : string)
  | VArr (items : list value)
  | VObj (props : list (string * value)).

(** ToBoolean. *)
Definition truthy (v : value) : bool :=
  match v with
  | VUndef | VNull => false
  | VBool b => b
  | VNum n => negb (n =? 0)%Z
  | VStr s => negb (String.eqb s "")
  | VArr _ | VObj _ => true
  end.

Fixpoint lookupProp (props : list (string * value)) (key : string) : value :=
  match props with
  | [] => VUndef
  | (k, v) :: rest => if String.eqb k key then v else lookupProp rest key
  end.

(** [v.key] for a [v] that is neither [null] nor [undefined] (on those the
    access raises a TypeError, which the callers below handle themselves). *)
Definition get (v : value) (key : string) : value :=
  match v with
  | VObj props => lookupProp props key
  | _ => VUndef
  end.

(** [obj.key = v]: an existing property keeps its place, a new one goes last. *)
Fixpoint setProp (props : list (string * value)) (key : string) (v : value)
  : list (string * value) :=
  match props with
  | [] => [(key, v)]
  | (k, old) :: rest =>
      if String.eqb k key then (k, v) :: rest else (k, old) :: setProp rest key v
  end.

(** An object literal [{ ...base, k1: v1, k2: v2, ... }]. *)
Definition literal (base : list (string * value)) (entries : list (string * value))
  : list (string * value) :=
  fold_left (fun acc kv => setProp acc (fst kv) (snd kv)) entries base.

(** [a || b] on strings. *)
Definition orElse (a b : string) : string :=
  if String.eqb a "" then b else a.

Definition lowerChar (c : ascii) : ascii :=
  let n := nat_of_ascii c in
  if (65 <=? n)%nat && (n <=? 90)%nat then ascii_of_nat (n + 32) else c.

Fixpoint toLowerCase (s : string) : string :=
  match s with
  | EmptyString => EmptyString
  | String c rest => String (lowerChar c) (toLowerCase rest)
  end.

(** [s.includes(sub)]. *)
Fixpoint includes (s sub : string) : bool :=
  String.prefix sub s ||
  match s with
  | EmptyString => false
  | String _ rest => includes rest sub
  end.

(** [c.repeat(n)] for a one-character string. *)
Fixpoint repeat (c : ascii) (n : nat) : string :=
  match n with
  | O => EmptyString
  | S k => String c (repeat c k)
  end.

(** [s.split(' ')]: the pieces between single spaces ([cur] is the piece
    being read). *)
Fixpoint splitOn (sep : ascii) (cur : string) (s : string) : list string :=
  match s with
  | EmptyString => [cur]
  | String c rest =>
      if Ascii.eqb c sep then cur :: splitOn sep EmptyString rest
      else splitOn sep (cur ++ String c EmptyString) rest
  end.

Definition split (s : string) (sep : ascii) : list string :=
  splitOn sep EmptyString s.

(** [parts.join(sep)]. *)
Fixpoint join (sep : string) (parts : list string) : string :=
  match parts with
  | [] => ""
  | [p] => p
  | p :: rest => p ++ sep ++ join sep rest
  end.

Definition nonEmpty (s : string) : bool := negb (String.eqb s "").

End JS.

(** ** The page structure the recorder reads *)

Module Dom.

(** An element with the attributes the selector resolver reads.
    [isDocumentElement] says that the node is [document.documentElement]. *)
Inductive Element : Type :=
  mkElement (tagName id className : string) (isDocumentElement : bool)
            (parentElement : option Element).

Definition tagName (e : Element) : string :=
  match e with mkElement t _ _ _ _ => t end.
Definition id (e : Element) : string :=
  match e with mkElement _ i _ _ _ => i end.
Definition className (e : Element) : string :=
  match e with mkElement _ _ c _ _ => c end.
Definition isDocumentElement (e : Element) : bool :=
  match e with mkElement _ _ _ r _ => r end.
Definition parentElement (e : Element) : option Element :=
  match e with mkElement _ _ _ _ p => p end.

(** A form control: an element with a name, a value and a type. *)
Record FormControl : Type := {
  element : Element;
  name : string;
  value : string;
  type : string
}.

End Dom.

(** ** Elements of any namespace *)

Module Node.

(** What [element.className] evaluates to: a string on an HTML element, an
    [SVGAnimatedString] object on an SVG element. *)
Inductive ClassName : Type :=
  | ClassString (value : string)
  | ClassAnimated (baseVal : string).

Inductive Element : Type :=
  mkElement (tagName id : string) (className : ClassName)
            (isDocumentElement : bool) (parentElement : option Element).

Definition tagName (e : Element) : string :=
  match e with mkElement t _ _ _ _ => t end.
Definition id (e : Element) : string :=
  match e with mkElement _ i _ _ _ => i end.
Definition className (e : Element) : ClassName :=
  match e with mkElement _ _ c _ _ => c end.
Definition isDocumentElement (e : Element) : bool :=
  match e with mkElement _ _ _ r _ => r end.
Definition parentElement (e : Element) : option Element :=
  match e with mkElement _ _ _ _ p => p end.

(** [if (className)]: an object is truthy, a string is when it is not
    empty. *)
Definition truthy (c : ClassName) : bool :=
  match c with
  | ClassString value => JS.nonEmpty value
  | ClassAnimated _ => true
  end.

(** [className.split(separator)]: an [SVGAnimatedString] has no [split]
    method, so the call raises a TypeError, which is [None]. *)
Definition split (c : ClassName) (separator : ascii) : option (list string) :=
  match c with
  | ClassString value => Some (JS.split value separator)
  | ClassAnimated _ => None
  end.

(** An HTML element below HTML elements only. *)
Fixpoint ofHtml (e : Dom.Element) : Element :=
  match e with
  | Dom.mkElement tag i c isRoot parent =>
      mkElement tag i (ClassString c) isRoot
        (match parent with
         | Some p => Some (ofHtml p)
         | None => None
         end)
  end.

End Node.

(** ** src/record.js: getElementSelector on any element *)

Module Selector.

(** The first part of [getElementSelector]: the tag, then [#id] or the class
    tokens.  [None] is the TypeError of [element.className.split]. *)
Definition ownSelector (e : Node.Element) : option string :=
  let selector := JS.toLowerCase (Node.tagName e) in
  if JS.nonEmpty (Node.id e) then Some (selector ++ "#" ++ Node.id e)
  else if Node.truthy (Node.className e) then
    match Node.split (Node.className e) " " with
    | Some tokens =>
        Some (selector ++ "." ++ JS.join "." (List.filter JS.nonEmpty tokens))
    | None => None
    end
  else Some selector.

(** One turn of the [while] loop on [parent], entered with [depth]; [None]
    is the TypeError of [parent.className.split]. *)
Fixpoint ascend (parent : Node.Element) (depth : nat) (selector : string)
  : option string :=
  match parent with
  | Node.mkElement tag pid pclass isRoot grand =>
      if isRoot || negb (depth <? 3)%nat then Some selector
      else if JS.nonEmpty pid then
        Some (JS.toLowerCase tag ++ "#" ++ pid ++ " > " ++ selector)
      else
        let turn :=
          if Node.truthy pclass then
            match Node.split pclass " " with
            | Some tokens =>
                let classes := firstn 2 (List.filter JS.nonEmpty tokens) in
                if (0 <? List.length classes)%nat then
                  Some (JS.toLowerCase tag ++ "." ++ JS.join "." classes
                          ++ " > " ++ selector)
                else Some selector
            | None => None
            end
          else Some selector in
        match turn with
        | None => None
        | Some selector' =>
            match grand with
            | None => Some selector'
            | Some g => ascend g (S depth) selector'
            end
        end
  end.

(** [getElementSelector(element)]; a [None] argument is null, a [None]
    result a TypeError. *)
Definition getElementSelector (element : option Node.Element) : option string :=
  match element with
  | None => Some "html"
  | Some e =>
      if Node.isDocumentElement e then Some "html"
      else
        match ownSelector e with
        | None => None
        | Some own =>
            match Node.parentElement e with
            | None => Some own
            | Some p => ascend p 0 own
            end
        end
  end.

End Selector.

(** ** src/record.js: SessionRecorder *)

Module Recorder.

Record Options : Type := {
  opt_recordMouse : bool;
  opt_recordKeyboard : bool;
  opt_recordScroll : bool;
  opt_recordResize : bool;
  opt_recordNavigation : bool;
  opt_recordFormInputs : bool;
  opt_recordClicks : bool;
  opt_maskingEnabled : bool;          (* options.maskSensitiveData *)
  opt_maskPatterns : list string;
  opt_logLevel : string
}.

(** The options of [new SessionRecorder()]. *)
Definition defaultOptions : Options := {|
  opt_recordMouse := true; opt_recordKeyboard := true; opt_recordScroll := true;
  opt_recordResize := true; opt_recordNavigation := true; opt_recordFormInputs := true;
  opt_recordClicks := true; opt_maskingEnabled := true;
  opt_maskPatterns := ["password"; "card"; "ssn"; "email"];
  opt_logLevel := "info"
|}.

(** [maskSensitiveData(value, fieldName)]. *)
Definition maskSensitiveData (o : Options) (value fieldName : string) : string :=
  if negb (opt_maskingEnabled o) || negb (JS.nonEmpty value) then value
  else
    let shouldMask :=
      existsb (fun pattern =>
                 JS.includes (JS.toLowerCase fieldName) (JS.toLowerCase pattern))
              (opt_maskPatterns o) in
    if shouldMask then JS.repeat "*" (Nat.min (String.length value) 8)
    else value.

(** [getElementSelector] where [className] is a string, that is on an HTML
    element below HTML elements only: there no step of the method raises
    and the result is a string.  The method on any element is
    [Selector.getElementSelector] above.

    The first part: the tag, then [#id] or the class tokens. *)
Definition ownSelector (e : Dom.Element) : string :=
  let selector := JS.toLowerCase (Dom.tagName e) in
  if JS.nonEmpty (Dom.id e) then selector ++ "#" ++ Dom.id e
  else if JS.nonEmpty (Dom.className e) then
    selector ++ "." ++
      JS.join "." (List.filter JS.nonEmpty (JS.split (Dom.className e) " "))
  else selector.

(** One turn of the [while] loop on [parent], entered with [depth]. *)
Fixpoint ascend (parent : Dom.Element) (depth : nat) (selector : string) : string :=
  match parent with
  | Dom.mkElement tag pid pclass isRoot grand =>
      if isRoot || negb (depth <? 3)%nat then selector
      else if JS.nonEmpty pid then
        JS.toLowerCase tag ++ "#" ++ pid ++ " > " ++ selector
      else
        let selector' :=
          if JS.nonEmpty pclass then
            let classes := firstn 2 (List.filter JS.nonEmpty (JS.split pclass " ")) in
            if (0 <? List.length classes)%nat then
              JS.toLowerCase tag ++ "." ++ JS.join "." classes ++ " > " ++ selector
            else selector
          else selector in
        match grand with
        | None => selector'
        | Some g => ascend g (S depth) selector'
        end
  end.

(** [getElementSelector(element)]; [None] is a null argument. *)
Definition getElementSelector (element : option Dom.Element) : string :=
  match element with
  | None => "html"
  | Some e =>
      if Dom.isDocumentElement e then "html"
      else
        match Dom.parentElement e with
        | None => ownSelector e
        | Some p => ascend p 0 (ownSelector e)
        end
  end.

(** *** The recorder object and the page it is attached to *)

(** A listener is the closure that one call of [addListener] or of
    [recordElementScroll] creates; closures are told apart by the order of
    their creation. *)
Definition Handler : Type := nat.

Record Recorder : Type := {
  options : Options;
  sessionId : string;
  records : list JS.value;
  isRecording : bool;
  startTime : option Z;
  listeners : gmap string Handler      (* this.listeners: a Map by event type *)
}.

(** What the recorder reads from and leaves in the browser. *)
Record Page : Type := {
  recorder : Recorder;
  href : string;                                   (* window.location.href *)
  title : string;                                  (* document.title *)
  scrollable : list Dom.Element;                   (* elements that overflow their box *)
  documentListeners : list (string * Handler);     (* capture listeners of document *)
  elementListeners : list (Dom.Element * Handler); (* 'scroll' listeners of elements *)
  observers : nat;                                 (* MutationObservers on document.body *)
  urlPollers : list string;                        (* setInterval closures: their currentUrl *)
  nextClosure : Handler
}.

(** [new SessionRecorder(options)] in a page nothing is attached to yet. *)
Definition newRecorder (o : Options) (freshId : string) : Recorder := {|
  options := o; sessionId := freshId; records := []; isRecording := false;
  startTime := None; listeners := ∅
|}.

Definition newPage (o : Options) (freshId url ttl : string)
    (overflowing : list Dom.Element) : Page := {|
  recorder := newRecorder o freshId; href := url; title := ttl;
  scrollable := overflowing; documentListeners := []; elementListeners := [];
  observers := 0; urlPollers := []; nextClosure := 0
|}.

Definition setRecorder (r : Recorder) (p : Page) : Page := {|
  recorder := r; href := href p; title := title p; scrollable := scrollable p;
  documentListeners := documentListeners p;
  elementListeners := elementListeners p; observers := observers p;
  urlPollers := urlPollers p; nextClosure := nextClosure p
|}.

Definition navigate (url : string) (p : Page) : Page := {|
  recorder := recorder p; href := url; title := title p;
  scrollable := scrollable p; documentListeners := documentListeners p;
  elementListeners := elementListeners p; observers := observers p;
  urlPollers := urlPollers p; nextClosure := nextClosure p
|}.

(** [recordEvent(event)] on the page at [url]; both readings of the clock are
    [now].  The copy written to localStorage is the same record and is left
    out. *)
Definition recordEvent (now : Z) (url : string) (event : list (string * JS.value))
    (r : Recorder) : Recorder :=
  if negb (isRecording r) then r
  else
    let timestamp := (now - default 0 (startTime r))%Z in
    let record :=
      JS.VObj (JS.literal event
                 [("sessionId", JS.VStr (sessionId r));
                  ("timestamp", JS.VNum timestamp);
                  ("url", JS.VStr url);
                  ("timestampAbsolute", JS.VNum now)]) in
    {| options := options r; sessionId := sessionId r;
       records := records r ++ [record]; isRecording := isRecording r;
       startTime := startTime r; listeners := listeners r |}.

(** [addListener(eventType, handler)]. *)
Definition addListener (eventType : string) (p : Page) : Page :=
  let h := nextClosure p in
  let r := recorder p in
  {| recorder := {| options := options r; sessionId := sessionId r;
                    records := records r; isRecording := isRecording r;
                    startTime := startTime r;
                    listeners := <[eventType := h]> (listeners r) |};
     href := href p; title := title p; scrollable := scrollable p;
     documentListeners := documentListeners p ++ [(eventType, h)];
     elementListeners := elementListeners p; observers := observers p;
     urlPollers := urlPollers p; nextClosure := S h |}.

Definition addListeners (eventTypes : list string) (p : Page) : Page :=
  fold_left (fun q ty => addListener ty q) eventTypes p.

(** [recordElementScroll(element)] for an element that overflows its box:
    the handler goes on the element, and into [this.listeners] under the
    key [scroll-<selector>]. *)
Definition recordElementScroll (element : Dom.Element) (p : Page) : Page :=
  let h := nextClosure p in
  let r := recorder p in
  {| recorder := {| options := options r; sessionId := sessionId r;
                    records := records r; isRecording := isRecording r;
                    startTime := startTime r;
                    listeners :=
                      <[ "scroll-" ++ getElementSelector (Some element) := h ]>
                        (listeners r) |};
     href := href p; title := title p; scrollable := scrollable p;
     documentListeners := documentListeners p;
     elementListeners := elementListeners p ++ [(element, h)];
     observers := observers p; urlPollers := urlPollers p;
     nextClosure := S h |}.

Definition observeBody (p : Page) : Page := {|
  recorder := recorder p; href := href p; title := title p;
  scrollable := scrollable p; documentListeners := documentListeners p;
  elementListeners := elementListeners p; observers := S (observers p);
  urlPollers := urlPollers p; nextClosure := nextClosure p
|}.

(** [setInterval(..., 1000)] of [recordNavigationEvents]; the closure keeps
    [currentUrl]. *)
Definition setUrlPoller (p : Page) : Page := {|
  recorder := recorder p; href := href p; title := title p;
  scrollable := scrollable p; documentListeners := documentListeners p;
  elementListeners := elementListeners p; observers := observers p;
  urlPollers := urlPollers p ++ [href p]; nextClosure := nextClosure p
|}.

Definition recordMouseEvents (p : Page) : Page :=
  let o := options (recorder p) in
  if negb (opt_recordMouse o) then p
  else
    let p1 :=
      if opt_recordClicks o then
        addListeners ["click"; "dblclick"; "contextmenu"; "mousedown"; "mouseup"] p
      else p in
    addListener "mousemove" p1.

Definition recordKeyboardEvents (p : Page) : Page :=
  if negb (opt_recordKeyboard (options (recorder p))) then p
  else addListeners ["keydown"; "keyup"] p.

Definition recordScrollEvents (p : Page) : Page :=
  if negb (opt_recordScroll (options (recorder p))) then p
  else
    let p1 := addListener "scroll" p in
    let p2 := fold_left (fun q e => recordElementScroll e q) (scrollable p1) p1 in
    addListener "wheel" (observeBody p2).

Definition recordResizeEvents (p : Page) : Page :=
  if negb (opt_recordResize (options (recorder p))) then p
  else addListener "resize" p.

Definition recordFormInputs (p : Page) : Page :=
  if negb (opt_recordFormInputs (options (recorder p))) then p
  else addListeners ["input"; "submit"; "focus"; "blur"] p.

Definition recordNavigationEvents (p : Page) : Page :=
  if negb (opt_recordNavigation (options (recorder p))) then p
  else setUrlPoller (addListeners ["load"; "beforeunload"] p).

(** [startRecording()] at time [now]; [freshId] is what [generateSessionId]
    returns. *)
Definition startRecording (now : Z) (freshId : string) (p : Page) : Page :=
  let r := recorder p in
  if isRecording r then p
  else
    let r1 := {| options := options r; sessionId := freshId; records := [];
                 isRecording := true; startTime := Some now;
                 listeners := listeners r |} in
    recordNavigationEvents
      (recordFormInputs
         (recordResizeEvents
            (recordScrollEvents
               (recordKeyboardEvents
                  (recordMouseEvents (setRecorder r1 p)))))).

(** [stopRecording()]: every entry [(eventType, handler)] of [this.listeners]
    is passed to [document.removeEventListener(eventType, handler, true)],
    then the map is cleared. *)
Definition stopRecording (p : Page) : list JS.value * Page :=
  let r := recorder p in
  if negb (isRecording r) then ([], p)
  else
    let kept :=
      List.filter
        (fun l => negb (bool_decide (listeners r !! fst l = Some (snd l))))
        (documentListeners p) in
    (records r,
     {| recorder := {| options := options r; sessionId := sessionId r;
                       records := records r; isRecording := false;
                       startTime := startTime r; listeners := ∅ |};
        href := href p; title := title p; scrollable := scrollable p;
        documentListeners := kept; elementListeners := elementListeners p;
        observers := observers p; urlPollers := urlPollers p;
        nextClosure := nextClosure p |}).

(** One firing of every url-polling interval, in the order of their
    creation, at time [now]. *)
Fixpoint pollUrls (now : Z) (url : string) (pollers : list string) (r : Recorder)
  : list string * Recorder :=
  match pollers with
  | [] => ([], r)
  | currentUrl :: rest =>
      let r1 :=
        if String.eqb url currentUrl then r
        else recordEvent now url
               [("type", JS.VStr "url-change");
                ("from", JS.VStr currentUrl);
                ("to", JS.VStr url)] r in
      let (rest', r2) := pollUrls now url rest r1 in
      (url :: rest', r2)
  end.

Definition tick (now : Z) (p : Page) : Page :=
  let (pollers, r) := pollUrls now (href p) (urlPollers p) (recorder p) in
  {| recorder := r; href := href p; title := title p;
     scrollable := scrollable p; documentListeners := documentListeners p;
     elementListeners := elementListeners p; observers := observers p;
     urlPollers := pollers; nextClosure := nextClosure p |}.

(** The ['input'] listener of [recordFormInputs], wrapped by [addListener],
    run for an input on [target] at time [now]. *)
Definition inputListener (now : Z) (url : string) (target : Dom.FormControl)
    (r : Recorder) : Recorder :=
  if negb (isRecording r) then r
  else if existsb (String.eqb (Dom.tagName (Dom.element target)))
                  ["INPUT"; "TEXTAREA"; "SELECT"] then
    recordEvent now url
      (JS.literal []
         [("type", JS.VStr "input");
          ("value",
           JS.VStr (maskSensitiveData (options r) (Dom.value target)
                      (JS.orElse (Dom.name target)
                                 (Dom.id (Dom.element target)))));
          ("name", JS.VStr (Dom.name target));
          ("id", JS.VStr (Dom.id (Dom.element target)));
          ("type", JS.VStr (Dom.type target));
          ("target", JS.VStr (getElementSelector (Some (Dom.element target))))])
      r
  else r.

(** [data[key] = value] for a string [value] on an object made by [{}]:
    the key [__proto__] reaches the setter of [Object.prototype], which
    ignores a value that is neither an object nor null, so that no property
    is added. *)
Definition assignText (data : list (string * JS.value)) (key value : string)
  : list (string * JS.value) :=
  if String.eqb key "__proto__" then data
  else JS.setProp data key (JS.VStr value).

(** The ['submit'] listener on a form whose entries [formData] are all
    strings (it has no file input): every entry is masked under its own
    key.  The selector of the form is resolved before [recordEvent] is
    called: when that raises, the listener ends there. *)
Definition submitListener (now : Z) (url : string) (form : Node.Element)
    (formData : list (string * string)) (r : Recorder) : Recorder :=
  if negb (isRecording r) then r
  else
    let data :=
      fold_left
        (fun acc kv =>
           assignText acc (fst kv)
             (maskSensitiveData (options r) (snd kv) (fst kv)))
        formData [] in
    match Selector.getElementSelector (Some form) with
    | None => r
    | Some target =>
        recordEvent now url
          [("type", JS.VStr "submit");
           ("formData", JS.VObj data);
           ("target", JS.VStr target)]
          r
    end.

End Recorder.

(** ** src/core/network.js: the masking of NetworkTracker *)

Module Network.

(** [isSensitiveField(fieldName)]. *)
Definition isSensitiveField (maskPatterns : list string) (fieldName : string) : bool :=
  existsb (fun pattern =>
             JS.includes (JS.toLowerCase fieldName) (JS.toLowerCase pattern))
          maskPatterns.

(** [maskValue(value)] on a string. *)
Definition maskValue (value : string) : string :=
  if negb (JS.nonEmpty value) then value
  else JS.repeat "*" (Nat.min (String.length value) 8).

End Network.

(** ** src/core/suspicious.js: SuspiciousTracker *)

(** One tracker is started in the page, so that [SuspiciousTracker.instance],
    through which the listeners record, is the tracker whose [lastClick] and
    [accessedValues] they read. *)

Module Suspicious.

(** The argument of the constructor: a property that is absent is [None]. *)
Record RawOptions : Type := {
  raw_suspiciousThreshold : option float;
  raw_logLevel : option string;
  raw_allowedDomains : option (list string)
}.

Record Options : Type := {
  suspiciousThreshold : float;
  logLevel : string;
  allowedDomains : list string
}.

(** ToBoolean on a number. *)
Definition truthyNumber (x : float) : bool :=
  negb (PrimFloat.eqb x 0) && negb (PrimFloat.is_nan x).

(** [{ suspiciousThreshold: options.suspiciousThreshold || 0.8, logLevel:
    options.logLevel || 'warn', allowedDomains: options.allowedDomains || [],
    ...options }]: the spread comes last and overwrites the three defaults
    with whatever [options] itself holds. *)
Definition makeOptions (options : RawOptions) : Options :=
  let defaults := {|
    suspiciousThreshold :=
      match raw_suspiciousThreshold options with
      | Some x => if truthyNumber x then x else 0.8%float
      | None => 0.8%float
      end;
    logLevel :=
      match raw_logLevel options with
      | Some l => JS.orElse l "warn"
      | None => "warn"
      end;
    allowedDomains := default [] (raw_allowedDomains options)
  |} in
  {| suspiciousThreshold :=
       default (suspiciousThreshold defaults) (raw_suspiciousThreshold options);
     logLevel := default (logLevel defaults) (raw_logLevel options);
     allowedDomains := default (allowedDomains defaults) (raw_allowedDomains options) |}.

(** A stored record [{ ...event, timestamp, url, severity }]. *)
Record Entry : Type := {
  event : list (string * JS.value);
  timestamp : Z;
  url : string;
  severity : float
}.

Record Click : Type := {
  clickTimestamp : Z;
  clickElement : Dom.Element
}.

(** The two console channels of [record]. *)
Inductive Channel : Type := SUSPICIOUS | ACTIVITY.

Record Tracker : Type := {
  options : Options;
  records : list Entry;
  accessedValues : list string;   (* a Set, in insertion order *)
  lastClick : option Click;
  console : list (Channel * Entry)
}.

Definition newTracker (o : RawOptions) : Tracker := {|
  options := makeOptions o; records := []; accessedValues := [];
  lastClick := None; console := []
|}.

(** [a >= b] on numbers. *)
Definition geq (a b : float) : bool := PrimFloat.leb b a.

(** [calculateSeverity(event)]. *)
Definition calculateSeverity (event : list (string * JS.value)) : float :=
  match JS.lookupProp event "type" with
  | JS.VStr ty =>
      if String.eqb ty "value-access" then 0.6%float
      else if String.eqb ty "encoding-attempt" then 0.8%float
      else if String.eqb ty "external-script" then 0.9%float
      else if String.eqb ty "domain-mismatch" then 1.0%float
      else if String.eqb ty "hidden-click" then 0.7%float
      else if String.eqb ty "iframe-click" then 0.8%float
      else if String.eqb ty "element-disabling" then 0.6%float
      else if String.eqb ty "sensitive-network" then 0.9%float
      else 0%float
  | _ => 0%float
  end.

(** [record(event)] at time [now] on the page at [href]; [saveRecord] only
    writes the record out and is left out. *)
Definition record (now : Z) (href : string) (ev : list (string * JS.value))
    (t : Tracker) : Tracker :=
  let entry := {| event := ev; timestamp := now; url := href;
                  severity := calculateSeverity ev |} in
  let channel :=
    if geq (severity entry) (suspiciousThreshold (options t))
    then SUSPICIOUS else ACTIVITY in
  {| options := options t; records := records t ++ [entry];
     accessedValues := accessedValues t; lastClick := lastClick t;
     console := console t ++ [(channel, entry)] |}.

(** [getSuspiciousRecords()]. *)
Definition getSuspiciousRecords (t : Tracker) : list Entry :=
  List.filter (fun r => geq (severity r) (suspiciousThreshold (options t)))
              (records t).

(** [getSelector(element)]. *)
Definition getSelector (element : option Dom.Element) : string :=
  match element with
  | None => "html"
  | Some e =>
      if Dom.isDocumentElement e then "html"
      else
        let selector := JS.toLowerCase (Dom.tagName e) in
        if JS.nonEmpty (Dom.id e) then selector ++ "#" ++ Dom.id e
        else if JS.nonEmpty (Dom.className e) then
          selector ++ "." ++
            JS.join "." (List.filter JS.nonEmpty (JS.split (Dom.className e) " "))
        else selector
  end.

(** A click as the listener of [trackHiddenClicks] sees it: the target, its
    computed style ([zIndexParsed] is [parseInt(style.zIndex)], [None] for
    NaN) and whether [el.closest('iframe')] finds an ancestor. *)
Record ClickEvent : Type := {
  target : Dom.Element;
  opacity : string;
  visibility : string;
  zIndex : string;
  zIndexParsed : option Z;
  insideIframe : bool
}.

(** The ['click'] listener of [trackHiddenClicks]. *)
Definition clickListener (now : Z) (href : string) (c : ClickEvent)
    (t : Tracker) : Tracker :=
  let el := target c in
  let t1 := {| options := options t; records := records t;
               accessedValues := accessedValues t;
               lastClick := Some {| clickTimestamp := now; clickElement := el |};
               console := console t |} in
  let t2 :=
    if String.eqb (opacity c) "0" || String.eqb (visibility c) "hidden"
       || match zIndexParsed c with Some z => (1000 <? z)%Z | None => false end
    then
      record now href
        [("type", JS.VStr "hidden-click");
         ("element", JS.VStr (Dom.tagName el));
         ("selector", JS.VStr (getSelector (Some el)));
         ("style", JS.VObj [("opacity", JS.VStr (opacity c));
                            ("visibility", JS.VStr (visibility c));
                            ("zIndex", JS.VStr (zIndex c))])] t1
    else t1 in
  if String.eqb (Dom.tagName el) "IFRAME" || insideIframe c then
    record now href
      [("type", JS.VStr "iframe-click");
       ("element", JS.VStr (Dom.tagName el));
       ("selector", JS.VStr (getSelector (Some el)))] t2
  else t2.

(** The [window.fetch] replacement of [trackSensitiveNetwork], up to the call
    of the original [fetch]: [method] and [body] are [init.method] and
    [init.body], the empty string standing for an absent one. *)
Definition fetchWrapper (now : Z) (href : string) (resource method body : string)
    (t : Tracker) : Tracker :=
  let method := JS.orElse method "GET" in
  if String.eqb method "POST" && JS.nonEmpty body then
    let hasSensitiveData :=
      existsb (fun value => JS.includes body value) (accessedValues t) in
    if hasSensitiveData then
      record now href
        [("type", JS.VStr "sensitive-network");
         ("url", JS.VStr resource);
         ("method", JS.VStr method);
         ("triggeredByClick",
          match lastClick t with
          | None => JS.VNull
          | Some c => JS.VBool (now - clickTimestamp c <? 1000)%Z
          end)] t
    else t
  else t.

(** What happens in the page, in order. *)
Inductive Occurrence : Type :=
  | Clicked (now : Z) (c : ClickEvent)
  | Fetched (now : Z) (resource method body : string).

Definition at_ (o : Occurrence) : Z :=
  match o with
  | Clicked now _ => now
  | Fetched now _ _ _ => now
  end.

Definition step (href : string) (t : Tracker) (o : Occurrence) : Tracker :=
  match o with
  | Clicked now c => clickListener now href c t
  | Fetched now resource method body => fetchWrapper now href resource method body t
  end.

Definition run (href : string) (history : list Occurrence) (t : Tracker) : Tracker :=
  fold_left (step href) history t.

End Suspicious.

(** ** The session replayer (src/replay.js): SessionReplayer *)

Module Replayer.

(** What a replay does to the page and to the progress callback. *)
Inductive Effect : Type :=
  | ReplayEvent (event : JS.value)     (* replayEvent(event) was called *)
  | Complete.                          (* onReplayComplete() ran *)

(** The replayer object, followed by the two things it leaves in the
    browser: the pending [setTimeout] callbacks of [replayNext] (by their
    delay, oldest first) and the effects so far (oldest first). *)
Record Replayer : Type := {
  sessionData : JS.value;
  events : list JS.value;
  isReplaying : bool;
  isPaused : bool;
  currentIndex : nat;
  replaySpeed : float;
  startTime : option Z;
  timers : list float;
  effects : list Effect
}.

(** [new SessionReplayer({speed})]: [speed: options.speed || 1.0] is
    overwritten by the spread of [options] when it holds a speed. *)
Definition newReplayer (speed : option float) : Replayer := {|
  sessionData := JS.VNull; events := []; isReplaying := false;
  isPaused := false; currentIndex := 0; replaySpeed := default 1.0%float speed;
  startTime := None; timers := []; effects := []
|}.

Definition setIndex (i : nat) (s : Replayer) : Replayer := {|
  sessionData := sessionData s; events := events s;
  isReplaying := isReplaying s; isPaused := isPaused s; currentIndex := i;
  replaySpeed := replaySpeed s; startTime := startTime s;
  timers := timers s; effects := effects s
|}.

Definition emit (e : Effect) (s : Replayer) : Replayer := {|
  sessionData := sessionData s; events := events s;
  isReplaying := isReplaying s; isPaused := isPaused s;
  currentIndex := currentIndex s; replaySpeed := replaySpeed s;
  startTime := startTime s; timers := timers s; effects := effects s ++ [e]
|}.

(** [setTimeout(() => { if (this.isReplaying && !this.isPaused)
    this.replayNext(); }, delay)]. *)
Definition setTimeout (delay : float) (s : Replayer) : Replayer := {|
  sessionData := sessionData s; events := events s;
  isReplaying := isReplaying s; isPaused := isPaused s;
  currentIndex := currentIndex s; replaySpeed := replaySpeed s;
  startTime := startTime s; timers := timers s ++ [delay]; effects := effects s
|}.

Definition setFlags (replaying paused : bool) (s : Replayer) : Replayer := {|
  sessionData := sessionData s; events := events s;
  isReplaying := replaying; isPaused := paused;
  currentIndex := currentIndex s; replaySpeed := replaySpeed s;
  startTime := startTime s; timers := timers s; effects := effects s
|}.

(** The result of a call that may raise. *)
Inductive Outcome : Type :=
  | Returned (result : bool)
  | Threw.

Section Load.

(** [JSON.parse]: [None] when it raises a SyntaxError. *)
Variable JSON_parse : string -> option JS.value.

(** [loadSession(sessionData)]. *)
Definition loadSession (data : JS.value) (s : Replayer) : Outcome * Replayer :=
  if negb (JS.truthy data) then (Returned false, s)
  else
    let parsed :=
      match data with
      | JS.VStr text => JSON_parse text
      | _ => Some data
      end in
    match parsed with
    | None => (Returned false, s)
    | Some (JS.VNull | JS.VUndef) => (Threw, s)      (* sessionData.events on null *)
    | Some sd =>
        match JS.get sd "events" with
        | JS.VArr items =>
            (Returned true,
             {| sessionData := sd; events := items;
                isReplaying := isReplaying s; isPaused := isPaused s;
                currentIndex := 0; replaySpeed := replaySpeed s;
                startTime := startTime s; timers := timers s;
                effects := effects s |})
        | _ => (Returned false, s)
        end
    end.

End Load.

(** The binary64 number nearest to an integer. *)
Definition float_of_Z (z : Z) : float :=
  SF2Prim (binary_normalize prec emax z 0 false).

(** ToNumber on the values a timestamp is read from; the conversion of a
    string or of an object is not modelled and yields NaN. *)
Definition toNumber (v : JS.value) : float :=
  match v with
  | JS.VNum n => float_of_Z n
  | JS.VNull => 0%float
  | JS.VBool b => if b then 1%float else 0%float
  | _ => PrimFloat.nan
  end.

(** [Math.max(0, x)]. *)
Definition max0 (x : float) : float :=
  if PrimFloat.leb x 0 then 0%float else x.

(** [Math.max(0, (nextEvent.timestamp - event.timestamp) / this.replaySpeed)]. *)
Definition delayBetween (event nextEvent : JS.value) (speed : float) : float :=
  max0 (PrimFloat.div
          (PrimFloat.sub (toNumber (JS.get nextEvent "timestamp"))
                         (toNumber (JS.get event "timestamp")))
          speed).

(** [onReplayComplete()]. *)
Definition onReplayComplete (s : Replayer) : Replayer :=
  emit Complete (setFlags false false s).

(** [stopReplay()]. *)
Definition stopReplay (s : Replayer) : Replayer :=
  setIndex 0 (setFlags false false s).

(** [replayNext()]; the recursive call that skips a falsy entry is counted
    down by [fuel].  [events] is a list here, so the guard on
    [Array.isArray(this.events)] never fires and is left out. *)
Fixpoint replayNextFrom (fuel : nat) (s : Replayer) : Replayer :=
  if negb (isReplaying s) || isPaused s then s
  else if (length (events s) <=? currentIndex s)%nat then onReplayComplete s
  else
    let event := default JS.VUndef (events s !! currentIndex s) in
    if negb (JS.truthy event) then
      match fuel with
      | O => s
      | S fuel' => replayNextFrom fuel' (setIndex (S (currentIndex s)) s)
      end
    else
      let s1 := setIndex (S (currentIndex s)) (emit (ReplayEvent event) s) in
      let nextEvent := default JS.VUndef (events s1 !! currentIndex s1) in
      if JS.truthy nextEvent && JS.truthy (JS.get event "timestamp") then
        setTimeout (delayBetween event nextEvent (replaySpeed s1)) s1
      else onReplayComplete s1.

(** Every recursive call moves [currentIndex] one entry on, so the number of
    entries left is fuel enough (see [replayNextFrom_enough]). *)
Definition replayNext (s : Replayer) : Replayer :=
  replayNextFrom (length (events s) - currentIndex s) s.

(** [startReplay(speed)] at time [now]; [None] is the default [null]. *)
Definition startReplay (speed : option float) (now : Z) (s : Replayer) : Replayer :=
  if isReplaying s then s
  else if (length (events s) =? 0)%nat then s
  else
    replayNext
      {| sessionData := sessionData s; events := events s;
         isReplaying := true; isPaused := false; currentIndex := 0;
         replaySpeed := default (replaySpeed s) speed;
         startTime := Some now; timers := timers s; effects := effects s |}.

(** [togglePause()]. *)
Definition togglePause (s : Replayer) : Replayer :=
  if negb (isReplaying s) then s
  else
    let s1 := setFlags (isReplaying s) (negb (isPaused s)) s in
    if negb (isPaused s1) then replayNext s1 else s1.

(** [jumpToEvent(index)] for an integer [index]. *)
Definition jumpToEvent (index : Z) (s : Replayer) : Replayer :=
  if (0 <=? index)%Z && (index <? Z.of_nat (length (events s)))%Z
  then setIndex (Z.to_nat index) s
  else s.

(** [Math.floor(x)]: [None] when [x] is NaN or infinite. *)
Definition floor (x : float) : option Z :=
  match Prim2SF x with
  | S754_zero _ => Some 0%Z
  | S754_finite sign m e =>
      let v := if sign then Z.neg m else Z.pos m in
      Some (if (0 <=? e)%Z then v * 2 ^ e else v / 2 ^ (- e))%Z
  | S754_infinity _ | S754_nan => None
  end.

(** [jumpToProgress(percentage)]: on NaN and on the infinities both
    comparisons of [jumpToEvent] fail. *)
Definition jumpToProgress (percentage : float) (s : Replayer) : Replayer :=
  let index :=
    floor (PrimFloat.mul (PrimFloat.div percentage 100)
                         (float_of_Z (Z.of_nat (length (events s))))) in
  match index with
  | Some i => jumpToEvent i s
  | None => s
  end.

(** The oldest pending timer fires (a run started by [startReplay] has one
    pending timer at most). *)
Definition fireTimer (s : Replayer) : Replayer :=
  match timers s with
  | [] => s
  | _ :: rest =>
      let s1 := {| sessionData := sessionData s; events := events s;
                   isReplaying := isReplaying s; isPaused := isPaused s;
                   currentIndex := currentIndex s; replaySpeed := replaySpeed s;
                   startTime := startTime s; timers := rest;
                   effects := effects s |} in
      if isReplaying s1 && negb (isPaused s1) then replayNext s1 else s1
  end.

(** The event loop left alone for [n] timer firings. *)
Fixpoint runTimers (n : nat) (s : Replayer) : Replayer :=
  match n with
  | O => s
  | S k => runTimers k (fireTimer s)
  end.

End Replayer.

(** * Further functions of the sources *)

(** ** src/record.js: what a recording hands over *)

Module Session.

(** [saveSession()]: the object that is passed to [JSON.stringify] and
    downloaded; [pageInfo] is what the constructor captured and [endTime]
    the clock when the session is saved. *)
Definition saveSession (pageInfo : JS.value) (endTime : Z)
    (r : Recorder.Recorder) : JS.value :=
  JS.VObj
    [("sessionId", JS.VStr (Recorder.sessionId r));
     ("startTime",
      match Recorder.startTime r with
      | Some t => JS.VNum t
      | None => JS.VNull
      end);
     ("endTime", JS.VNum endTime);
     ("pageInfo", pageInfo);
     ("events", JS.VArr (Recorder.records r));
     ("totalEvents", JS.VNum (Z.of_nat (List.length (Recorder.records r))))].

(** [getRecords()]. *)
Definition getRecords (r : Recorder.Recorder) : list JS.value :=
  Recorder.records r.

End Session.

(** ** The session replayer: the dispatch of one event *)

Module ReplayEvent.

(** The methods [replayEvent] hands an event over to. *)
Inductive Method : Type :=
  | replayClick | replayDoubleClick | replayContextMenu | replayMouseDown
  | replayMouseUp | replayInput | replayKeydown | replayKeyup | replayScroll
  | replayMouseMove | replayWheel | replaySubmit | replayFocus | replayBlur
  | replayResize | replayPageLoad | replayUrlChange.

(** The [switch (event.type)] of [replayEvent]: the method of the matching
    case, [None] for the default branch (the event is not replayed). *)
Definition replayEvent (event : JS.value) : option Method :=
  match JS.get event "type" with
  | JS.VStr ty =>
      if String.eqb ty "click" then Some replayClick
      else if String.eqb ty "dblclick" then Some replayDoubleClick
      else if String.eqb ty "contextmenu" then Some replayContextMenu
      else if String.eqb ty "mousedown" then Some replayMouseDown
      else if String.eqb ty "mouseup" then Some replayMouseUp
      else if String.eqb ty "input" then Some replayInput
      else if String.eqb ty "keydown" then Some replayKeydown
      else if String.eqb ty "keyup" then Some replayKeyup
      else if String.eqb ty "scroll" then Some replayScroll
      else if String.eqb ty "mousemove" then Some replayMouseMove
      else if String.eqb ty "wheel" then Some replayWheel
      else if String.eqb ty "submit" then Some replaySubmit
      else if String.eqb ty "focus" then Some replayFocus
      else if String.eqb ty "blur" then Some replayBlur
      else if String.eqb ty "resize" then Some replayResize
      else if String.eqb ty "page-load" then Some replayPageLoad
      else if String.eqb ty "url-change" then Some replayUrlChange
      else None
  | _ => None
  end.

(** [setSpeed(speed)]. *)
Definition setSpeed (speed : float) (s : Replayer.Replayer) : Replayer.Replayer := {|
  Replayer.sessionData := Replayer.sessionData s;
  Replayer.events := Replayer.events s;
  Replayer.isReplaying := Replayer.isReplaying s;
  Replayer.isPaused := Replayer.isPaused s;
  Replayer.currentIndex := Replayer.currentIndex s;
  Replayer.replaySpeed := speed;
  Replayer.startTime := Replayer.startTime s;
  Replayer.timers := Replayer.timers s;
  Replayer.effects := Replayer.effects s
|}.

End ReplayEvent.

(** ** src/record.js: the keyboard listeners *)

Module Keyboard.

(** A keyboard event as the listeners read it. *)
Record KeyEvent : Type := {
  key : string;
  code : string;
  keyCode : Z;
  ctrlKey : bool;
  shiftKey : bool;
  altKey : bool;
  metaKey : bool;
  target : Dom.Element
}.

(** The ['keydown'] listener of [recordKeyboardEvents], wrapped by
    [addListener]. *)
Definition keydownListener (now : Z) (url : string) (event : KeyEvent)
    (r : Recorder.Recorder) : Recorder.Recorder :=
  if negb (Recorder.isRecording r) then r
  else
    Recorder.recordEvent now url
      [("type", JS.VStr "keydown");
       ("key", JS.VStr (key event));
       ("code", JS.VStr (code event));
       ("keyCode", JS.VNum (keyCode event));
       ("ctrlKey", JS.VBool (ctrlKey event));
       ("shiftKey", JS.VBool (shiftKey event));
       ("altKey", JS.VBool (altKey event));
       ("metaKey", JS.VBool (metaKey event));
       ("target", JS.VStr (Recorder.getElementSelector (Some (target event))))]
      r.

(** The ['keyup'] listener. *)
Definition keyupListener (now : Z) (url : string) (event : KeyEvent)
    (r : Recorder.Recorder) : Recorder.Recorder :=
  if negb (Recorder.isRecording r) then r
  else
    Recorder.recordEvent now url
      [("type", JS.VStr "keyup");
       ("key", JS.VStr (key event));
       ("code", JS.VStr (code event));
       ("keyCode", JS.VNum (keyCode event));
       ("target", JS.VStr (Recorder.getElementSelector (Some (target event))))]
      r.

End Keyboard.

(** ** src/core/network.js: the masking of parsed JSON *)

Module NetworkMask.

Section Masking.

(** The number a [length] that is a string, an array or an object converts
    to, as far as [repeat] reads it: its integer part, 0 for NaN; [None]
    when the number is negative or the conversion raises.  The conversion
    of such values to numbers is not modelled. *)
Variable lengthCount : JS.value -> option nat.

Variable maskPatterns : list string.

(** ['*'.repeat(Math.min(n, 8))]. *)
Definition stars (n : nat) : JS.value := JS.VStr (JS.repeat "*" (Nat.min n 8)).

(** What [repeat] makes of [Math.min(length, 8)] before the cap of 8:
    [undefined] gives NaN and so 0, [null] gives 0, a negative number makes
    [repeat] raise a RangeError ([None]). *)
Definition count (len : JS.value) : option nat :=
  match len with
  | JS.VUndef | JS.VNull => Some 0%nat
  | JS.VBool b => Some (if b then 1%nat else 0%nat)
  | JS.VNum n => if (n <? 0)%Z then None else Some (Z.to_nat n)
  | _ => lengthCount len
  end.

(** [maskValue(value)] on any value: a number and [true] have no [length],
    an object has the [length] its properties give it. *)
Definition maskValue (value : JS.value) : option JS.value :=
  if negb (JS.truthy value) then Some value
  else
    match value with
    | JS.VStr s => Some (stars (String.length s))
    | JS.VArr items => Some (stars (List.length items))
    | JS.VObj props => option_map stars (count (JS.lookupProp props "length"))
    | _ => Some (stars 0)
    end.

(** The key of an array index. *)
Definition indexKey (i : nat) : string := NilEmpty.string_of_uint (Nat.to_uint i).

(** The body of the loop of [maskObject] for one entry; [self] is
    [maskObject]. *)
Definition maskEntry (self : JS.value -> option JS.value) (key : string)
    (value : JS.value) : option JS.value :=
  if Network.isSensitiveField maskPatterns key then maskValue value
  else
    match value with
    | JS.VArr _ | JS.VObj _ => self value
    | _ => Some value
    end.

(** [masked[key] = value] on the object under construction: the key
    [__proto__] sets the prototype and adds no property. *)
Definition assign (masked : list (string * JS.value)) (key : string)
    (value : JS.value) : list (string * JS.value) :=
  if String.eqb key "__proto__" then masked else JS.setProp masked key value.

(** The loop over the entries of an array, from index [i] on. *)
Definition maskItems (self : JS.value -> option JS.value)
  : nat -> list JS.value -> option (list JS.value) :=
  fix entries (i : nat) (l : list JS.value) : option (list JS.value) :=
    match l with
    | [] => Some []
    | value :: rest =>
        match maskEntry self (indexKey i) value with
        | None => None
        | Some v => option_map (cons v) (entries (S i) rest)
        end
    end.

(** The loop over the entries of an object, [masked] being the object built
    so far. *)
Definition maskProps (self : JS.value -> option JS.value)
  : list (string * JS.value) -> list (string * JS.value)
    -> option (list (string * JS.value)) :=
  fix entries (l masked : list (string * JS.value))
    : option (list (string * JS.value)) :=
    match l with
    | [] => Some masked
    | (key, value) :: rest =>
        match maskEntry self key value with
        | None => None
        | Some v => entries rest (assign masked key v)
        end
    end.

(** [maskObject(obj)]: [None] when it raises.  An object is the list of its
    properties in the order [Object.entries] yields them; the result is
    given by its own properties, which are what [JSON.stringify] writes. *)
Fixpoint maskObject (obj : JS.value) : option JS.value :=
  match obj with
  | JS.VArr items => option_map JS.VArr (maskItems maskObject 0 items)
  | JS.VObj props => option_map JS.VObj (maskProps maskObject props [])
  | _ => Some obj
  end.

End Masking.

End NetworkMask.

(** ** src/core/network.js: the masking of a request body *)

Module NetworkBody.

(** [a || b] on values. *)
Definition orValue (a b : JS.value) : JS.value :=
  if JS.truthy a then a else b.

(** [params.set(name, value)] of URLSearchParams: the first pair of that
    name takes the value and the other pairs of that name are removed; a
    name that is not there is appended. *)
Fixpoint set (params : list (string * string)) (name value : string)
  : list (string * string) :=
  match params with
  | [] => [(name, value)]
  | (k, v) :: rest =>
      if String.eqb k name
      then (k, value) :: List.filter (fun p => negb (String.eqb (fst p) name)) rest
      else (k, v) :: set rest name value
  end.

(** [contentType?.includes(needle)]: nothing is called on [undefined] and
    [null]; a string and an array have an [includes]; on any other value
    the call raises a TypeError ([None]). *)
Definition includesType (contentType : JS.value) (needle : string) : option bool :=
  match contentType with
  | JS.VUndef | JS.VNull => Some false
  | JS.VStr s => Some (JS.includes s needle)
  | JS.VArr items =>
      Some (existsb (fun x => match x with
                              | JS.VStr t => String.eqb t needle
                              | _ => false
                              end) items)
  | _ => None
  end.

Section Masking.

(** See [NetworkMask]. *)
Variable lengthCount : JS.value -> option nat.

Variable maskPatterns : list string.

(** [JSON.parse], [None] when it raises, and [JSON.stringify]. *)
Variable JSON_parse : string -> option JS.value.
Variable JSON_stringify : JS.value -> string.

(** [new URLSearchParams(data)] as the list of its pairs, [None] when the
    constructor raises, and [params.toString()]. *)
Variable parseParams : JS.value -> option (list (string * string)).
Variable serializeParams : list (string * string) -> string.

(** [text.replace(new RegExp(source, 'gi'), replacer)], [None] when the
    source is not a regular expression. *)
Variable replaceMatches : string -> string -> (string -> string) -> option string.

(** The loop [for (const [key, value] of params.entries())] of the form
    branch: the iterator reads the pair at its index from the list as it
    is then, and [set] changes the list meanwhile.  [fuel] bounds the
    number of steps; the list never grows, so its length is enough. *)
Fixpoint maskEntries (fuel index : nat) (params : list (string * string))
  : list (string * string) :=
  match fuel with
  | O => params
  | S fuel' =>
      match params !! index with
      | None => params
      | Some (key, value) =>
          maskEntries fuel' (S index)
            (if Network.isSensitiveField maskPatterns key
             then set params key (Network.maskValue value)
             else params)
      end
  end.

Definition maskParams (params : list (string * string)) : list (string * string) :=
  maskEntries (List.length params) 0 params.

(** [maskText(text)]. *)
Definition maskText (text : string) : option string :=
  replaceMatches (JS.join "|" maskPatterns) text
    (fun matched => JS.repeat "*" (Nat.min (String.length matched) 8)).

(** [maskSensitiveData(data, contentType)]: whatever is raised inside the
    [try] makes it return [data]. *)
Definition maskSensitiveData (data contentType : JS.value) : JS.value :=
  if negb (JS.truthy data) then data
  else
    match includesType contentType "application/json" with
    | None => data
    | Some true =>
        let jsonData :=
          match data with
          | JS.VStr text => JSON_parse text
          | _ => Some data
          end in
        match jsonData with
        | None => data
        | Some parsed =>
            match NetworkMask.maskObject lengthCount maskPatterns parsed with
            | None => data
            | Some masked => JS.VStr (JSON_stringify masked)
            end
        end
    | Some false =>
        match includesType contentType "application/x-www-form-urlencoded" with
        | None => data
        | Some true =>
            match parseParams data with
            | None => data
            | Some params => JS.VStr (serializeParams (maskParams params))
            end
        | Some false =>
            match data with
            | JS.VStr text =>
                match maskText text with
                | None => data
                | Some masked => JS.VStr masked
                end
            | _ => data
            end
        end
    end.

End Masking.

End NetworkBody.

(** ** src/core/network.js and src/core/suspicious.js: the trackers at work
    in one page *)

Module Forensic.

(** What [window.fetch] holds: the function of the browser, the function
    that [interceptFetch] puts there, or the function that
    [trackSensitiveNetwork] puts there around what it found. *)
Inductive Fetch : Type :=
  | BrowserFetch
  | NetworkWrapper
  | SuspiciousWrapper (original : Fetch).

(** The promise that a call of [fetch] returns: the promise of the browser's
    [fetch] (or one that follows it), or a promise rejected with what the
    wrapper raised. *)
Inductive Promise : Type := Pending | Rejected.

(** A key of [localStorage], the text of [prefix] followed by the number
    [stamp]. *)
Record Key : Type := { prefix : string; stamp : Z }.

(** What is given to the trackers: the built-in functions they call and
    the configuration they run in. *)
Record Page : Type := {
  (* see [NetworkMask] and [NetworkBody] *)
  lengthCount : JS.value -> option nat;
  maskPatterns : list string;
  JSON_parse : string -> option JS.value;
  JSON_stringify : JS.value -> string;
  (* [JSON.stringify] on a record of the suspicious-activity tracker *)
  stringifyEntry : Suspicious.Entry -> string;
  parseParams : JS.value -> option (list (string * string));
  serializeParams : list (string * string) -> string;
  replaceMatches : string -> string -> (string -> string) -> option string;
  (* the readings of [Date.now()], in order *)
  clock : nat -> Z;
  (* whether [localStorage.setItem(key, text)] succeeds after the writes
     made so far *)
  accepts : list (Key * string) -> Key -> string -> bool;
  (* [window.location.href] *)
  href : string;
  (* [options.apiEndpoint] of the network tracker and of the
     suspicious-activity tracker *)
  networkApi : JS.value;
  suspiciousApi : JS.value;
  windowFetch : Fetch;
  (* how many times [trackEncodingAttempts] has replaced [JSON.parse] *)
  parseWrappers : nat
}.

(** What the calls change: the records of the two trackers, the writes to
    [localStorage], the requests handed to the browser and the number of
    clock readings made. *)
Record World : Type := {
  network : list JS.value;
  suspicious : Suspicious.Tracker;
  storage : list (Key * string);
  sent : list (JS.value * JS.value);
  ticks : nat
}.

Definition tick (w : World) : World := {|
  network := network w; suspicious := suspicious w; storage := storage w;
  sent := sent w; ticks := S (ticks w)
|}.

Definition withNetwork (records : list JS.value) (w : World) : World := {|
  network := records; suspicious := suspicious w; storage := storage w;
  sent := sent w; ticks := ticks w
|}.

Definition withSuspicious (t : Suspicious.Tracker) (w : World) : World := {|
  network := network w; suspicious := t; storage := storage w;
  sent := sent w; ticks := ticks w
|}.

Definition withStorage (items : list (Key * string)) (w : World) : World := {|
  network := network w; suspicious := suspicious w; storage := items;
  sent := sent w; ticks := ticks w
|}.

Definition withSent (requests : list (JS.value * JS.value)) (w : World) : World := {|
  network := network w; suspicious := suspicious w; storage := storage w;
  sent := requests; ticks := ticks w
|}.

(** How a call ends: it returns, it raises, or it nests calls of
    [window.fetch] deeper than the depth to which it is followed.  Nothing
    in the source bounds the nesting; a browser ends it when its call
    stack is exhausted. *)
Inductive Outcome (A : Type) : Type :=
  | Returned (a : A)
  | Raised
  | Unfinished.

Arguments Returned {A} a.
Arguments Raised {A}.
Arguments Unfinished {A}.

Definition Run (A : Type) : Type := World -> World * Outcome A.

Definition ret {A : Type} (a : A) : Run A := fun w => (w, Returned a).

Definition raise {A : Type} : Run A := fun w => (w, Raised).

Definition bind {A B : Type} (m : Run A) (k : A -> Run B) : Run B :=
  fun w =>
    match m w with
    | (w', Returned a) => k a w'
    | (w', Raised) => (w', Raised)
    | (w', Unfinished) => (w', Unfinished)
    end.

Declare Scope run_scope.
Delimit Scope run_scope with run.
Bind Scope run_scope with Run.

Notation "'let*' x := m 'in' k" := (bind m (fun x => k))
  (at level 10, x name, m at level 100, k at level 200) : run_scope.

Local Open Scope run_scope.

(** [try { body } catch (error) { handler }]. *)
Definition catch {A : Type} (body handler : Run A) : Run A :=
  fun w =>
    match body w with
    | (w', Raised) => handler w'
    | done => done
    end.

(** An [async] function: what its body raises rejects the promise it
    returns. *)
Definition async (body : Run Promise) : Run Promise :=
  fun w =>
    match body w with
    | (w', Raised) => (w', Returned Rejected)
    | done => done
    end.

(** A step that raises where the option is [None]. *)
Definition lift {A : Type} (o : option A) : Run A :=
  match o with
  | Some a => ret a
  | None => raise
  end.

(** [init = {}]: the default of the second parameter of both wrappers. *)
Definition orEmpty (init : JS.value) : JS.value :=
  match init with
  | JS.VUndef => JS.VObj []
  | _ => init
  end.

(** [method === 'POST']. *)
Definition isPost (method : JS.value) : bool :=
  match method with
  | JS.VStr s => String.eqb s "POST"
  | _ => false
  end.

(** [body.includes(value)] on a truthy body: a string and an array have an
    [includes]; on any other value the call raises a TypeError ([None]). *)
Definition includes (body : JS.value) (value : string) : option bool :=
  match body with
  | JS.VStr s => Some (JS.includes s value)
  | JS.VArr items =>
      Some (existsb (fun x => match x with
                              | JS.VStr t => String.eqb t value
                              | _ => false
                              end) items)
  | _ => None
  end.

(** [values.some(value => body.includes(value))]. *)
Fixpoint some (body : JS.value) (values : list string) : option bool :=
  match values with
  | [] => Some false
  | value :: rest =>
      match includes body value with
      | None => None
      | Some true => Some true
      | Some false => some body rest
      end
  end.

(** The second argument of the [fetch] of both [saveRecord] methods. *)
Definition post (body : string) : JS.value :=
  JS.VObj [("method", JS.VStr "POST");
           ("headers", JS.VObj [("Content-Type", JS.VStr "application/json")]);
           ("body", JS.VStr body)].

Section Started.

Variable page : Page.

(** [Date.now()]. *)
Definition now : Run Z :=
  fun w => (tick w, Returned (clock page (ticks w))).

(** [localStorage.setItem(key, text)]. *)
Definition setItem (key : Key) (text : string) : Run unit :=
  fun w =>
    if accepts page (storage w) key text
    then (withStorage (storage w ++ [(key, text)]) w, Returned tt)
    else (w, Raised).

(** The [fetch] of the browser: the request is handed over. *)
Definition browserFetch (resource init : JS.value) : Run Promise :=
  fun w => (withSent (sent w ++ [(resource, init)]) w, Returned Pending).

Section Level.

(** A call of [fetch], which is [window.fetch], made by one of the
    [saveRecord] methods. *)
Variable global : JS.value -> JS.value -> Run Promise.

(** [saveRecord(record)] of the suspicious-activity tracker, up to its
    first [await]; what follows writes to the console only. *)
Definition suspiciousSave (entry : Suspicious.Entry) : Run unit :=
  catch
    (let* _ := setItem {| prefix := "suspicious_";
                          stamp := Suspicious.timestamp entry |}
                 (stringifyEntry page entry) in
     if JS.truthy (suspiciousApi page) then
       let* _ := global (suspiciousApi page) (post (stringifyEntry page entry)) in
       ret tt
     else ret tt)
    (ret tt).

(** [record(event)] of the suspicious-activity tracker. *)
Definition suspiciousRecord (event : list (string * JS.value)) : Run unit :=
  let* timestamp := now in
  let* _ := (fun w =>
               (withSuspicious
                  (Suspicious.record timestamp (href page) event (suspicious w)) w,
                Returned tt)) in
  suspiciousSave {| Suspicious.event := event;
                    Suspicious.timestamp := timestamp;
                    Suspicious.url := href page;
                    Suspicious.severity := Suspicious.calculateSeverity event |}.

(** [JSON.parse(str)] below [wrappers] replacements by
    [trackEncodingAttempts]: each records the call, then hands it to the
    function it replaced; the built-in function raises on a text that does
    not parse. *)
Fixpoint parse (wrappers : nat) (str : string) : Run JS.value :=
  match wrappers with
  | O => lift (JSON_parse page str)
  | S inner =>
      let* _ := suspiciousRecord [("type", JS.VStr "encoding-attempt");
                                  ("method", JS.VStr "JSON.parse");
                                  ("input", JS.VStr str)] in
      parse inner str
  end.

(** [maskSensitiveData(data, contentType)] of the network tracker:
    whatever is raised inside the [try] makes it return [data]. *)
Definition maskSensitiveData (data contentType : JS.value) : Run JS.value :=
  if negb (JS.truthy data) then ret data
  else
    catch
      (let* json := lift (NetworkBody.includesType contentType "application/json") in
       if json then
         let* jsonData :=
           match data with
           | JS.VStr text => parse (parseWrappers page) text
           | _ => ret data
           end in
         let* masked :=
           lift (NetworkMask.maskObject (lengthCount page) (maskPatterns page)
                   jsonData) in
         ret (JS.VStr (JSON_stringify page masked))
       else
         let* form :=
           lift (NetworkBody.includesType contentType
                   "application/x-www-form-urlencoded") in
         if form then
           let* params := lift (parseParams page data) in
           ret (JS.VStr (serializeParams page
                           (NetworkBody.maskParams (maskPatterns page) params)))
         else
           match data with
           | JS.VStr text =>
               let* masked :=
                 lift (NetworkBody.maskText (maskPatterns page)
                         (replaceMatches page) text) in
               ret (JS.VStr masked)
           | _ => ret data
           end)
      (ret data).

(** [saveRecord(record)] of the network tracker, up to its first [await];
    [timestamp] is [record.timestamp]. *)
Definition networkSave (timestamp : Z) (record : list (string * JS.value))
  : Run unit :=
  catch
    (match JS.lookupProp record "headers" with
     | JS.VUndef | JS.VNull => raise
     | headers =>
         let* body := maskSensitiveData (JS.lookupProp record "body")
                        (JS.get headers "content-type") in
         let maskedRecord := JS.VObj (JS.literal record [("body", body)]) in
         let* _ := setItem {| prefix := "network_"; stamp := timestamp |}
                     (JSON_stringify page maskedRecord) in
         if JS.truthy (networkApi page) then
           let* _ := global (networkApi page)
                       (post (JSON_stringify page maskedRecord)) in
           ret tt
         else ret tt
     end)
    (ret tt).

(** [record(event)] of the network tracker. *)
Definition networkRecord (event : list (string * JS.value)) : Run unit :=
  let* timestamp := now in
  let record :=
    JS.literal event [("timestamp", JS.VNum timestamp);
                      ("url", JS.VStr (href page))] in
  let* _ := (fun w => (withNetwork (network w ++ [JS.VObj record]) w,
                       Returned tt)) in
  networkSave timestamp record.

(** The [window.fetch] replacement of [interceptFetch]; the tracker was
    made while [window.fetch] was the function of the browser, which is
    therefore its [originalFetch]. *)
Definition networkWrapper (resource init : JS.value) : Run Promise :=
  async
    (match resource, init with
     | (JS.VUndef | JS.VNull), _ => raise
     | _, JS.VNull => raise
     | _, _ =>
         let init := orEmpty init in
         let url := NetworkBody.orValue (JS.get resource "url") resource in
         let method := NetworkBody.orValue (JS.get init "method") (JS.VStr "GET") in
         let headers := NetworkBody.orValue (JS.get init "headers") (JS.VObj []) in
         let contentType :=
           NetworkBody.orValue (JS.get headers "Content-Type")
                               (JS.get headers "content-type") in
         let body := JS.get init "body" in
         let* body :=
           if JS.truthy body then maskSensitiveData body contentType
           else ret body in
         let* called := now in
         let* _ := networkRecord
                     [("type", JS.VStr "fetch");
                      ("url", url);
                      ("method", method);
                      ("headers",
                       JS.VObj [("referer", JS.get headers "referer");
                                ("origin", JS.get headers "origin");
                                ("content-type", contentType)]);
                      ("body", body);
                      ("timestamp", JS.VNum called)] in
         browserFetch resource init
     end).

(** The [window.fetch] replacement of [trackSensitiveNetwork], up to its
    call of the function it replaced. *)
Definition sensitiveNetwork (resource init : JS.value) : Run unit :=
  match resource, init with
  | (JS.VUndef | JS.VNull), _ => raise
  | _, JS.VNull => raise
  | _, _ =>
      let init := orEmpty init in
      let url := NetworkBody.orValue (JS.get resource "url") resource in
      let method := NetworkBody.orValue (JS.get init "method") (JS.VStr "GET") in
      let body := JS.get init "body" in
      if isPost method && JS.truthy body then
        let* hasSensitiveData :=
          (fun w => lift (some body (Suspicious.accessedValues (suspicious w))) w) in
        if hasSensitiveData then
          let* triggeredByClick :=
            (fun w =>
               match Suspicious.lastClick (suspicious w) with
               | None => ret JS.VNull w
               | Some click =>
                   (let* reading := now in
                    ret (JS.VBool
                           (reading - Suspicious.clickTimestamp click <? 1000)%Z)) w
               end) in
          suspiciousRecord [("type", JS.VStr "sensitive-network");
                            ("url", url);
                            ("method", method);
                            ("triggeredByClick", triggeredByClick)]
        else ret tt
      else ret tt
  end.

(** A call of the function [f]. *)
Fixpoint call (f : Fetch) (resource init : JS.value) : Run Promise :=
  match f with
  | BrowserFetch => browserFetch resource init
  | NetworkWrapper => networkWrapper resource init
  | SuspiciousWrapper original =>
      async (let* _ := sensitiveNetwork resource init in
             call original resource (orEmpty init))
  end.

End Level.

(** [fetch(resource, init)], the calls of [window.fetch] made meanwhile
    being followed [fuel] deep. *)
Fixpoint fetch (fuel : nat) (resource init : JS.value) : Run Promise :=
  match fuel with
  | O => fun w => (w, Unfinished)
  | S fuel' => call (fetch fuel') (windowFetch page) resource init
  end.

End Started.

End Forensic.

(** ** src/record.js: the throttled mousemove listener *)

Module Pointer.

(** The recorder with the variable [mouseMoveTimeout] of the listener's
    closure: [Some (x, y)] while a timer is pending, with the [clientX] and
    [clientY] of the event its callback has captured. *)
Record State : Type := {
  recorder : Recorder.Recorder;
  mouseMoveTimeout : option (Z * Z)
}.

(** The ['mousemove'] listener of [recordMouseEvents], wrapped by
    [addListener], run for a move to [(x, y)]. *)
Definition mousemoveListener (x y : Z) (st : State) : State :=
  if negb (Recorder.isRecording (recorder st)) then st
  else
    match mouseMoveTimeout st with
    | Some _ => st
    | None => {| recorder := recorder st; mouseMoveTimeout := Some (x, y) |}
    end.

(** The callback of the listener's [setTimeout(..., 100)], run at time
    [now] on the page at [url]. *)
Definition timeoutCallback (now : Z) (url : string) (st : State) : State :=
  match mouseMoveTimeout st with
  | None => st
  | Some (x, y) =>
      {| recorder :=
           Recorder.recordEvent now url
             [("type", JS.VStr "mousemove"); ("x", JS.VNum x); ("y", JS.VNum y)]
             (recorder st);
         mouseMoveTimeout := None |}
  end.

End Pointer.

(** ** src/core/suspicious.js: the domain checks *)

Module Domains.

(** [s.endsWith(suffix)]. *)
Definition endsWith (s suffix : string) : bool :=
  let n := String.length s in
  let m := String.length suffix in
  if (n <? m)%nat then false
  else String.eqb (String.substring (n - m) m s) suffix.

(** [trackDomainMismatch()], run by [start()] at time [now] on the page at
    [href] whose host is [hostname]. *)
Definition trackDomainMismatch (now : Z) (href hostname : string)
    (t : Suspicious.Tracker) : Suspicious.Tracker :=
  let allowedDomains := Suspicious.allowedDomains (Suspicious.options t) in
  if negb (existsb (fun domain => endsWith hostname domain) allowedDomains) then
    Suspicious.record now href
      [("type", JS.VStr "domain-mismatch");
       ("hostname", JS.VStr hostname);
       ("allowedDomains", JS.VArr (map JS.VStr allowedDomains))] t
  else t.

(** A node handed to the observer of [trackExternalScripts]: its tag, its
    [src] (empty when it has none) and the host name of
    [new URL(node.src, window.location.href)], [None] when the constructor
    raises. *)
Record AddedNode : Type := {
  tagName : string;
  src : string;
  srcHostname : option string
}.

(** What the observer of [trackExternalScripts] does for one added node;
    when [new URL] raises, the callback ends there and nothing is recorded. *)
Definition scriptObserver (now : Z) (href : string) (node : AddedNode)
    (t : Suspicious.Tracker) : Suspicious.Tracker :=
  if String.eqb (tagName node) "SCRIPT" && JS.nonEmpty (src node) then
    match srcHostname node with
    | None => t
    | Some hostname =>
        if negb (existsb (fun domain => endsWith hostname domain)
                         (Suspicious.allowedDomains (Suspicious.options t)))
        then
          Suspicious.record now href
            [("type", JS.VStr "external-script");
             ("url", JS.VStr (src node));
             ("hostname", JS.VStr hostname)] t
        else t
    end
  else t.

End Domains.

(** ** src/core/suspicious.js: the reading of input values *)

Module ValueAccess.

(** An input element as the getter of [trackValueAccess] reads it.  The
    getter is a method of the property descriptor, so its [this] is the
    element: [ownAccessedValues] tells whether the page gave the element an
    [accessedValues] set of its own, [ownSelector] what a [getSelector]
    method of the element returns ([None] when it has none, as on every
    element of a page that does not add one). *)
Record InputElement : Type := {
  tagName : string;
  name : string;
  value : string;
  ownAccessedValues : bool;
  ownSelector : option JS.value
}.

(** The getter of [HTMLInputElement.prototype.value] after
    [trackValueAccess], called at time [now]: [None] is the TypeError of
    [this.accessedValues.add] or of [this.getSelector()], both raised
    before [record] is called.  The value goes to the element's set, never
    to the tracker's. *)
Definition valueGetter (now : Z) (href : string) (el : InputElement)
    (t : Suspicious.Tracker) : option string * Suspicious.Tracker :=
  if negb (ownAccessedValues el) then (None, t)
  else
    match ownSelector el with
    | None => (None, t)
    | Some selector =>
        (Some (value el),
         Suspicious.record now href
           [("type", JS.VStr "value-access");
            ("element", JS.VStr (tagName el));
            ("name", JS.VStr (JS.orElse (name el) ""));
            ("selector", selector)] t)
    end.

End ValueAccess.

(** ** src/core/dom.js: DOMTracker *)

Module DomTracker.

(** A MutationObserver, by the order of its creation. *)
Definition Observer := nat.

(** The tracker, followed by what it leaves in the page: the observers that
    are observing the document, oldest first, each with the key it was
    stored under when it was created. *)
Record Page : Type := {
  maskPatterns : list string;
  observers : gmap string Observer;
  records : list JS.value;
  connected : list (string * Observer);
  nextObserver : Observer
}.

(** [new DOMTracker(options)] in a page: [maskPatterns:
    options.maskPatterns || ['card', 'password']]. *)
Definition newPage (patterns : option (list string)) : Page := {|
  maskPatterns := default ["card"; "password"] patterns;
  observers := ∅; records := []; connected := []; nextObserver := 0
|}.

(** The line terminators, which [.] does not match. *)
Definition lineTerminator (c : N) : bool :=
  (c =? 10)%N || (c =? 13)%N || (c =? 8232)%N || (c =? 8233)%N.

(** The bullet U+2022. *)
Definition bullet : N := 8226%N.

(** [(?=.{4})] at the code units that follow. *)
Definition lookahead (rest : list N) : bool :=
  match rest with
  | a :: b :: c :: d :: _ =>
      negb (lineTerminator a) && negb (lineTerminator b)
      && negb (lineTerminator c) && negb (lineTerminator d)
  | _ => false
  end.

(** [value.replace(/.(?=.{4})/g, bullet)] on the UTF-16 code units of
    [value]. *)
Fixpoint replaceAll (value : list N) : list N :=
  match value with
  | [] => []
  | c :: rest =>
      (if negb (lineTerminator c) && lookahead rest then bullet else c)
        :: replaceAll rest
  end.

(** [maskSensitiveData(value, type)]: the value is a string given by its
    UTF-16 code units, since the bullet is not a Latin-1 character. *)
Definition maskSensitiveData (patterns : list string) (value : list N)
    (type : string) : list N :=
  match value with
  | [] => value
  | _ =>
      if existsb (fun pattern => JS.includes (JS.toLowerCase type) pattern) patterns
      then replaceAll value
      else value
  end.

(** [getElementSelector(element)]; a [None] argument is null, a [None]
    result the TypeError of [element.className.split]. *)
Definition getElementSelector (element : option Node.Element) : option string :=
  match element with
  | None => Some "html"
  | Some e =>
      if Node.isDocumentElement e then Some "html"
      else
        let selector := JS.toLowerCase (Node.tagName e) in
        if JS.nonEmpty (Node.id e) then Some (selector ++ "#" ++ Node.id e)
        else if Node.truthy (Node.className e) then
          match Node.split (Node.className e) " " with
          | Some tokens =>
              Some (selector ++ "." ++
                      JS.join "." (List.filter JS.nonEmpty tokens))
          | None => None
          end
        else Some selector
  end.

(** [record(event)] at time [now] on the page at [href]; the alert and
    [saveRecord] follow.  [saveRecord] writes the record to the storage
    and, with an endpoint, hands it to [fetch]; neither reads or changes
    the tracker and, the DOM tracker being at work alone ([window.fetch] is
    the function of the browser), both return.  They are left out. *)
Definition record (now : Z) (href : string) (event : list (string * JS.value))
    (p : Page) : Page := {|
  maskPatterns := maskPatterns p; observers := observers p;
  records := records p
               ++ [JS.VObj (JS.literal event [("timestamp", JS.VNum now);
                                              ("url", JS.VStr href)])];
  connected := connected p; nextObserver := nextObserver p
|}.

(** [const observer = new MutationObserver(...); observer.observe(...);
    this.observers.set(key, observer)], the common frame of the four
    [track...] methods. *)
Definition track (key : string) (p : Page) : Page :=
  let o := nextObserver p in
  {| maskPatterns := maskPatterns p;
     observers := <[key := o]> (observers p);
     records := records p;
     connected := connected p ++ [(key, o)];
     nextObserver := S o |}.

Definition trackInputChanges : Page -> Page := track "input".
Definition trackTextChanges : Page -> Page := track "text".
Definition trackNodeChanges : Page -> Page := track "node".
Definition trackElementDisabling : Page -> Page := track "disable".

(** [start()]. *)
Definition start (p : Page) : Page :=
  trackElementDisabling (trackNodeChanges (trackTextChanges (trackInputChanges p))).

(** [stop()]: every observer the map holds is disconnected, then the map is
    cleared. *)
Definition stop (p : Page) : Page :=
  let held := map snd (map_to_list (observers p)) in
  {| maskPatterns := maskPatterns p;
     observers := ∅;
     records := records p;
     connected :=
       List.filter (fun c => negb (existsb (Nat.eqb (snd c)) held)) (connected p);
     nextObserver := nextObserver p |}.

(** An element node is added to the document: the callback of every
    connected observer made by [trackNodeChanges] runs.  The selector is
    resolved before [record] is called: when that raises, the callback ends
    there. *)
Definition nodeAdded (now : Z) (href : string) (node : Node.Element) (p : Page)
  : Page :=
  fold_left
    (fun q c =>
       if String.eqb (fst c) "node" then
         match getElementSelector (Some node) with
         | Some selector =>
             record now href
               [("type", JS.VStr "node-added");
                ("tag", JS.VStr (Node.tagName node));
                ("selector", JS.VStr selector)] q
         | None => q
         end
       else q)
    (connected p) p.

End DomTracker.

(** * Notions the statements are written with *)

(** The redaction marker of a value: as many asterisks as the value has
    characters, eight at most. *)
Definition marker (value : string) : string :=
  JS.repeat "*" (Nat.min (String.length value) 8).

(** The account of the resolver by levels, to be compared with the loop of
    [Selector.getElementSelector]. *)

(** The resolver cannot read the class list of [x]: [x] has no id and its
    [className] is not a string. *)
Definition unreadable (x : Node.Element) : bool :=
  negb (JS.nonEmpty (Node.id x))
  && match Node.className x with
     | Node.ClassAnimated _ => true
     | Node.ClassString _ => false
     end.

(** The qualifier an ancestor contributes, if any: [tag#id], or the tag with
    its first two class tokens. *)
Definition qualifier (p : Node.Element) : option string :=
  if JS.nonEmpty (Node.id p) then
    Some (JS.toLowerCase (Node.tagName p) ++ "#" ++ Node.id p)
  else
    match Node.className p with
    | Node.ClassString c =>
        let classes := firstn 2 (List.filter JS.nonEmpty (JS.split c " ")) in
        if JS.nonEmpty c && (0 <? List.length classes)%nat then
          Some (JS.toLowerCase (Node.tagName p) ++ "." ++ JS.join "." classes)
        else None
    | Node.ClassAnimated _ => None
    end.

(** The ancestors the resolver looks at, nearest first: at most [levels] of
    them, none at or above [document.documentElement], none above an
    ancestor that has an id. *)
Fixpoint visited (levels : nat) (parent : option Node.Element)
  : list Node.Element :=
  match levels, parent with
  | S k, Some p =>
      if Node.isDocumentElement p then []
      else if JS.nonEmpty (Node.id p) then [p]
      else p :: visited k (Node.parentElement p)
  | _, _ => []
  end.

(** Each visited ancestor's qualifier goes in front of the selector. *)
Definition qualify (ancestors : list Node.Element) (selector : string) : string :=
  fold_left
    (fun sel p =>
       match qualifier p with
       | Some q => q ++ " > " ++ sel
       | None => sel
       end)
    ancestors selector.

(** The click a history leaves in [lastClick], starting from [init]. *)
Definition latest (history : list Suspicious.Occurrence)
    (init : option Suspicious.Click) : option Suspicious.Click :=
  fold_left
    (fun acc o =>
       match o with
       | Suspicious.Clicked now c =>
           Some {| Suspicious.clickTimestamp := now;
                   Suspicious.clickElement := Suspicious.target c |}
       | Suspicious.Fetched _ _ _ _ => acc
       end)
    history init.

(** How [loadSession] comes by the session object: the argument itself when
    it is truthy and not a string, what [JSON.parse] makes of it when it is
    a (non-empty) string. *)
Inductive Decodes (JSON_parse : string -> option JS.value)
  : JS.value -> JS.value -> Prop :=
  | decodes_value (data : JS.value) :
      JS.truthy data = true -> (forall text, data <> JS.VStr text) ->
      Decodes JSON_parse data data
  | decodes_text (text : string) (sd : JS.value) :
      text <> "" -> JSON_parse text = Some sd ->
      Decodes JSON_parse (JS.VStr text) sd.

(** A parser that knows two texts. *)
Definition sampleParse (text : string) : option JS.value :=
  if String.eqb text "{}" then Some (JS.VObj [])
  else if String.eqb text "null" then Some JS.VNull
  else None.

(** The clamping of an index into [[0, L)] that the specification describes,
    to be compared with what [jumpToEvent] does. *)
Definition clampedIndex (index : Z) (L : nat) : nat :=
  Z.to_nat (Z.max 0 (Z.min index (Z.of_nat L - 1))).

(** Every entry is truthy, and every entry but the last has a truthy
    timestamp. *)
Definition playable (events : list JS.value) : Prop :=
  forall (i : nat) (event : JS.value),
    events !! i = Some event ->
    JS.truthy event = true
    /\ ((S i < List.length events)%nat ->
        JS.truthy (JS.get event "timestamp") = true).

(** What the registration of listeners leaves alone. *)
Definition sameRecording (p q : Recorder.Page) : Prop :=
  Recorder.href q = Recorder.href p
  /\ Recorder.urlPollers q = Recorder.urlPollers p
  /\ Recorder.options (Recorder.recorder q) = Recorder.options (Recorder.recorder p)
  /\ Recorder.isRecording (Recorder.recorder q)
       = Recorder.isRecording (Recorder.recorder p)
  /\ Recorder.records (Recorder.recorder q) = Recorder.records (Recorder.recorder p).

(** Calls of [recordEvent] in the order they are made, each with the clock
    reading and the event it is given. *)
Definition recordAll (url : string)
    (calls : list (Z * list (string * JS.value))) (r : Recorder.Recorder)
  : Recorder.Recorder :=
  fold_left (fun acc call => Recorder.recordEvent (fst call) url (snd call) acc)
            calls r.

(** The [timestamp] of a stored record. *)
Definition timestampOf (record : JS.value) : Z :=
  match JS.get record "timestamp" with
  | JS.VNum t => t
  | _ => 0
  end.

(** The four properties [recordEvent] writes over the event's own. *)
Definition stampKeys : list string :=
  ["sessionId"; "timestamp"; "url"; "timestampAbsolute"].

(** What identifies the session a recorder is writing. *)
Definition sessionCore (p : Recorder.Page)
  : Recorder.Options * string * list JS.value * bool * option Z :=
  let r := Recorder.recorder p in
  (Recorder.options r, Recorder.sessionId r, Recorder.records r,
   Recorder.isRecording r, Recorder.startTime r).

(** The event types [startRecording] registers on [document], stage by
    stage, as the options select them. *)
Definition mouseTypes (o : Recorder.Options) : list string :=
  if Recorder.opt_recordMouse o then
    (if Recorder.opt_recordClicks o
     then ["click"; "dblclick"; "contextmenu"; "mousedown"; "mouseup"]
     else []) ++ ["mousemove"]
  else [].

Definition keyboardTypes (o : Recorder.Options) : list string :=
  if Recorder.opt_recordKeyboard o then ["keydown"; "keyup"] else [].

Definition scrollTypes (o : Recorder.Options) : list string :=
  if Recorder.opt_recordScroll o then ["scroll"; "wheel"] else [].

Definition resizeTypes (o : Recorder.Options) : list string :=
  if Recorder.opt_recordResize o then ["resize"] else [].

Definition formTypes (o : Recorder.Options) : list string :=
  if Recorder.opt_recordFormInputs o then ["input"; "submit"; "focus"; "blur"]
  else [].

Definition navigationTypes (o : Recorder.Options) : list string :=
  if Recorder.opt_recordNavigation o then ["load"; "beforeunload"] else [].

Definition registeredTypes (o : Recorder.Options) : list string :=
  (mouseTypes o ++ keyboardTypes o ++ scrollTypes o ++ resizeTypes o
     ++ formTypes o ++ navigationTypes o)%list.

(** The listeners of [document] are those of [base] followed by one listener
    for each type of [tys]; each of the latter is the entry of its type in
    [this.listeners], and no closure of that map is older than [n0]. *)
Definition registered (base : list (string * Recorder.Handler)) (n0 : nat)
    (q : Recorder.Page) (tys : list string) : Prop :=
  exists added,
    Recorder.documentListeners q = (base ++ added)%list
    /\ map fst added = tys
    /\ (forall ty h, In (ty, h) added ->
                     Recorder.listeners (Recorder.recorder q) !! ty = Some h)
    /\ (forall ty h, Recorder.listeners (Recorder.recorder q) !! ty = Some h ->
                     (n0 <= h)%nat)
    /\ (n0 <= Recorder.nextClosure q)%nat.

(** The value a form submits last under [key] ([FormData] may hold a key
    several times). *)
Definition lastValue (formData : list (string * string)) (key : string)
  : option string :=
  fold_left (fun acc kv => if String.eqb (fst kv) key then Some (snd kv) else acc)
            formData None.

(** What can happen to a replayer between [startReplay] and the end of the
    run: the user pauses or resumes, a pending timer fires, the speed is
    changed. *)
Inductive Control : Type :=
  | TogglePause
  | TimerFires
  | SetSpeed (speed : float).

Definition control (s : Replayer.Replayer) (c : Control) : Replayer.Replayer :=
  match c with
  | TogglePause => Replayer.togglePause s
  | TimerFires => Replayer.fireTimer s
  | SetSpeed speed => ReplayEvent.setSpeed speed s
  end.

(** The effects of a run over [evs] that started behind the effects [base]:
    while it is replaying, the events before the cursor, in order; once it
    is not, all of them and the completion. *)
Definition inOrder (base : list Replayer.Effect) (evs : list JS.value)
    (s : Replayer.Replayer) : Prop :=
  Replayer.events s = evs
  /\ ((Replayer.isReplaying s = true
       /\ (Replayer.currentIndex s < List.length evs)%nat
       /\ Replayer.effects s
            = (base ++ map Replayer.ReplayEvent
                           (take (Replayer.currentIndex s) evs))%list)
      \/ (Replayer.isReplaying s = false
          /\ Replayer.currentIndex s = List.length evs
          /\ Replayer.effects s
               = (base ++ map Replayer.ReplayEvent evs
                       ++ [Replayer.Complete])%list)).

(** One character typed into a form control: the key goes down, the control
    takes the character and fires [input], the key goes up; each of the
    three events has its own reading of the clock. *)
Record Keystroke : Type := {
  typed : ascii;
  strokeCode : string;
  strokeKeyCode : Z;
  strokeShift : bool;
  downAt : Z;
  inputAt : Z;
  upAt : Z
}.

Definition keyEvent (c : Dom.FormControl) (k : Keystroke) : Keyboard.KeyEvent := {|
  Keyboard.key := String (typed k) "";
  Keyboard.code := strokeCode k;
  Keyboard.keyCode := strokeKeyCode k;
  Keyboard.ctrlKey := false;
  Keyboard.shiftKey := strokeShift k;
  Keyboard.altKey := false;
  Keyboard.metaKey := false;
  Keyboard.target := Dom.element c
|}.

Definition typeKey (url : string) (state : Dom.FormControl * Recorder.Recorder)
    (k : Keystroke) : Dom.FormControl * Recorder.Recorder :=
  let c := fst state in
  let c' := {| Dom.element := Dom.element c; Dom.name := Dom.name c;
               Dom.value := Dom.value c ++ String (typed k) "";
               Dom.type := Dom.type c |} in
  (c',
   Keyboard.keyupListener (upAt k) url (keyEvent c k)
     (Recorder.inputListener (inputAt k) url c'
        (Keyboard.keydownListener (downAt k) url (keyEvent c k) (snd state)))).

Definition typeText (url : string) (keys : list Keystroke) (c : Dom.FormControl)
    (r : Recorder.Recorder) : Dom.FormControl * Recorder.Recorder :=
  fold_left (typeKey url) keys (c, r).

(** The key a record of a key press holds. *)
Definition keyOf (record : JS.value) : string :=
  match JS.get record "type", JS.get record "key" with
  | JS.VStr ty, JS.VStr k => if String.eqb ty "keydown" then k else ""
  | _, _ => ""
  end.

(** The keys of the key presses of a session, in the order recorded. *)
Definition typedKeys (records : list JS.value) : string :=
  fold_right (fun record acc => keyOf record ++ acc) "" records.

(** A host name passes the domain check when some allowed domain is a
    suffix of it, character by character. *)
Definition hasAllowedSuffix (allowedDomains : list string) (hostname : string)
  : Prop :=
  exists domain front,
    In domain allowedDomains /\ hostname = front ++ domain.

(** The calls a page makes on its DOM tracker. *)
Inductive TrackerCall : Type := CallStart | CallStop.

Definition call (p : DomTracker.Page) (c : TrackerCall) : DomTracker.Page :=
  match c with
  | CallStart => DomTracker.start p
  | CallStop => DomTracker.stop p
  end.

(** The keys [start] stores its observers under. *)
Definition observerKeys : list string := ["input"; "text"; "node"; "disable"].

(** What every sequence of calls keeps true: the map holds observers under
    the four keys only, and the observers at work were made earlier. *)
Definition wellFormed (p : DomTracker.Page) : Prop :=
  (forall key o, DomTracker.observers p !! key = Some o -> In key observerKeys)
  /\ Forall (fun c => (snd c < DomTracker.nextObserver p)%nat)
            (DomTracker.connected p).

(** The observers at work that report added nodes. *)
Definition nodeObservers (p : DomTracker.Page) : nat :=
  List.length
    (List.filter (fun c => String.eqb (fst c) "node") (DomTracker.connected p)).

(** A string with an upper-case letter A-Z in it. *)
Definition hasUpperCase (s : string) : Prop :=
  exists c, In c (list_ascii_of_string s)
            /\ (65 <= nat_of_ascii c <= 90)%nat.

(** What the page does while the suspicious-activity tracker runs: the
    clicks and fetches of [Suspicious.Occurrence], and the reading of an
    input's value. *)
Inductive Activity : Type :=
  | Occurs (o : Suspicious.Occurrence)
  | Reads (now : Z) (el : ValueAccess.InputElement).

Definition act (href : string) (t : Suspicious.Tracker) (a : Activity)
  : Suspicious.Tracker :=
  match a with
  | Occurs o => Suspicious.step href t o
  | Reads now el => snd (ValueAccess.valueGetter now href el t)
  end.

(** The [type] of a record of the suspicious-activity tracker. *)
Definition typeOf (entry : Suspicious.Entry) : JS.value :=
  JS.lookupProp (Suspicious.event entry) "type".

(** Moves of the pointer, in the order they happen. *)
Definition moveAll (moves : list (Z * Z)) (st : Pointer.State) : Pointer.State :=
  fold_left (fun acc m => Pointer.mousemoveListener (fst m) (snd m) acc) moves st.

(** The form of a value that [maskValue] has been applied to: falsy, or a
    run of at most eight asterisks. *)
Definition maskedForm (x : JS.value) : Prop :=
  JS.truthy x = false
  \/ exists n, (n <= 8)%nat /\ x = JS.VStr (JS.repeat "*" n).

Section Redacted.

Variable maskPatterns : list string.

Definition redactedEntry (self : JS.value -> Prop) (key : string) (x : JS.value)
  : Prop :=
  if Network.isSensitiveField maskPatterns key then maskedForm x else self x.

Definition redactedItems (self : JS.value -> Prop) : nat -> list JS.value -> Prop :=
  fix each (i : nat) (l : list JS.value) : Prop :=
    match l with
    | [] => True
    | x :: rest => redactedEntry self (NetworkMask.indexKey i) x /\ each (S i) rest
    end.

Definition redactedProps (self : JS.value -> Prop)
  : list (string * JS.value) -> Prop :=
  fix each (l : list (string * JS.value)) : Prop :=
    match l with
    | [] => True
    | (key, x) :: rest => redactedEntry self key x /\ each rest
    end.

(** Every value that sits under a sensitive key or index, at any depth, has
    the masked form. *)
Fixpoint redacted (v : JS.value) : Prop :=
  match v with
  | JS.VArr items => redactedItems redacted 0 items
  | JS.VObj props => redactedProps redacted props
  | _ => True
  end.

Definition maskableEntry (self : JS.value -> Prop) (key : string) (x : JS.value)
  : Prop :=
  if Network.isSensitiveField maskPatterns key then
    match x with
    | JS.VObj _ => False
    | _ => True
    end
  else self x.

Definition maskableItems (self : JS.value -> Prop) : nat -> list JS.value -> Prop :=
  fix each (i : nat) (l : list JS.value) : Prop :=
    match l with
    | [] => True
    | x :: rest => maskableEntry self (NetworkMask.indexKey i) x /\ each (S i) rest
    end.

Definition maskableProps (self : JS.value -> Prop)
  : list (string * JS.value) -> Prop :=
  fix each (l : list (string * JS.value)) : Prop :=
    match l with
    | [] => True
    | (key, x) :: rest => maskableEntry self key x /\ each rest
    end.

(** No object sits under a sensitive key or index, at any depth. *)
Fixpoint maskable (v : JS.value) : Prop :=
  match v with
  | JS.VArr items => maskableItems maskable 0 items
  | JS.VObj props => maskableProps maskable props
  | _ => True
  end.

End Redacted.

(** The form branch of the body masking, told by the pairs of the form: a
    pair under a sensitive key is kept once, where that key comes first,
    with its value masked; [seen] holds the sensitive keys met so far. *)
Fixpoint collapse (maskPatterns : list string) (seen : list string)
    (params : list (string * string)) : list (string * string) :=
  match params with
  | [] => []
  | (key, value) :: rest =>
      if Network.isSensitiveField maskPatterns key then
        if existsb (String.eqb key) seen then collapse maskPatterns seen rest
        else (key, Network.maskValue value)
               :: collapse maskPatterns (key :: seen) rest
      else (key, value) :: collapse maskPatterns seen rest
  end.

(** The pairs of a form that are not under a sensitive key. *)
Definition plainPairs (maskPatterns : list string)
    (params : list (string * string)) : list (string * string) :=
  List.filter (fun p => negb (Network.isSensitiveField maskPatterns (fst p))) params.

(** What the induction on a JSON value carries. *)
Section MaskingInvariants.

Variable lengthCount : JS.value -> option nat.
Variable maskPatterns : list string.

(** The masking of the value is redacted and is masked to itself. *)
Definition settled (x : JS.value) : Prop :=
  forall y,
    NetworkMask.maskObject lengthCount maskPatterns x = Some y ->
    redacted maskPatterns y
    /\ NetworkMask.maskObject lengthCount maskPatterns y = Some y.

(** The object under construction: no key twice, no [__proto__], every
    entry redacted and masked to itself. *)
Definition built (masked : list (string * JS.value)) : Prop :=
  List.NoDup (map fst masked)
  /\ ~ In "__proto__" (map fst masked)
  /\ Forall (fun kv =>
               redactedEntry maskPatterns (redacted maskPatterns) (fst kv) (snd kv)
               /\ NetworkMask.maskEntry lengthCount maskPatterns
                    (NetworkMask.maskObject lengthCount maskPatterns)
                    (fst kv) (snd kv) = Some (snd kv))
            masked.

(** The masking of a value that holds no object under a sensitive key does
    not raise. *)
Definition returns (x : JS.value) : Prop :=
  maskable maskPatterns x ->
  exists y, NetworkMask.maskObject lengthCount maskPatterns x = Some y.

End MaskingInvariants.

(** The pairs of a form still to come, once the pairs under the sensitive
    keys already met are removed. *)
Definition prune (maskPatterns : list string) (seen : list string)
    (params : list (string * string)) : list (string * string) :=
  List.filter
    (fun p => negb (Network.isSensitiveField maskPatterns (fst p)
                    && existsb (String.eqb (fst p)) seen))
    params.

(** The run [startReplay] begins on the events of [s]: [replayNext] on the
    replayer put at index 0, replaying, not paused, with the speed asked for
    and the start time [now]. *)
Definition runFromZero (speed : option float) (now : Z) (s : Replayer.Replayer)
  : Replayer.Replayer :=
  Replayer.replayNext
    {| Replayer.sessionData := Replayer.sessionData s;
       Replayer.events := Replayer.events s;
       Replayer.isReplaying := true; Replayer.isPaused := false;
       Replayer.currentIndex := 0;
       Replayer.replaySpeed := default (Replayer.replaySpeed s) speed;
       Replayer.startTime := Some now;
       Replayer.timers := Replayer.timers s;
       Replayer.effects := Replayer.effects s |}.

(** The masking of a body by the network tracker of [page], [JSON.parse]
    being the built-in function. *)
Definition maskedBody (page : Forensic.Page) (data contentType : JS.value)
  : JS.value :=
  NetworkBody.maskSensitiveData
    (Forensic.lengthCount page) (Forensic.maskPatterns page)
    (Forensic.JSON_parse page) (Forensic.JSON_stringify page)
    (Forensic.parseParams page) (Forensic.serializeParams page)
    (Forensic.replaceMatches page) data contentType.

(** The content type that the fetch wrapper reads in [init]. *)
Definition contentTypeOf (init : JS.value) : JS.value :=
  let headers := NetworkBody.orValue (JS.get init "headers") (JS.VObj []) in
  NetworkBody.orValue (JS.get headers "Content-Type")
                      (JS.get headers "content-type").

(** The record of a request made with [init], stamped [stamp], that holds
    [body]. *)
Definition fetchRecordWith (page : Forensic.Page) (init : JS.value) (stamp : Z)
    (body : JS.value) : JS.value :=
  let headers := NetworkBody.orValue (JS.get init "headers") (JS.VObj []) in
  JS.VObj [("type", JS.VStr "fetch");
           ("url", JS.VStr (Forensic.href page));
           ("method", NetworkBody.orValue (JS.get init "method") (JS.VStr "GET"));
           ("headers",
            JS.VObj [("referer", JS.get headers "referer");
                     ("origin", JS.get headers "origin");
                     ("content-type", contentTypeOf init)]);
           ("body", body);
           ("timestamp", JS.VNum stamp)].

(** The body of [init], masked when it is truthy. *)
Definition recordedBody (page : Forensic.Page) (init : JS.value) : JS.value :=
  if JS.truthy (JS.get init "body")
  then maskedBody page (JS.get init "body") (contentTypeOf init)
  else JS.get init "body".

(** The record the network tracker keeps of a request made with [init]. *)
Definition fetchRecord (page : Forensic.Page) (init : JS.value) (stamp : Z)
  : JS.value :=
  fetchRecordWith page init stamp (recordedBody page init).

(** The text of that record as it is written to the storage and posted to
    the endpoint: its body is masked once more. *)
Definition savedText (page : Forensic.Page) (init : JS.value) (stamp : Z)
  : string :=
  Forensic.JSON_stringify page
    (fetchRecordWith page init stamp
       (maskedBody page (recordedBody page init) (contentTypeOf init))).

(** A record of type [fetch] that gives the address of the page as its
    [url]. *)
Definition pageFetch (page : Forensic.Page) (record : JS.value) : Prop :=
  JS.get record "type" = JS.VStr "fetch"
  /\ JS.get record "url" = JS.VStr (Forensic.href page).

(** The event that a replaced [JSON.parse] records for the text [str], and
    the record that the suspicious-activity tracker makes of it at
    [stamp]. *)
Definition parseEvent (str : string) : list (string * JS.value) :=
  [("type", JS.VStr "encoding-attempt");
   ("method", JS.VStr "JSON.parse");
   ("input", JS.VStr str)].

Definition parseEntry (page : Forensic.Page) (str : string) (stamp : Z)
  : Suspicious.Entry :=
  {| Suspicious.event := parseEvent str;
     Suspicious.timestamp := stamp;
     Suspicious.url := Forensic.href page;
     Suspicious.severity := 0.8%float |}.

(** A page to try the trackers in: [JSON.parse] knows two texts, every
    record is written as the same text, the clock goes by one at each
    reading and the storage takes every write. *)
Definition samplePage (api : JS.value) (window : Forensic.Fetch) (wrappers : nat)
  : Forensic.Page := {|
  Forensic.lengthCount := fun _ => Some 0%nat;
  Forensic.maskPatterns := ["card"; "password"];
  Forensic.JSON_parse := sampleParse;
  Forensic.JSON_stringify := fun _ => "{}";
  Forensic.stringifyEntry := fun _ => "{}";
  Forensic.parseParams := fun _ => None;
  Forensic.serializeParams := fun _ => "";
  Forensic.replaceMatches := fun _ text _ => Some text;
  Forensic.clock := fun reading => (1000 + Z.of_nat reading)%Z;
  Forensic.accepts := fun _ _ _ => true;
  Forensic.href := "https://shop.test/cart";
  Forensic.networkApi := api;
  Forensic.suspiciousApi := api;
  Forensic.windowFetch := window;
  Forensic.parseWrappers := wrappers
|}.

(** The page before anything has happened. *)
Definition freshWorld : Forensic.World := {|
  Forensic.network := [];
  Forensic.suspicious :=
    Suspicious.newTracker {| Suspicious.raw_suspiciousThreshold := None;
                             Suspicious.raw_logLevel := None;
                             Suspicious.raw_allowedDomains := None |};
  Forensic.storage := [];
  Forensic.sent := [];
  Forensic.ticks := 0
|}.

(** * Properties *)

(** ** String primitives *)

Lemma repeat_length (c : ascii) (n : nat) : String.length (JS.repeat c n) = n.
Proof. induction n as [|n IH]; simpl; [reflexivity | now rewrite IH]. Qed.

Lemma prefix_refl (s : string) : String.prefix s s = true.
Proof.
  induction s as [|a s IH]; simpl; [reflexivity|].
  destruct (ascii_dec a a); [assumption | congruence].
Qed.

Lemma includes_refl (s : string) : JS.includes s s = true.
Proof.
  pose proof (prefix_refl s) as H.
  destruct s; cbn [JS.includes]; rewrite H; reflexivity.
Qed.

(** A prefix of a run of [c] is a shorter run of [c]. *)
Lemma prefix_repeat (c : ascii) (k : nat) (v : string) :
  String.prefix v (JS.repeat c k) = true ->
  v = JS.repeat c (String.length v) /\ (String.length v <= k)%nat.
Proof.
  revert k; induction v as [|a v IH]; intros k H; simpl.
  - split; [reflexivity | lia].
  - destruct k as [|k]; simpl in H; [discriminate|].
    destruct (ascii_dec a c) as [->|]; [|discriminate].
    destruct (IH k H) as [E L]. split; [now rewrite <- E | lia].
Qed.

(** So is any substring of it. *)
Lemma includes_repeat (c : ascii) (k : nat) (v : string) :
  JS.includes (JS.repeat c k) v = true ->
  v = JS.repeat c (String.length v) /\ (String.length v <= k)%nat.
Proof.
  induction k as [|k IH]; simpl; intros H.
  - rewrite orb_false_r in H. now apply (prefix_repeat c 0).
  - apply orb_true_iff in H as [H|H].
    + now apply (prefix_repeat c (S k)).
    + destruct (IH H); split; [assumption | lia].
Qed.

(** ** Masking (src/record.js, src/core/network.js) *)

Section Masking.

Variable o : Recorder.Options.

Lemma maskSensitiveData_off (value fieldName : string) :
  Recorder.opt_maskingEnabled o = false ->
  Recorder.maskSensitiveData o value fieldName = value.
Proof. intros H. unfold Recorder.maskSensitiveData. now rewrite H. Qed.

Lemma maskSensitiveData_sensitive (value fieldName : string) :
  Recorder.opt_maskingEnabled o = true ->
  Network.isSensitiveField (Recorder.opt_maskPatterns o) fieldName = true ->
  value <> "" ->
  Recorder.maskSensitiveData o value fieldName = marker value.
Proof.
  intros Hon Hs Hv. unfold Recorder.maskSensitiveData, Network.isSensitiveField in *.
  rewrite Hon, Hs. destruct value; [congruence | reflexivity].
Qed.

Lemma maskSensitiveData_cases (value fieldName : string) :
  Recorder.maskSensitiveData o value fieldName = value \/
  (value <> "" /\ Recorder.opt_maskingEnabled o = true /\
   Network.isSensitiveField (Recorder.opt_maskPatterns o) fieldName = true /\
   Recorder.maskSensitiveData o value fieldName = marker value).
Proof.
  unfold Recorder.maskSensitiveData, Network.isSensitiveField, marker.
  destruct (Recorder.opt_maskingEnabled o); simpl; [|now left].
  destruct value as [|a v]; simpl; [now left|].
  destruct (existsb _ _); [right | now left].
  repeat split; congruence.
Qed.

Lemma marker_length (value : string) : (String.length (marker value) <= 8)%nat.
Proof. unfold marker. rewrite repeat_length. lia. Qed.

Lemma marker_nonEmpty (value : string) : value <> "" -> marker value <> "".
Proof. destruct value; [congruence | discriminate]. Qed.

Lemma marker_marker (value : string) : marker (marker value) = marker value.
Proof.
  unfold marker. rewrite repeat_length. f_equal. lia.
Qed.

(** The marker holds the value it replaces exactly when that value is itself
    a run of at most eight asterisks. *)
Lemma marker_includes (value : string) :
  JS.includes (marker value) value = true <->
  value = JS.repeat "*" (String.length value) /\ (String.length value <= 8)%nat.
Proof.
  unfold marker. split.
  - intros H. apply includes_repeat in H as [E L]. split; [assumption | lia].
  - intros [E L]. rewrite Nat.min_l by assumption. rewrite <- E. apply includes_refl.
Qed.

End Masking.

Lemma maskValue_cases (value : string) :
  (value = "" /\ Network.maskValue value = "") \/
  (value <> "" /\ Network.maskValue value = marker value).
Proof. destruct value; [left | right]; split; (reflexivity || congruence). Qed.

(** C9. Masking is idempotent: masking the result of masking a value under
    the same field name returns that result unchanged, for every field name
    (sensitive or not), every value and every configuration; so does
    [maskValue] of the network tracker. *)
Theorem masking_idempotent :
  forall (o : Recorder.Options) (n v : string),
    Recorder.maskSensitiveData o (Recorder.maskSensitiveData o v n) n
      = Recorder.maskSensitiveData o v n
    /\ Network.maskValue (Network.maskValue v) = Network.maskValue v.
Proof.
  intros o n v. split.
  - destruct (maskSensitiveData_cases o v n) as [E | (Hv & Hon & Hs & E)].
    + now rewrite !E.
    + rewrite E.
      rewrite (maskSensitiveData_sensitive o (marker v) n Hon Hs (marker_nonEmpty v Hv)).
      apply marker_marker.
  - destruct (maskValue_cases v) as [[-> E] | [Hv E]]; [reflexivity|].
    rewrite E.
    destruct (maskValue_cases (marker v)) as [[E1 _] | [_ E2]].
    + now apply marker_nonEmpty in E1.
    + rewrite E2. apply marker_marker.
Qed.

Lemma isSensitiveField_intro (patterns : list string) (fieldName pattern : string) :
  In pattern patterns ->
  JS.includes (JS.toLowerCase fieldName) (JS.toLowerCase pattern) = true ->
  Network.isSensitiveField patterns fieldName = true.
Proof.
  intros Hin Hinc. unfold Network.isSensitiveField.
  apply existsb_exists. exists pattern. now split.
Qed.

Lemma tag_accepted (tag : string) :
  In tag ["INPUT"; "TEXTAREA"; "SELECT"] ->
  existsb (String.eqb tag) ["INPUT"; "TEXTAREA"; "SELECT"] = true.
Proof.
  intros H. apply existsb_exists. exists tag. split; [assumption|].
  apply String.eqb_refl.
Qed.

(** C1 (as amended). With masking enabled (the default), an input on a form
    control whose field name ([name], or [id] when the name is empty)
    contains a configured pattern, compared in lower case, and whose value is
    not empty, appends one record whose [value] is the marker: as many
    asterisks as the value has characters, eight at most.  The marker holds
    the original value only when that value is itself a run of at most eight
    asterisks.  [maskSensitiveData] and [maskValue] of the network tracker
    return that same marker. *)
Theorem masked_input_is_redacted :
  forall (now : Z) (url : string) (target : Dom.FormControl)
         (r : Recorder.Recorder) (pattern : string),
    Recorder.isRecording r = true ->
    Recorder.opt_maskingEnabled (Recorder.options r) = true ->
    In (Dom.tagName (Dom.element target)) ["INPUT"; "TEXTAREA"; "SELECT"] ->
    In pattern (Recorder.opt_maskPatterns (Recorder.options r)) ->
    JS.includes
      (JS.toLowerCase (JS.orElse (Dom.name target) (Dom.id (Dom.element target))))
      (JS.toLowerCase pattern) = true ->
    Dom.value target <> "" ->
    let fieldName := JS.orElse (Dom.name target) (Dom.id (Dom.element target)) in
    let original := Dom.value target in
    exists stored,
      Recorder.records (Recorder.inputListener now url target r)
        = (Recorder.records r ++ [stored])%list
      /\ JS.get stored "value" = JS.VStr (marker original)
      /\ marker original = JS.repeat "*" (Nat.min (String.length original) 8)
      /\ (String.length (marker original) <= 8)%nat
      /\ (JS.includes (marker original) original = true <->
          original = JS.repeat "*" (String.length original)
          /\ (String.length original <= 8)%nat)
      /\ Recorder.maskSensitiveData (Recorder.options r) original fieldName
           = marker original
      /\ Network.maskValue original = marker original.
Proof.
  intros now url target r pattern Hrec Hon Htag Hin Hinc Hv fieldName original.
  subst fieldName original.
  pose proof (isSensitiveField_intro _ _ _ Hin Hinc) as Hs.
  pose proof (maskSensitiveData_sensitive _ _ _ Hon Hs Hv) as Hm.
  unfold Recorder.inputListener, Recorder.recordEvent.
  rewrite Hrec, (tag_accepted _ Htag). cbn [negb].
  rewrite Hm.
  eexists. split; [reflexivity|].
  split; [reflexivity|].
  split; [reflexivity|].
  split; [apply marker_length|].
  split; [apply marker_includes|].
  split; [reflexivity|].
  destruct (maskValue_cases (Dom.value target)) as [[E _] | [_ E]];
    [contradiction | exact E].
Qed.

(** The recording of [password = "secret123"] by a recorder with the default
    options. *)
Lemma masked_input_is_redacted_witness :
  let body := Dom.mkElement "BODY" "" "" false
                (Some (Dom.mkElement "HTML" "" "" true None)) in
  let field := {| Dom.element := Dom.mkElement "INPUT" "pw" "" false (Some body);
                  Dom.name := "password"; Dom.value := "secret123";
                  Dom.type := "password" |} in
  let r := {| Recorder.options := Recorder.defaultOptions;
              Recorder.sessionId := "s1"; Recorder.records := [];
              Recorder.isRecording := true; Recorder.startTime := Some 1000%Z;
              Recorder.listeners := ∅ |} in
  exists stored,
    Recorder.records (Recorder.inputListener 1500 "http://host/" field r) = [stored]
    /\ JS.get stored "value" = JS.VStr "********"
    /\ JS.includes "********" "secret123" = false.
Proof.
  intros body field r.
  destruct (masked_input_is_redacted 1500 "http://host/" field r "password")
    as (stored & E & V & _); try reflexivity.
  - simpl. auto.
  - simpl. auto.
  - discriminate.
  - exists stored. repeat split; assumption || reflexivity.
Defined.

(** C1, as first stated, fails on a value that is itself made of asterisks:
    the stored marker is the original value. *)
Lemma masked_value_of_asterisks_is_kept :
  Recorder.maskSensitiveData Recorder.defaultOptions "***" "password" = "***"
  /\ JS.includes
       (Recorder.maskSensitiveData Recorder.defaultOptions "***" "password")
       "***" = true.
Proof. split; reflexivity. Qed.

(** ** The selector resolver (src/record.js) *)

Lemma append_assoc (a b c : string) : ((a ++ b) ++ c = a ++ b ++ c)%string.
Proof.
  induction a as [|x a IH]; [reflexivity|].
  change (String x ((a ++ b) ++ c) = String x (a ++ b ++ c)).
  now rewrite IH.
Qed.

Lemma qualify_cons (p : Node.Element) (rest : list Node.Element)
    (selector : string) :
  qualify (p :: rest) selector =
  qualify rest (match qualifier p with
                | Some q => q ++ " > " ++ selector
                | None => selector
                end).
Proof. reflexivity. Qed.

Lemma visited_None (n : nat) : visited n None = [].
Proof. destruct n; reflexivity. Qed.

(** The loop raises when one of the ancestors it visits is unreadable, and
    otherwise puts their qualifiers in front of the selector. *)
Lemma ascend_visited (n : nat) :
  forall (p : Node.Element) (depth : nat) (selector : string),
    n = (3 - depth)%nat ->
    Selector.ascend p depth selector =
      if existsb unreadable (visited n (Some p)) then None
      else Some (qualify (visited n (Some p)) selector).
Proof.
  induction n as [|n IH]; intros p depth selector Hn.
  - destruct p as [tag pid pclass isRoot grand]. simpl.
    assert ((depth <? 3)%nat = false) as -> by (apply Nat.ltb_ge; lia).
    now rewrite orb_true_r.
  - destruct p as [tag pid pclass isRoot grand].
    assert ((depth <? 3)%nat = true) as Hd by (apply Nat.ltb_lt; lia).
    cbn [Selector.ascend visited Node.isDocumentElement Node.id
         Node.parentElement].
    rewrite Hd. cbn [negb]. rewrite orb_false_r.
    destruct isRoot; [reflexivity|].
    destruct (JS.nonEmpty pid) eqn:Hid.
    + cbn [existsb]. unfold unreadable at 1. cbn [Node.id Node.className].
      rewrite Hid. cbn [negb andb orb].
      rewrite qualify_cons. unfold qualifier. cbn [Node.id Node.tagName].
      rewrite Hid. unfold qualify. cbn [fold_left]. now rewrite !append_assoc.
    + cbn [existsb]. unfold unreadable at 1. cbn [Node.id Node.className].
      rewrite Hid. cbn [negb andb].
      destruct pclass as [c|v]; [|reflexivity].
      cbn [orb Node.truthy Node.split]. cbv zeta.
      rewrite qualify_cons. unfold qualifier.
      cbn [Node.id Node.tagName Node.className]. rewrite Hid. cbv zeta.
      assert (forall sel : string,
                 match grand with
                 | Some g => Selector.ascend g (S depth) sel
                 | None => Some sel
                 end = if existsb unreadable (visited n grand) then None
                       else Some (qualify (visited n grand) sel)) as Hgrand.
      { intros sel. destruct grand as [g|].
        - apply IH. lia.
        - now rewrite visited_None. }
      destruct (JS.nonEmpty c); cbn [andb].
      * destruct (0 <? _)%nat.
        -- rewrite <- Hgrand. destruct grand; now rewrite !append_assoc.
        -- rewrite <- Hgrand. now destruct grand.
      * rewrite <- Hgrand. now destruct grand.
Qed.

Lemma visited_length (n : nat) (parent : option Node.Element) :
  (List.length (visited n parent) <= n)%nat.
Proof.
  revert parent; induction n as [|n IH]; intros [p|]; simpl; try lia.
  destruct (Node.isDocumentElement p); simpl; [lia|].
  destruct (JS.nonEmpty (Node.id p)); simpl; [lia|].
  specialize (IH (Node.parentElement p)). lia.
Qed.

(** No visited ancestor is the root, and only the last one can have an id. *)
Lemma visited_stops (n : nat) (parent : option Node.Element) :
  Forall (fun p => Node.isDocumentElement p = false) (visited n parent)
  /\ forall (before after : list Node.Element) (p : Node.Element),
       visited n parent = (before ++ p :: after)%list ->
       Node.id p <> "" -> after = [].
Proof.
  revert parent; induction n as [|n IH]; intros [p|]; simpl;
    try (split; [constructor | intros [|? ?] ? ? ?; discriminate]).
  destruct (Node.isDocumentElement p) eqn:Hroot;
    [split; [constructor | intros [|? ?] ? ? ?; discriminate]|].
  destruct (JS.nonEmpty (Node.id p)) eqn:Hid.
  - split; [repeat constructor; assumption|].
    intros [|b before] after q E _; injection E as E1 E2.
    + now subst.
    + destruct before; discriminate.
  - destruct (IH (Node.parentElement p)) as [F S].
    split; [constructor; assumption|].
    intros [|b before] after q E Hq; injection E as E1 E2.
    + subst q. destruct (Node.id p); [congruence | discriminate].
    + eapply S; eassumption.
Qed.

Lemma qualify_suffix (ancestors : list Node.Element) (selector : string) :
  exists front, qualify ancestors selector = front ++ selector.
Proof.
  revert selector; induction ancestors as [|p rest IH]; intros selector.
  - now exists "".
  - rewrite qualify_cons.
    destruct (qualifier p) as [q|].
    + destruct (IH (q ++ " > " ++ selector)) as [front E].
      exists (front ++ q ++ " > "). rewrite E. now rewrite !append_assoc.
    + apply IH.
Qed.

Lemma append_empty (a : string) : (a ++ "")%string = a.
Proof.
  induction a as [|x a IH]; [reflexivity|].
  change (String x (a ++ "") = String x a). now rewrite IH.
Qed.

(** The element's own part: none when the element is unreadable. *)
Lemma ownSelector_shape (e : Node.Element) :
  (unreadable e = true -> Selector.ownSelector e = None)
  /\ (unreadable e = false ->
      exists own,
        Selector.ownSelector e = Some own
        /\ (exists rest, own = JS.toLowerCase (Node.tagName e) ++ rest)
        /\ (Node.id e <> "" ->
            own = JS.toLowerCase (Node.tagName e) ++ "#" ++ Node.id e)
        /\ (forall c, Node.id e = "" -> Node.className e = Node.ClassString c ->
            c <> "" ->
            own = JS.toLowerCase (Node.tagName e) ++ "." ++
                    JS.join "." (List.filter JS.nonEmpty (JS.split c " ")))
        /\ (Node.id e = "" -> Node.className e = Node.ClassString "" ->
            own = JS.toLowerCase (Node.tagName e))).
Proof.
  unfold Selector.ownSelector, unreadable.
  destruct (Node.id e) as [|a i]; cbn [JS.nonEmpty String.eqb negb andb].
  - destruct (Node.className e) as [[|b c]|v];
      cbn [Node.truthy Node.split JS.nonEmpty String.eqb negb].
    + split; [discriminate|]. intros _. eexists. split; [reflexivity|].
      repeat split; try congruence.
      exists "". now rewrite append_empty.
    + split; [discriminate|]. intros _. eexists. split; [reflexivity|].
      split; [eauto|]. split; [congruence|]. split; [|discriminate].
      intros c' _ E _. now injection E as <-.
    + split; [reflexivity | discriminate].
  - split; [discriminate|]. intros _. eexists. split; [reflexivity|].
    split; [eauto|]. split; [reflexivity|]. split; discriminate.
Qed.

(** On HTML elements the loop is the loop of [Recorder.ascend]. *)
Lemma ascend_ofHtml (n : nat) :
  forall (p : Dom.Element) (depth : nat) (selector : string),
    n = (3 - depth)%nat ->
    Selector.ascend (Node.ofHtml p) depth selector
    = Some (Recorder.ascend p depth selector).
Proof.
  induction n as [|n IH]; intros p depth selector Hn;
    destruct p as [tag pid pclass isRoot grand];
    cbn [Node.ofHtml Selector.ascend Recorder.ascend].
  - assert ((depth <? 3)%nat = false) as -> by (apply Nat.ltb_ge; lia).
    now rewrite orb_true_r.
  - destruct (isRoot || negb (depth <? 3)%nat); [reflexivity|].
    destruct (JS.nonEmpty pid); [reflexivity|].
    cbn [Node.truthy Node.split]. cbv zeta.
    destruct (JS.nonEmpty pclass).
    + destruct (0 <? _)%nat; destruct grand as [g|];
        try reflexivity; apply IH; lia.
    + destruct grand as [g|]; [apply IH; lia | reflexivity].
Qed.

(** On an HTML element below HTML elements only, the resolver returns what
    [Recorder.getElementSelector] computes. *)
Lemma getElementSelector_ofHtml (element : option Dom.Element) :
  Selector.getElementSelector (option_map Node.ofHtml element)
  = Some (Recorder.getElementSelector element).
Proof.
  destruct element as [[tag i c isRoot parent]|]; [|reflexivity].
  cbn [option_map Node.ofHtml].
  unfold Selector.getElementSelector, Recorder.getElementSelector.
  cbn [Node.isDocumentElement Dom.isDocumentElement].
  destruct isRoot; [reflexivity|].
  unfold Selector.ownSelector, Recorder.ownSelector.
  cbn [Node.id Node.tagName Node.className Node.parentElement
       Dom.id Dom.tagName Dom.className Dom.parentElement
       Node.truthy Node.split].
  cbv zeta.
  destruct (JS.nonEmpty i); [|destruct (JS.nonEmpty c)];
    (destruct parent as [p|]; [now apply (ascend_ofHtml 3) | reflexivity]).
Qed.




(** ** Severity thresholding (src/core/suspicious.js) *)

Section Filtering.

Context {A : Type} (keep : A -> bool).

Lemma filter_sublist (l : list A) : sublist (List.filter keep l) l.
Proof.
  induction l as [|x l IH]; simpl; [constructor|].
  destruct (keep x); [now apply sublist_skip | now apply sublist_cons].
Qed.

(** Every subsequence made of kept elements is a subsequence of the filter. *)
Lemma filter_greatest (k l : list A) :
  sublist k l -> Forall (fun x => keep x = true) k ->
  sublist k (List.filter keep l).
Proof.
  induction 1 as [|x k l _ IH|x k l _ IH]; intros F; simpl.
  - constructor.
  - inversion F as [|? ? Hx F']; subst. rewrite Hx.
    apply sublist_skip. now apply IH.
  - destruct (keep x); [apply sublist_cons|]; now apply IH.
Qed.

End Filtering.

(** C3. A threshold given to the constructor is the threshold in force (zero
    included).  [record] files the event under SUSPICIOUS exactly when its
    severity is at least the threshold, and [getSuspiciousRecords] returns
    exactly the stored records whose severity is at least the threshold, in
    the order of their recording: it is a subsequence of the records, holds
    those records and no others, and every subsequence of such records is a
    subsequence of it. *)
Theorem suspicious_by_threshold :
  (forall (x : float) (level : option string) (domains : option (list string)),
      Suspicious.suspiciousThreshold
        (Suspicious.makeOptions
           {| Suspicious.raw_suspiciousThreshold := Some x;
              Suspicious.raw_logLevel := level;
              Suspicious.raw_allowedDomains := domains |}) = x)
  /\ (forall (now : Z) (href : string) (ev : list (string * JS.value))
             (t : Suspicious.Tracker),
        let t' := Suspicious.record now href ev t in
        let threshold := Suspicious.suspiciousThreshold (Suspicious.options t) in
        exists entry channel,
          Suspicious.records t' = (Suspicious.records t ++ [entry])%list
          /\ Suspicious.console t' = (Suspicious.console t ++ [(channel, entry)])%list
          /\ Suspicious.options t' = Suspicious.options t
          /\ Suspicious.severity entry = Suspicious.calculateSeverity ev
          /\ (channel = Suspicious.SUSPICIOUS <->
              Suspicious.geq (Suspicious.severity entry) threshold = true))
  /\ (forall t : Suspicious.Tracker,
        let threshold := Suspicious.suspiciousThreshold (Suspicious.options t) in
        let found := Suspicious.getSuspiciousRecords t in
        sublist found (Suspicious.records t)
        /\ (forall r, In r found <->
                      In r (Suspicious.records t)
                      /\ Suspicious.geq (Suspicious.severity r) threshold = true)
        /\ (forall l,
              sublist l (Suspicious.records t) ->
              Forall (fun r => Suspicious.geq (Suspicious.severity r) threshold = true) l ->
              sublist l found)).
Proof.
  split; [reflexivity|]. split.
  - intros now href ev t t' threshold. subst t' threshold.
    exists {| Suspicious.event := ev; Suspicious.timestamp := now;
              Suspicious.url := href;
              Suspicious.severity := Suspicious.calculateSeverity ev |}.
    exists (if Suspicious.geq (Suspicious.calculateSeverity ev)
                 (Suspicious.suspiciousThreshold (Suspicious.options t))
            then Suspicious.SUSPICIOUS else Suspicious.ACTIVITY).
    do 4 (split; [reflexivity|]).
    cbn [Suspicious.severity].
    destruct (Suspicious.geq _ _); split; congruence.
  - intros t threshold found. subst threshold found.
    unfold Suspicious.getSuspiciousRecords. split; [apply filter_sublist|]. split.
    + intros r. apply filter_In.
    + intros l. apply filter_greatest.
Qed.

(** A tracker configured with the threshold 0: a hidden click (0.7) and an
    event of an unknown type (0) are both above it. *)
Lemma suspicious_by_threshold_witness :
  let raw := {| Suspicious.raw_suspiciousThreshold := Some 0%float;
                Suspicious.raw_logLevel := None;
                Suspicious.raw_allowedDomains := None |} in
  let t := Suspicious.record 20 "http://host/" [("type", JS.VStr "other")]
             (Suspicious.record 10 "http://host/" [("type", JS.VStr "hidden-click")]
                (Suspicious.newTracker raw)) in
  Suspicious.suspiciousThreshold (Suspicious.options t) = 0%float
  /\ Suspicious.getSuspiciousRecords t = Suspicious.records t.
Proof.
  intros raw t.
  destruct suspicious_by_threshold as (_ & _ & H).
  destruct (H t) as (Hsub & _ & Hmax).
  split; [reflexivity|].
  apply (anti_symm sublist); [exact Hsub|].
  apply Hmax; [reflexivity|].
  repeat constructor.
Defined.

(** A [domain-mismatch] event scores 1.0 and is suspicious under the default
    threshold 0.8. *)
Example domain_mismatch_is_suspicious :
  let t := Suspicious.record 10 "http://host/" [("type", JS.VStr "domain-mismatch")]
             (Suspicious.newTracker
                {| Suspicious.raw_suspiciousThreshold := None;
                   Suspicious.raw_logLevel := None;
                   Suspicious.raw_allowedDomains := None |}) in
  map Suspicious.severity (Suspicious.getSuspiciousRecords t) = [1.0%float]
  /\ map fst (Suspicious.console t) = [Suspicious.SUSPICIOUS].
Proof. split; reflexivity. Qed.

(** ** Click correlation of the fetch wrapper (src/core/suspicious.js) *)

Lemma record_keeps (now : Z) (href : string) (ev : list (string * JS.value))
    (t : Suspicious.Tracker) :
  Suspicious.lastClick (Suspicious.record now href ev t) = Suspicious.lastClick t
  /\ Suspicious.accessedValues (Suspicious.record now href ev t)
       = Suspicious.accessedValues t.
Proof. split; reflexivity. Qed.

Lemma clickListener_lastClick (now : Z) (href : string)
    (c : Suspicious.ClickEvent) (t : Suspicious.Tracker) :
  Suspicious.lastClick (Suspicious.clickListener now href c t)
    = Some {| Suspicious.clickTimestamp := now;
              Suspicious.clickElement := Suspicious.target c |}.
Proof.
  unfold Suspicious.clickListener.
  repeat match goal with |- context [if ?b then _ else _] => destruct b end;
    reflexivity.
Qed.

Lemma fetchWrapper_lastClick (now : Z) (href resource method body : string)
    (t : Suspicious.Tracker) :
  Suspicious.lastClick (Suspicious.fetchWrapper now href resource method body t)
    = Suspicious.lastClick t.
Proof.
  unfold Suspicious.fetchWrapper.
  repeat match goal with |- context [if ?b then _ else _] => destruct b end;
    reflexivity.
Qed.

Lemma run_lastClick (href : string) (history : list Suspicious.Occurrence) :
  forall t : Suspicious.Tracker,
    Suspicious.lastClick (Suspicious.run href history t)
      = latest history (Suspicious.lastClick t).
Proof.
  induction history as [|o history IH]; intros t; [reflexivity|].
  unfold Suspicious.run, latest in *. cbn [fold_left]. rewrite IH.
  destruct o as [now c | now resource method body]; cbn [Suspicious.step].
  - now rewrite clickListener_lastClick.
  - now rewrite fetchWrapper_lastClick.
Qed.

Lemma sorted_snoc (l : list Z) (x : Z) :
  StronglySorted Z.le (l ++ [x]) ->
  StronglySorted Z.le l /\ Forall (fun y => (y <= x)%Z) l.
Proof.
  induction l as [|a l IH]; simpl; intros H.
  - split; constructor.
  - apply StronglySorted_inv in H as [S F].
    destruct (IH S) as [S' F'].
    apply Forall_app in F as [Fl Fx].
    split; constructor; auto.
    now inversion Fx.
Qed.

(** In a chronological history the retained click is the latest one. *)
Lemma latest_spec (history : list Suspicious.Occurrence) :
  StronglySorted Z.le (map Suspicious.at_ history) ->
  forall init : option Suspicious.Click,
    match latest history init with
    | None =>
        init = None /\ forall tc c, ~ In (Suspicious.Clicked tc c) history
    | Some cl =>
        (init = Some cl /\ forall tc c, ~ In (Suspicious.Clicked tc c) history)
        \/ ((exists c, In (Suspicious.Clicked (Suspicious.clickTimestamp cl) c) history)
            /\ forall tc c, In (Suspicious.Clicked tc c) history ->
                            (tc <= Suspicious.clickTimestamp cl)%Z)
    end.
Proof.
  induction history as [|o history IH]; intros S init.
  - destruct init; simpl; [left|]; split; auto.
  - cbn [map] in S. apply StronglySorted_inv in S as [S F].
    specialize (IH S).
    destruct o as [t0 c0 | t0 resource method body].
    + change (latest (Suspicious.Clicked t0 c0 :: history) init)
        with (latest history
                (Some {| Suspicious.clickTimestamp := t0;
                         Suspicious.clickElement := Suspicious.target c0 |})).
      specialize (IH (Some {| Suspicious.clickTimestamp := t0;
                              Suspicious.clickElement := Suspicious.target c0 |})).
      destruct (latest history _) as [cl|].
      * right. destruct IH as [[E N] | [[c Hc] M]].
        -- injection E as <-. split.
           ++ exists c0. now left.
           ++ intros tc c [H|H]; [injection H as <- _; cbn; lia | now apply N in H].
        -- split.
           ++ exists c. now right.
           ++ intros tc c' [H|H]; [| now apply (M tc c')].
              injection H as <- _.
              rewrite List.Forall_forall in F.
              apply F. apply in_map_iff.
              now exists (Suspicious.Clicked (Suspicious.clickTimestamp cl) c).
      * now destruct IH.
    + change (latest (Suspicious.Fetched t0 resource method body :: history) init)
        with (latest history init).
      specialize (IH init).
      destruct (latest history init) as [cl|].
      * destruct IH as [[E N] | [[c Hc] M]]; [left | right].
        -- split; [assumption|]. intros tc c [H|H]; [discriminate | now apply N in H].
        -- split; [exists c; now right|].
           intros tc c' [H|H]; [discriminate | now apply (M tc c')].
      * destruct IH as [E N]. split; [assumption|].
        intros tc c [H|H]; [discriminate | now apply N in H].
Qed.

Lemma app_one_more {A : Type} (l : list A) (x : A) : l <> (l ++ [x])%list.
Proof.
  intros E. apply (f_equal (@List.length A)) in E.
  rewrite length_app in E. simpl in E. lia.
Qed.



(** ** The replayer: loading a session *)

Lemma loadSession_decoded (JSON_parse : string -> option JS.value)
    (data sd : JS.value) (s : Replayer.Replayer) :
  Decodes JSON_parse data sd ->
  Replayer.loadSession JSON_parse data s =
    match sd with
    | JS.VNull | JS.VUndef => (Replayer.Threw, s)
    | _ =>
        match JS.get sd "events" with
        | JS.VArr items =>
            (Replayer.Returned true,
             {| Replayer.sessionData := sd; Replayer.events := items;
                Replayer.isReplaying := Replayer.isReplaying s;
                Replayer.isPaused := Replayer.isPaused s;
                Replayer.currentIndex := 0;
                Replayer.replaySpeed := Replayer.replaySpeed s;
                Replayer.startTime := Replayer.startTime s;
                Replayer.timers := Replayer.timers s;
                Replayer.effects := Replayer.effects s |})
        | _ => (Replayer.Returned false, s)
        end
    end.
Proof.
  intros [d Ht Hns | text sd' Hne Hp]; unfold Replayer.loadSession.
  - rewrite Ht. cbn [negb].
    destruct d; try discriminate; try reflexivity.
    now destruct (Hns s0).
  - assert (JS.truthy (JS.VStr text) = true) as ->
      by (destruct text; [congruence | reflexivity]).
    cbn [negb]. rewrite Hp. destruct sd'; reflexivity.
Qed.

(** X1. The three failures and the success of [loadSession], for a session
    object that is not [null]: falsy data, a text that [JSON.parse] rejects
    and a session object without an [events] array make it return [false]
    and change nothing; a session object with an [events] array is stored,
    with its events, and the cursor is set to 0. *)
Theorem loadSession_result :
  forall (JSON_parse : string -> option JS.value) (data : JS.value)
         (s : Replayer.Replayer),
    (JS.truthy data = false ->
     Replayer.loadSession JSON_parse data s = (Replayer.Returned false, s))
    /\ (forall text,
          data = JS.VStr text -> JSON_parse text = None ->
          Replayer.loadSession JSON_parse data s = (Replayer.Returned false, s))
    /\ (forall sd,
          Decodes JSON_parse data sd -> sd <> JS.VNull -> sd <> JS.VUndef ->
          (forall items, JS.get sd "events" <> JS.VArr items) ->
          Replayer.loadSession JSON_parse data s = (Replayer.Returned false, s))
    /\ (forall sd items,
          Decodes JSON_parse data sd -> JS.get sd "events" = JS.VArr items ->
          exists s',
            Replayer.loadSession JSON_parse data s = (Replayer.Returned true, s')
            /\ Replayer.sessionData s' = sd
            /\ Replayer.events s' = items
            /\ Replayer.currentIndex s' = 0%nat
            /\ Replayer.isReplaying s' = Replayer.isReplaying s
            /\ Replayer.isPaused s' = Replayer.isPaused s
            /\ Replayer.replaySpeed s' = Replayer.replaySpeed s
            /\ Replayer.timers s' = Replayer.timers s
            /\ Replayer.effects s' = Replayer.effects s).
Proof.
  intros JSON_parse data s. repeat split.
  - intros H. unfold Replayer.loadSession. now rewrite H.
  - intros text -> Hp. unfold Replayer.loadSession.
    destruct (JS.truthy (JS.VStr text)); cbn [negb]; [now rewrite Hp | reflexivity].
  - intros sd Hd Hnull Hundef Hev. rewrite (loadSession_decoded _ _ _ _ Hd).
    destruct sd; try congruence; try reflexivity.
    destruct (JS.get (JS.VObj props) "events") eqn:E; try reflexivity.
    now destruct (Hev items).
  - intros sd items Hd Hev. rewrite (loadSession_decoded _ _ _ _ Hd).
    destruct sd; try discriminate. rewrite Hev.
    eexists. split; [reflexivity|]. repeat split.
Qed.

Lemma loadSession_result_witness :
  let s := Replayer.newReplayer None in
  Replayer.loadSession sampleParse JS.VNull s = (Replayer.Returned false, s)
  /\ Replayer.loadSession sampleParse (JS.VStr "{oops") s = (Replayer.Returned false, s)
  /\ Replayer.loadSession sampleParse (JS.VStr "{}") s = (Replayer.Returned false, s)
  /\ Replayer.loadSession sampleParse (JS.VObj [("sessionId", JS.VStr "s1")]) s
       = (Replayer.Returned false, s).
Proof.
  intros s.
  destruct (loadSession_result sampleParse JS.VNull s) as (H1 & _).
  destruct (loadSession_result sampleParse (JS.VStr "{oops") s) as (_ & H2 & _).
  destruct (loadSession_result sampleParse (JS.VStr "{}") s) as (_ & _ & H3 & _).
  destruct (loadSession_result sampleParse (JS.VObj [("sessionId", JS.VStr "s1")]) s)
    as (_ & _ & H4 & _).
  split; [now apply H1|].
  split; [now apply (H2 "{oops")|].
  split.
  - apply (H3 (JS.VObj [])); try discriminate.
    now apply decodes_text.
  - apply (H4 (JS.VObj [("sessionId", JS.VStr "s1")])); try discriminate.
    apply decodes_value; [reflexivity | discriminate].
Defined.

(** C6. The text [null] is valid JSON without an [events] array: [JSON.parse]
    returns [null], the test [sessionData.events] raises a TypeError, and
    [loadSession] returns nothing (the replayer is left as it was). *)
Theorem loadSession_null_text_raises :
  forall (JSON_parse : string -> option JS.value) (s : Replayer.Replayer),
    JSON_parse "null" = Some JS.VNull ->
    Replayer.loadSession JSON_parse (JS.VStr "null") s = (Replayer.Threw, s).
Proof.
  intros JSON_parse s H.
  rewrite (loadSession_decoded JSON_parse (JS.VStr "null") JS.VNull s);
    [reflexivity|].
  now apply decodes_text.
Qed.

Lemma loadSession_null_text_raises_witness :
  Replayer.loadSession sampleParse (JS.VStr "null") (Replayer.newReplayer None)
    = (Replayer.Threw, Replayer.newReplayer None).
Proof.
  apply (loadSession_null_text_raises sampleParse (Replayer.newReplayer None)).
  reflexivity.
Defined.

(** ** The replayer: seeking *)

Lemma jumpToEvent_cases (index : Z) (s : Replayer.Replayer) :
  ((0 <= index < Z.of_nat (List.length (Replayer.events s)))%Z
   /\ Replayer.jumpToEvent index s = Replayer.setIndex (Z.to_nat index) s)
  \/ (~ (0 <= index < Z.of_nat (List.length (Replayer.events s)))%Z
      /\ Replayer.jumpToEvent index s = s).
Proof.
  unfold Replayer.jumpToEvent.
  destruct (0 <=? index)%Z eqn:A; destruct (index <? _)%Z eqn:B; cbn [andb];
    try apply Z.leb_le in A; try apply Z.leb_gt in A;
    try apply Z.ltb_lt in B; try apply Z.ltb_ge in B;
    [left | right | right | right]; split; (lia || reflexivity).
Qed.

Lemma jumpToProgress_cases (percentage : float) (s : Replayer.Replayer) :
  Replayer.jumpToProgress percentage s = s
  \/ exists index,
       Replayer.floor
         (PrimFloat.mul (PrimFloat.div percentage 100)
            (Replayer.float_of_Z (Z.of_nat (List.length (Replayer.events s)))))
         = Some index
       /\ (0 <= index < Z.of_nat (List.length (Replayer.events s)))%Z
       /\ Replayer.jumpToProgress percentage s
            = Replayer.setIndex (Z.to_nat index) s.
Proof.
  unfold Replayer.jumpToProgress.
  destruct (Replayer.floor _) as [index|]; [|now left].
  destruct (jumpToEvent_cases index s) as [[R E] | [_ E]]; [right | now left].
  now exists index.
Qed.

(** C7 (as amended). [jumpToEvent(index)] sets [currentIndex] to [index] when
    [0 <= index < L] and changes nothing otherwise (an index outside the
    range is ignored, not clamped).  For every percentage,
    [jumpToProgress(percent)] is [jumpToEvent] at
    [floor((percent / 100) * L)], computed in binary64: it sets
    [currentIndex] to that index when the index is within the range and
    changes nothing when it is not, or when the product is NaN or
    infinite.  Neither touches the playing flags, the pending timers or the
    effects (no resumption).  On ten events [jumpToProgress] of 50, 0, 30
    and 99 sets [currentIndex] to 5, 0, 3 and 9, and of 100 changes
    nothing. *)
Theorem jump_sets_index_within_range :
  forall (s : Replayer.Replayer) (index : Z) (percentage : float),
    let L := Z.of_nat (List.length (Replayer.events s)) in
    let byEvent := Replayer.jumpToEvent index s in
    let byProgress := Replayer.jumpToProgress percentage s in
    ((0 <= index < L)%Z ->
     byEvent = Replayer.setIndex (Z.to_nat index) s
     /\ Z.of_nat (Replayer.currentIndex byEvent) = index)
    /\ (~ (0 <= index < L)%Z -> byEvent = s)
    /\ (forall target,
          Replayer.floor
            (PrimFloat.mul (PrimFloat.div percentage 100)
                           (Replayer.float_of_Z L)) = Some target ->
          byProgress = Replayer.jumpToEvent target s
          /\ ((0 <= target < L)%Z ->
              byProgress = Replayer.setIndex (Z.to_nat target) s
              /\ Z.of_nat (Replayer.currentIndex byProgress) = target)
          /\ (~ (0 <= target < L)%Z -> byProgress = s))
    /\ (Replayer.floor
          (PrimFloat.mul (PrimFloat.div percentage 100)
                         (Replayer.float_of_Z L)) = None ->
        byProgress = s)
    /\ (byProgress = s
        \/ exists target,
             Replayer.floor
               (PrimFloat.mul (PrimFloat.div percentage 100)
                              (Replayer.float_of_Z L)) = Some target
             /\ (0 <= target < L)%Z
             /\ byProgress = Replayer.setIndex (Z.to_nat target) s)
    /\ (forall s', s' = byEvent \/ s' = byProgress ->
          Replayer.isReplaying s' = Replayer.isReplaying s
          /\ Replayer.isPaused s' = Replayer.isPaused s
          /\ Replayer.timers s' = Replayer.timers s
          /\ Replayer.effects s' = Replayer.effects s
          /\ Replayer.events s' = Replayer.events s)
    /\ (List.length (Replayer.events s) = 10%nat ->
        Replayer.currentIndex (Replayer.jumpToProgress 50 s) = 5%nat
        /\ Replayer.currentIndex (Replayer.jumpToProgress 0 s) = 0%nat
        /\ Replayer.currentIndex (Replayer.jumpToProgress 30 s) = 3%nat
        /\ Replayer.currentIndex (Replayer.jumpToProgress 99 s) = 9%nat
        /\ Replayer.jumpToProgress 100 s = s).
Proof.
  intros s index percentage L byEvent byProgress. subst L byEvent byProgress.
  split; [|split; [|split; [|split; [|split; [|split]]]]].
  - intros R. destruct (jumpToEvent_cases index s) as [[_ E] | [N _]]; [|lia].
    rewrite E. split; [reflexivity|]. cbn. lia.
  - intros N. destruct (jumpToEvent_cases index s) as [[R _] | [_ E]]; [lia | exact E].
  - intros target Hfloor.
    assert (Replayer.jumpToProgress percentage s = Replayer.jumpToEvent target s)
      as E by (unfold Replayer.jumpToProgress; now rewrite Hfloor).
    rewrite E. split; [reflexivity|]. split.
    + intros R. destruct (jumpToEvent_cases target s) as [[_ E'] | [N _]]; [|lia].
      rewrite E'. split; [reflexivity|]. cbn. lia.
    + intros N.
      destruct (jumpToEvent_cases target s) as [[R _] | [_ E']]; [lia | exact E'].
  - intros Hfloor. unfold Replayer.jumpToProgress. now rewrite Hfloor.
  - apply jumpToProgress_cases.
  - intros s' [-> | ->].
    + destruct (jumpToEvent_cases index s) as [[_ ->] | [_ ->]]; repeat split.
    + destruct (jumpToProgress_cases percentage s) as [-> | (i & _ & _ & ->)];
        repeat split.
  - intros H. unfold Replayer.jumpToProgress, Replayer.jumpToEvent. rewrite H.
    repeat split.
Qed.

Lemma jump_sets_index_within_range_witness :
  let event := JS.VObj [("type", JS.VStr "click"); ("timestamp", JS.VNum 40)] in
  let s := Replayer.setIndex 3
             {| Replayer.sessionData := JS.VNull;
                Replayer.events := List.repeat event 10;
                Replayer.isReplaying := false; Replayer.isPaused := false;
                Replayer.currentIndex := 0; Replayer.replaySpeed := 1%float;
                Replayer.startTime := None; Replayer.timers := [];
                Replayer.effects := [] |} in
  Replayer.currentIndex (Replayer.jumpToEvent 7 s) = 7%nat
  /\ Replayer.jumpToEvent 10 s = s
  /\ Replayer.currentIndex (Replayer.jumpToProgress 50 s) = 5%nat.
Proof.
  intros event s.
  destruct (jump_sets_index_within_range s 7 50%float)
    as (H1 & _ & _ & _ & _ & _ & H5).
  destruct (jump_sets_index_within_range s 10 50%float) as (_ & H2 & _).
  split; [|split].
  - destruct H1 as [E _]; [cbn; lia|]. now rewrite E.
  - apply H2. cbn. lia.
  - now apply H5.
Defined.

(** C7, as first stated, fails outside the range: on ten events with the
    cursor at 3, a jump to 20, to -4 or to 100% leaves the cursor at 3,
    where clamping would give 9, 0 and 9. *)
Lemma jump_outside_range_is_ignored :
  let event := JS.VObj [("type", JS.VStr "click"); ("timestamp", JS.VNum 40)] in
  let s := Replayer.setIndex 3
             {| Replayer.sessionData := JS.VNull;
                Replayer.events := List.repeat event 10;
                Replayer.isReplaying := false; Replayer.isPaused := false;
                Replayer.currentIndex := 0; Replayer.replaySpeed := 1%float;
                Replayer.startTime := None; Replayer.timers := [];
                Replayer.effects := [] |} in
  (Replayer.currentIndex (Replayer.jumpToEvent 20 s) = 3%nat
   /\ clampedIndex 20 10 = 9%nat)
  /\ (Replayer.currentIndex (Replayer.jumpToEvent (-4) s) = 3%nat
      /\ clampedIndex (-4) 10 = 0%nat)
  /\ Replayer.currentIndex (Replayer.jumpToProgress 100 s) = 3%nat.
Proof. repeat split. Qed.

(** ** The replayer: starting, stopping and scheduling *)

(** [replayNext] satisfies the equation of the source method: the countdown
    of [replayNextFrom] never runs out. *)
Lemma replayNext_eq (s : Replayer.Replayer) :
  Replayer.replayNext s =
    if negb (Replayer.isReplaying s) || Replayer.isPaused s then s
    else if (List.length (Replayer.events s) <=? Replayer.currentIndex s)%nat
    then Replayer.onReplayComplete s
    else
      let event := default JS.VUndef (Replayer.events s !! Replayer.currentIndex s) in
      if negb (JS.truthy event) then
        Replayer.replayNext (Replayer.setIndex (S (Replayer.currentIndex s)) s)
      else
        let s1 := Replayer.setIndex (S (Replayer.currentIndex s))
                    (Replayer.emit (Replayer.ReplayEvent event) s) in
        let nextEvent :=
          default JS.VUndef (Replayer.events s1 !! Replayer.currentIndex s1) in
        if JS.truthy nextEvent && JS.truthy (JS.get event "timestamp") then
          Replayer.setTimeout
            (Replayer.delayBetween event nextEvent (Replayer.replaySpeed s1)) s1
        else Replayer.onReplayComplete s1.
Proof.
  unfold Replayer.replayNext.
  destruct (List.length (Replayer.events s) - Replayer.currentIndex s)%nat
    as [|fuel] eqn:F.
  - cbn [Replayer.replayNextFrom].
    assert ((List.length (Replayer.events s) <=? Replayer.currentIndex s)%nat = true)
      as -> by (apply Nat.leb_le; lia).
    reflexivity.
  - cbn [Replayer.replayNextFrom].
    destruct (negb _ || _); [reflexivity|].
    destruct (_ <=? _)%nat; [reflexivity|].
    cbv zeta. destruct (negb (JS.truthy _)); [|reflexivity].
    cbn [Replayer.setIndex Replayer.events Replayer.currentIndex].
    replace (List.length (Replayer.events s) - S (Replayer.currentIndex s))%nat
      with fuel by lia.
    reflexivity.
Qed.

Lemma startReplay_forgets_index (speed : option float) (now : Z) (i : nat)
    (s : Replayer.Replayer) :
  Replayer.isReplaying s = false ->
  Replayer.events s <> [] ->
  Replayer.startReplay speed now (Replayer.setIndex i s)
    = Replayer.startReplay speed now s.
Proof.
  intros Hr He. unfold Replayer.startReplay.
  cbn [Replayer.setIndex Replayer.isReplaying Replayer.events].
  rewrite Hr. destruct (Replayer.events s); [congruence | reflexivity].
Qed.

(** C10. [startReplay] does nothing while a replay is running or when no
    event is loaded; otherwise the run it starts is the run from index 0,
    whatever the cursor was: a position set by [jumpToEvent] or
    [jumpToProgress] while not replaying is discarded.  [stopReplay] keeps
    the loaded session, and a [startReplay] after it, whatever the replayer
    was doing when it was stopped (running, paused or idle, before or after
    a jump), is again the run from index 0: it replays the event at index
    0 first and leaves the cursor at 1. *)
Theorem startReplay_restarts_from_zero :
  forall (s : Replayer.Replayer) (speed : option float) (now : Z)
         (index : Z) (percentage : float),
    (Replayer.isReplaying s = true -> Replayer.startReplay speed now s = s)
    /\ (Replayer.events s = [] -> Replayer.startReplay speed now s = s)
    /\ (Replayer.isReplaying s = false ->
        (Replayer.events s <> [] ->
         Replayer.startReplay speed now s = runFromZero speed now s)
        /\ Replayer.startReplay speed now (Replayer.jumpToEvent index s)
             = Replayer.startReplay speed now s
        /\ Replayer.startReplay speed now (Replayer.jumpToProgress percentage s)
             = Replayer.startReplay speed now s)
    /\ Replayer.events (Replayer.stopReplay s) = Replayer.events s
    /\ Replayer.sessionData (Replayer.stopReplay s) = Replayer.sessionData s
    /\ (Replayer.events s <> [] ->
        Replayer.startReplay speed now (Replayer.stopReplay s)
          = runFromZero speed now s
        /\ Replayer.startReplay speed now
             (Replayer.stopReplay (Replayer.jumpToEvent index s))
           = runFromZero speed now s
        /\ Replayer.startReplay speed now
             (Replayer.stopReplay (Replayer.jumpToProgress percentage s))
           = runFromZero speed now s)
    /\ (forall first rest,
          Replayer.events s = first :: rest -> JS.truthy first = true ->
          let restarted := Replayer.startReplay speed now (Replayer.stopReplay s) in
          Replayer.events restarted = Replayer.events s
          /\ Replayer.currentIndex restarted = 1%nat
          /\ Replayer.startTime restarted = Some now
          /\ exists after,
               Replayer.effects restarted
                 = (Replayer.effects s ++ Replayer.ReplayEvent first :: after)%list
               /\ (after = [] \/ after = [Replayer.Complete])).
Proof.
  intros s speed now index percentage.
  assert (forall base : Replayer.Replayer,
             Replayer.isReplaying base = false -> Replayer.events base <> [] ->
             Replayer.startReplay speed now base = runFromZero speed now base)
    as Hstart.
  { intros base Hr He. unfold Replayer.startReplay, runFromZero. rewrite Hr.
    destruct (Replayer.events base); [congruence | reflexivity]. }
  assert (forall base : Replayer.Replayer,
             Replayer.events base <> [] ->
             Replayer.startReplay speed now (Replayer.stopReplay base)
             = runFromZero speed now base) as Hstop.
  { intros base He. rewrite Hstart; [reflexivity | reflexivity | exact He]. }
  assert (forall i : Z,
             runFromZero speed now (Replayer.jumpToEvent i s)
             = runFromZero speed now s) as Hjump.
  { intros i. destruct (jumpToEvent_cases i s) as [[_ ->] | [_ ->]]; reflexivity. }
  assert (forall i : Z,
             Replayer.events (Replayer.jumpToEvent i s) = Replayer.events s)
    as Hevents.
  { intros i. destruct (jumpToEvent_cases i s) as [[_ ->] | [_ ->]]; reflexivity. }
  assert (forall p : float,
             runFromZero speed now (Replayer.jumpToProgress p s)
             = runFromZero speed now s
             /\ Replayer.events (Replayer.jumpToProgress p s) = Replayer.events s)
    as Hprogress.
  { intros p. destruct (jumpToProgress_cases p s) as [-> | (i & _ & _ & ->)];
      split; reflexivity. }
  split; [|split; [|split; [|split; [|split; [|split]]]]].
  - intros Hr. unfold Replayer.startReplay. now rewrite Hr.
  - intros He. unfold Replayer.startReplay. rewrite He.
    now destruct (Replayer.isReplaying s).
  - intros Hr. split; [now apply Hstart|]. split.
    + destruct (jumpToEvent_cases index s) as [[R ->] | [_ ->]]; [|reflexivity].
      apply startReplay_forgets_index; [assumption|].
      destruct (Replayer.events s); [cbn in R; lia | discriminate].
    + destruct (jumpToProgress_cases percentage s) as [-> | (i & _ & R & ->)];
        [reflexivity|].
      apply startReplay_forgets_index; [assumption|].
      destruct (Replayer.events s); [cbn in R; lia | discriminate].
  - reflexivity.
  - reflexivity.
  - intros He. split; [now apply Hstop|]. split.
    + rewrite Hstop by (now rewrite Hevents). apply Hjump.
    + destruct (Hprogress percentage) as [Hrun Hev].
      rewrite Hstop by (now rewrite Hev). exact Hrun.
  - intros first rest He Ht restarted. subst restarted.
    rewrite Hstop by (rewrite He; discriminate).
    unfold runFromZero. rewrite replayNext_eq.
    cbn [Replayer.isReplaying Replayer.isPaused Replayer.events
         Replayer.currentIndex negb orb].
    rewrite He.
    cbn [List.length Nat.leb lookup list_lookup from_option id].
    cbv zeta. rewrite Ht. cbn [negb].
    match goal with
    | |- context [if ?b then _ else _] => destruct b
    end.
    + cbn. rewrite ?He. repeat split. exists []. split; [reflexivity | now left].
    + cbn. rewrite ?He. repeat split. exists [Replayer.Complete].
      split; [now rewrite <- List.app_assoc | now right].
Qed.

(** A replay of two events that is running, with the cursor at 1 and the
    timer of the second event pending, is stopped and started again: the
    first event is replayed once more and the cursor is back at 1. *)
Lemma startReplay_restarts_from_zero_witness :
  let e0 := JS.VObj [("type", JS.VStr "click"); ("timestamp", JS.VNum 40)] in
  let e1 := JS.VObj [("type", JS.VStr "keydown"); ("timestamp", JS.VNum 90)] in
  let running := {| Replayer.sessionData := JS.VObj [("events", JS.VArr [e0; e1])];
                    Replayer.events := [e0; e1];
                    Replayer.isReplaying := true; Replayer.isPaused := false;
                    Replayer.currentIndex := 1; Replayer.replaySpeed := 1%float;
                    Replayer.startTime := Some 1000%Z;
                    Replayer.timers := [50%float];
                    Replayer.effects := [Replayer.ReplayEvent e0] |} in
  let restarted := Replayer.startReplay None 5000 (Replayer.stopReplay running) in
  Replayer.startReplay None 5000 running = running
  /\ Replayer.effects restarted
       = [Replayer.ReplayEvent e0; Replayer.ReplayEvent e0]
  /\ Replayer.currentIndex restarted = 1%nat
  /\ Replayer.isReplaying restarted = true.
Proof.
  intros e0 e1 running restarted.
  destruct (startReplay_restarts_from_zero running None 5000 1 50%float)
    as (Hguard & _ & _ & _ & _ & Hstop & _).
  split; [now apply Hguard|].
  destruct Hstop as (E & _); [discriminate|].
  subst restarted. rewrite E. repeat split.
Defined.

(** What [replayNext] does with a truthy event under the cursor. *)
Lemma replayNext_dispatch (s : Replayer.Replayer) (event : JS.value) :
  Replayer.isReplaying s = true ->
  Replayer.isPaused s = false ->
  Replayer.events s !! Replayer.currentIndex s = Some event ->
  JS.truthy event = true ->
  Replayer.replayNext s =
    let s1 := Replayer.setIndex (S (Replayer.currentIndex s))
                (Replayer.emit (Replayer.ReplayEvent event) s) in
    match Replayer.events s !! S (Replayer.currentIndex s) with
    | Some nextEvent =>
        if JS.truthy nextEvent && JS.truthy (JS.get event "timestamp") then
          Replayer.setTimeout
            (Replayer.delayBetween event nextEvent (Replayer.replaySpeed s)) s1
        else Replayer.onReplayComplete s1
    | None => Replayer.onReplayComplete s1
    end.
Proof.
  intros Hr Hp He Ht. rewrite replayNext_eq, Hr, Hp. cbn [negb orb].
  assert ((List.length (Replayer.events s) <=? Replayer.currentIndex s)%nat = false)
    as -> by (apply Nat.leb_gt; now apply lookup_lt_Some in He).
  rewrite He. cbn [from_option id]. cbv zeta. rewrite Ht. cbn [negb].
  cbn [Replayer.setIndex Replayer.emit Replayer.events Replayer.currentIndex
       Replayer.replaySpeed].
  destruct (Replayer.events s !! S (Replayer.currentIndex s)); reflexivity.
Qed.

(** C2. When the event just replayed has a falsy timestamp (0, or none), the
    run is completed at once although a next event exists: nothing is
    scheduled and the remaining events are never replayed. *)
Theorem replay_completes_early_on_zero_timestamp :
  forall (s : Replayer.Replayer) (speed : option float) (now : Z)
         (first next : JS.value) (rest : list JS.value),
    Replayer.isReplaying s = false ->
    Replayer.events s = first :: next :: rest ->
    JS.truthy first = true ->
    JS.truthy next = true ->
    JS.truthy (JS.get first "timestamp") = false ->
    let s' := Replayer.startReplay speed now s in
    Replayer.effects s'
      = (Replayer.effects s ++ [Replayer.ReplayEvent first; Replayer.Complete])%list
    /\ Replayer.timers s' = Replayer.timers s
    /\ Replayer.isReplaying s' = false
    /\ Replayer.currentIndex s' = 1%nat
    /\ (Replayer.currentIndex s' < List.length (Replayer.events s'))%nat.
Proof.
  intros s speed now first next rest Hr He Hf Hn Hts s'. subst s'.
  unfold Replayer.startReplay. rewrite Hr, He. cbn [List.length Nat.eqb].
  rewrite (replayNext_dispatch _ first); try reflexivity; [|assumption].
  cbn [Replayer.events Replayer.currentIndex lookup list_lookup].
  cbv zeta. rewrite Hn, Hts. cbn [andb].
  cbn. rewrite <- List.app_assoc. repeat split. lia.
Qed.

(** A session of two clicks, the first recorded at 0 ms: only the first is
    replayed, whatever number of timers is waited for. *)
Lemma replay_completes_early_on_zero_timestamp_witness :
  let e0 := JS.VObj [("type", JS.VStr "click"); ("target", JS.VStr "button#go");
                     ("timestamp", JS.VNum 0)] in
  let e1 := JS.VObj [("type", JS.VStr "click"); ("target", JS.VStr "button#ok");
                     ("timestamp", JS.VNum 100)] in
  let loaded :=
    snd (Replayer.loadSession sampleParse
           (JS.VObj [("sessionId", JS.VStr "s1"); ("events", JS.VArr [e0; e1])])
           (Replayer.newReplayer None)) in
  let final := Replayer.runTimers 5 (Replayer.startReplay None 7000 loaded) in
  Replayer.events loaded = [e0; e1]
  /\ Replayer.effects final = [Replayer.ReplayEvent e0; Replayer.Complete]
  /\ Replayer.currentIndex final = 1%nat
  /\ Replayer.isReplaying final = false.
Proof.
  intros e0 e1 loaded final.
  destruct (replay_completes_early_on_zero_timestamp loaded None 7000 e0 e1 [])
    as (E & _); try reflexivity.
  repeat split.
Defined.

(** *** The schedule of a run whose timestamps are truthy *)

Lemma run_from_cursor (k : nat) :
  forall s : Replayer.Replayer,
    Replayer.isReplaying s = true ->
    Replayer.isPaused s = false ->
    Replayer.timers s = [] ->
    playable (Replayer.events s) ->
    (Replayer.currentIndex s + S k = List.length (Replayer.events s))%nat ->
    let final := Replayer.runTimers k (Replayer.replayNext s) in
    Replayer.effects final
      = (Replayer.effects s
           ++ map Replayer.ReplayEvent
                  (drop (Replayer.currentIndex s) (Replayer.events s))
           ++ [Replayer.Complete])%list
    /\ Replayer.currentIndex final = List.length (Replayer.events s)
    /\ Replayer.isReplaying final = false
    /\ Replayer.isPaused final = false
    /\ Replayer.timers final = [].
Proof.
  induction k as [|k IH]; intros s Hr Hp Htm Hplay Hlen final; subst final.
  - destruct (lookup_lt_is_Some_2 (Replayer.events s) (Replayer.currentIndex s))
      as [event He]; [lia|].
    destruct (Hplay _ _ He) as [Ht _].
    rewrite (replayNext_dispatch s event Hr Hp He Ht).
    rewrite (lookup_ge_None_2 (Replayer.events s) (S (Replayer.currentIndex s)))
      by lia.
    cbn [Replayer.runTimers]. cbv zeta.
    rewrite (drop_S _ _ _ He), drop_ge by lia.
    cbn. rewrite <- List.app_assoc. repeat split; [lia | assumption].
  - destruct (lookup_lt_is_Some_2 (Replayer.events s) (Replayer.currentIndex s))
      as [event He]; [lia|].
    destruct (lookup_lt_is_Some_2 (Replayer.events s) (S (Replayer.currentIndex s)))
      as [nextEvent Hn]; [lia|].
    destruct (Hplay _ _ He) as [Ht Hts]. destruct (Hplay _ _ Hn) as [Htn _].
    rewrite (replayNext_dispatch s event Hr Hp He Ht), Hn.
    cbv zeta. rewrite Htn, Hts by lia. cbn [andb].
    cbn [Replayer.runTimers].
    unfold Replayer.fireTimer.
    cbn [Replayer.setTimeout Replayer.setIndex Replayer.emit Replayer.timers
         Replayer.isReplaying Replayer.isPaused Replayer.sessionData
         Replayer.events Replayer.currentIndex Replayer.replaySpeed
         Replayer.startTime Replayer.effects].
    rewrite Htm, Hr, Hp. cbn [app andb negb].
    match goal with
    | |- context [Replayer.replayNext ?x] => specialize (IH x)
    end.
    cbn [Replayer.isReplaying Replayer.isPaused Replayer.timers Replayer.events
         Replayer.currentIndex Replayer.effects] in IH.
    destruct IH as (E & I & R & P & T); try reflexivity; try assumption; [lia|].
    rewrite E, (drop_S _ _ _ He). cbn [map].
    rewrite <- List.app_assoc. repeat split; assumption.
Qed.

(** X2. Replay completeness, for sessions whose timestamps are truthy: started
    on a loaded, playable session, the engine replays every stored event
    once, in stored order, one per timer, and completes after the last. *)
Theorem replay_of_playable_session_is_complete :
  forall (s : Replayer.Replayer) (speed : option float) (now : Z),
    Replayer.isReplaying s = false ->
    Replayer.timers s = [] ->
    Replayer.events s <> [] ->
    playable (Replayer.events s) ->
    let final :=
      Replayer.runTimers (List.length (Replayer.events s) - 1)
                         (Replayer.startReplay speed now s) in
    Replayer.effects final
      = (Replayer.effects s ++ map Replayer.ReplayEvent (Replayer.events s)
           ++ [Replayer.Complete])%list
    /\ Replayer.currentIndex final = List.length (Replayer.events s)
    /\ Replayer.isReplaying final = false
    /\ Replayer.timers final = [].
Proof.
  intros s speed now Hr Htm He Hplay final. subst final.
  unfold Replayer.startReplay. rewrite Hr.
  destruct (Replayer.events s) as [|e0 rest] eqn:Hev; [congruence|].
  cbn [List.length Nat.eqb].
  match goal with
  | |- context [Replayer.replayNext ?x] =>
      pose proof (run_from_cursor (List.length rest) x) as H
  end.
  cbn [Replayer.isReplaying Replayer.isPaused Replayer.timers Replayer.events
       Replayer.currentIndex Replayer.effects drop] in H.
  replace (S (List.length rest) - 1)%nat with (List.length rest) by lia.
  destruct H as (E & I & R & _ & T); try reflexivity; try assumption.
  repeat split; assumption.
Qed.

Lemma replay_of_playable_session_is_complete_witness :
  let e0 := JS.VObj [("type", JS.VStr "click"); ("timestamp", JS.VNum 40)] in
  let e1 := JS.VObj [("type", JS.VStr "keydown"); ("timestamp", JS.VNum 90)] in
  let e2 := JS.VObj [("type", JS.VStr "keyup"); ("timestamp", JS.VNum 130)] in
  let s := {| Replayer.sessionData := JS.VObj [("events", JS.VArr [e0; e1; e2])];
              Replayer.events := [e0; e1; e2];
              Replayer.isReplaying := false; Replayer.isPaused := false;
              Replayer.currentIndex := 0; Replayer.replaySpeed := 1%float;
              Replayer.startTime := None; Replayer.timers := [];
              Replayer.effects := [] |} in
  let final := Replayer.runTimers 2 (Replayer.startReplay None 5000 s) in
  Replayer.effects final
    = [Replayer.ReplayEvent e0; Replayer.ReplayEvent e1; Replayer.ReplayEvent e2;
       Replayer.Complete]
  /\ Replayer.currentIndex final = 3%nat.
Proof.
  intros e0 e1 e2 s final.
  destruct (replay_of_playable_session_is_complete s None 5000)
    as (E & I & _); try reflexivity; try discriminate.
  - intros [|[|[|i]]] event H; try discriminate; injection H as <-;
      split; try reflexivity; cbn; intros; (reflexivity || lia).
  - split; [exact E | exact I].
Defined.

(** ** The recorder: stopping and restarting (src/record.js) *)

(** Nothing is appended while the recorder is stopped. *)
Lemma recordEvent_stopped (now : Z) (url : string)
    (event : list (string * JS.value)) (r : Recorder.Recorder) :
  Recorder.isRecording r = false -> Recorder.recordEvent now url event r = r.
Proof. intros H. unfold Recorder.recordEvent. now rewrite H. Qed.

Lemma pollUrls_stopped (now : Z) (url : string) (pollers : list string)
    (r : Recorder.Recorder) :
  Recorder.isRecording r = false ->
  snd (Recorder.pollUrls now url pollers r) = r.
Proof.
  intros H. induction pollers as [|c rest IH]; [reflexivity|].
  cbn [Recorder.pollUrls].
  assert ((if String.eqb url c then r
           else Recorder.recordEvent now url
                  [("type", JS.VStr "url-change"); ("from", JS.VStr c);
                   ("to", JS.VStr url)] r) = r) as ->
    by (destruct (String.eqb url c); [reflexivity | now apply recordEvent_stopped]).
  destruct (Recorder.pollUrls now url rest r) as [rest' r2]. exact IH.
Qed.

Lemma sameRecording_refl (p : Recorder.Page) : sameRecording p p.
Proof. repeat split. Qed.

Lemma sameRecording_trans (p q r : Recorder.Page) :
  sameRecording p q -> sameRecording q r -> sameRecording p r.
Proof.
  unfold sameRecording. intros (A1 & A2 & A3 & A4 & A5) (B1 & B2 & B3 & B4 & B5).
  repeat split; congruence.
Qed.

Lemma addListener_same (ty : string) (p : Recorder.Page) :
  sameRecording p (Recorder.addListener ty p).
Proof. repeat split. Qed.

Lemma addListeners_same (tys : list string) :
  forall p : Recorder.Page, sameRecording p (Recorder.addListeners tys p).
Proof.
  induction tys as [|ty tys IH]; intros p; [apply sameRecording_refl|].
  unfold Recorder.addListeners. cbn [fold_left].
  eapply sameRecording_trans; [apply (addListener_same ty) | apply IH].
Qed.

Lemma recordElementScrolls_same (elements : list Dom.Element) :
  forall p : Recorder.Page,
    sameRecording p
      (fold_left (fun q e => Recorder.recordElementScroll e q) elements p).
Proof.
  induction elements as [|e elements IH]; intros p; [apply sameRecording_refl|].
  cbn [fold_left].
  eapply sameRecording_trans; [|apply IH]. repeat split.
Qed.

Lemma registration_same (p : Recorder.Page) :
  sameRecording p
    (Recorder.recordFormInputs
       (Recorder.recordResizeEvents
          (Recorder.recordScrollEvents
             (Recorder.recordKeyboardEvents (Recorder.recordMouseEvents p))))).
Proof.
  assert (forall q, sameRecording q (Recorder.recordMouseEvents q)) as H1.
  { intros q. unfold Recorder.recordMouseEvents.
    destruct (Recorder.opt_recordMouse _); [|apply sameRecording_refl]. cbn [negb].
    eapply sameRecording_trans; [|apply addListener_same].
    destruct (Recorder.opt_recordClicks _);
      [apply addListeners_same | apply sameRecording_refl]. }
  assert (forall q, sameRecording q (Recorder.recordKeyboardEvents q)) as H2.
  { intros q. unfold Recorder.recordKeyboardEvents.
    destruct (Recorder.opt_recordKeyboard _);
      [apply addListeners_same | apply sameRecording_refl]. }
  assert (forall q, sameRecording q (Recorder.recordScrollEvents q)) as H3.
  { intros q. unfold Recorder.recordScrollEvents.
    destruct (Recorder.opt_recordScroll _); [|apply sameRecording_refl]. cbn [negb].
    eapply sameRecording_trans; [apply (addListener_same "scroll")|].
    eapply sameRecording_trans; [apply recordElementScrolls_same|].
    eapply sameRecording_trans; [|apply addListener_same]. repeat split. }
  assert (forall q, sameRecording q (Recorder.recordResizeEvents q)) as H4.
  { intros q. unfold Recorder.recordResizeEvents.
    destruct (Recorder.opt_recordResize _);
      [apply addListener_same | apply sameRecording_refl]. }
  assert (forall q, sameRecording q (Recorder.recordFormInputs q)) as H5.
  { intros q. unfold Recorder.recordFormInputs.
    destruct (Recorder.opt_recordFormInputs _);
      [apply addListeners_same | apply sameRecording_refl]. }
  eauto using sameRecording_trans.
Qed.

(** What [startRecording] arms when navigation is recorded. *)
Lemma startRecording_arms_poller (now : Z) (freshId : string) (p : Recorder.Page) :
  Recorder.isRecording (Recorder.recorder p) = false ->
  Recorder.opt_recordNavigation (Recorder.options (Recorder.recorder p)) = true ->
  let started := Recorder.startRecording now freshId p in
  Recorder.urlPollers started = (Recorder.urlPollers p ++ [Recorder.href p])%list
  /\ Recorder.href started = Recorder.href p
  /\ Recorder.options (Recorder.recorder started)
       = Recorder.options (Recorder.recorder p)
  /\ Recorder.isRecording (Recorder.recorder started) = true.
Proof.
  intros Hr Hn started. subst started. unfold Recorder.startRecording. rewrite Hr.
  match goal with
  | |- context [Recorder.recordNavigationEvents ?q] =>
      assert (sameRecording
                (Recorder.setRecorder
                   {| Recorder.options := Recorder.options (Recorder.recorder p);
                      Recorder.sessionId := freshId; Recorder.records := [];
                      Recorder.isRecording := true;
                      Recorder.startTime := Some now;
                      Recorder.listeners :=
                        Recorder.listeners (Recorder.recorder p) |} p) q)
        as (A1 & A2 & A3 & A4 & _) by apply registration_same;
      set (registered := q) in *
  end.
  cbn [Recorder.setRecorder Recorder.href Recorder.urlPollers Recorder.recorder
       Recorder.options Recorder.isRecording] in A1, A2, A3, A4.
  unfold Recorder.recordNavigationEvents. rewrite A3, Hn. cbn [negb].
  destruct (addListeners_same ["load"; "beforeunload"] registered)
    as (B1 & B2 & B3 & B4 & _).
  cbn [Recorder.setUrlPoller Recorder.urlPollers Recorder.href Recorder.recorder].
  rewrite B1, B2, B3, B4, A1, A2, A3, A4. repeat split.
Qed.

(** X4. [stopRecording] cancels no url-polling interval, detaches no element
    scroll listener and disconnects no observer: whatever [startRecording]
    armed is still there after it, and a second [startRecording] arms a
    second interval beside the first.  While the recorder is stopped a
    firing of the intervals appends nothing. *)
Theorem stopRecording_cancels_no_timer :
  forall (p : Recorder.Page) (now now' later : Z) (freshId freshId' : string),
    Recorder.isRecording (Recorder.recorder p) = false ->
    Recorder.opt_recordNavigation (Recorder.options (Recorder.recorder p)) = true ->
    let started := Recorder.startRecording now freshId p in
    let stopped := snd (Recorder.stopRecording started) in
    let restarted := Recorder.startRecording now' freshId' stopped in
    Recorder.urlPollers started = (Recorder.urlPollers p ++ [Recorder.href p])%list
    /\ Recorder.urlPollers stopped = Recorder.urlPollers started
    /\ Recorder.elementListeners stopped = Recorder.elementListeners started
    /\ Recorder.observers stopped = Recorder.observers started
    /\ Recorder.isRecording (Recorder.recorder stopped) = false
    /\ Recorder.recorder (Recorder.tick later stopped) = Recorder.recorder stopped
    /\ Recorder.urlPollers restarted
         = (Recorder.urlPollers p ++ [Recorder.href p; Recorder.href p])%list.
Proof.
  intros p now now' later freshId freshId' Hr Hn started stopped restarted.
  destruct (startRecording_arms_poller now freshId p Hr Hn) as (S1 & S2 & S3 & S4).
  fold started in S1, S2, S3, S4.
  assert (Recorder.urlPollers stopped = Recorder.urlPollers started
          /\ Recorder.elementListeners stopped = Recorder.elementListeners started
          /\ Recorder.observers stopped = Recorder.observers started
          /\ Recorder.isRecording (Recorder.recorder stopped) = false
          /\ Recorder.href stopped = Recorder.href started
          /\ Recorder.options (Recorder.recorder stopped)
               = Recorder.options (Recorder.recorder started))
    as (T1 & T2 & T3 & T4 & T5 & T6).
  { subst stopped. unfold Recorder.stopRecording. rewrite S4. repeat split. }
  split; [exact S1|]. split; [exact T1|]. split; [exact T2|].
  split; [exact T3|]. split; [exact T4|]. split.
  - unfold Recorder.tick.
    pose proof (pollUrls_stopped later (Recorder.href stopped)
                  (Recorder.urlPollers stopped) (Recorder.recorder stopped) T4) as Q.
    destruct (Recorder.pollUrls _ _ _ _) as [pollers r]. exact Q.
  - destruct (startRecording_arms_poller now' freshId' stopped T4) as (R1 & _).
    { now rewrite T6, S3. }
    fold restarted in R1. rewrite R1, T1, S1, T5, S2.
    now rewrite <- List.app_assoc.
Qed.

Lemma stopRecording_cancels_no_timer_witness :
  let page := Recorder.newPage Recorder.defaultOptions "s0" "http://host/" "home" [] in
  let stopped :=
    snd (Recorder.stopRecording (Recorder.startRecording 1000 "s1" page)) in
  Recorder.urlPollers stopped = ["http://host/"]
  /\ Recorder.urlPollers (Recorder.startRecording 3000 "s2" stopped)
       = ["http://host/"; "http://host/"].
Proof.
  intros page stopped.
  destruct (stopRecording_cancels_no_timer page 1000 3000 2000 "s1" "s2"
              eq_refl eq_refl) as (H1 & H2 & _ & _ & _ & _ & H7).
  subst stopped. split; [now rewrite H2, H1 | exact H7].
Defined.

(** C8. A page with one scrollable element, recorded with the default
    options.  After [stopRecording] the listeners of [document] are gone,
    but the url-polling interval is still armed, the scroll listener of the
    element is still attached and the MutationObserver still observes
    (while stopped, a firing of the interval appends nothing).  After a
    second [startRecording] two intervals are armed, and one navigation is
    recorded twice in the new session. *)
Theorem restart_keeps_timers_of_previous_run :
  let html := Dom.mkElement "HTML" "" "" true None in
  let body := Dom.mkElement "BODY" "" "" false (Some html) in
  let pane := Dom.mkElement "DIV" "pane" "" false (Some body) in
  let page := Recorder.newPage Recorder.defaultOptions "s0" "http://host/" "home"
                [pane] in
  let started := Recorder.startRecording 1000 "s1" page in
  let stopped := snd (Recorder.stopRecording started) in
  let restarted := Recorder.startRecording 3000 "s2" stopped in
  let moved := Recorder.tick 4000 (Recorder.navigate "http://host/#next" restarted) in
  (Recorder.urlPollers started = ["http://host/"]
   /\ List.length (Recorder.documentListeners started) = 17%nat
   /\ map snd (Recorder.elementListeners started) = [9%nat]
   /\ Recorder.observers started = 1%nat)
  /\ (Recorder.isRecording (Recorder.recorder stopped) = false
      /\ Recorder.documentListeners stopped = []
      /\ Recorder.urlPollers stopped = ["http://host/"]
      /\ map snd (Recorder.elementListeners stopped) = [9%nat]
      /\ Recorder.observers stopped = 1%nat
      /\ Recorder.records
           (Recorder.recorder
              (Recorder.tick 2000 (Recorder.navigate "http://host/#next" stopped)))
         = [])
  /\ (Recorder.urlPollers restarted = ["http://host/"; "http://host/"]
      /\ List.length (Recorder.elementListeners restarted) = 2%nat
      /\ Recorder.observers restarted = 2%nat
      /\ Recorder.records (Recorder.recorder restarted) = []
      /\ map (fun r => (JS.get r "type", JS.get r "sessionId", JS.get r "to"))
             (Recorder.records (Recorder.recorder moved))
         = [(JS.VStr "url-change", JS.VStr "s2", JS.VStr "http://host/#next");
            (JS.VStr "url-change", JS.VStr "s2", JS.VStr "http://host/#next")]).
Proof. vm_compute. repeat split. Qed.

(** [Math.max(0, x)] is never below zero. *)
Lemma max0_not_negative (x : float) : PrimFloat.ltb (Replayer.max0 x) 0 = false.
Proof.
  unfold Replayer.max0. destruct (PrimFloat.leb x 0) eqn:L; [reflexivity|].
  rewrite leb_spec in L. rewrite ltb_spec.
  unfold SFleb in L. unfold SFltb.
  destruct (SFcompare (Prim2SF x) (Prim2SF 0)) as [[]|];
    (reflexivity || discriminate).
Qed.

(** X3. The scheduling step: after replaying the event under the cursor, the
    engine arms one timer for the next event, with the gap between the two
    timestamps divided by the speed (0 when that is negative), provided the
    replayed event's timestamp is not 0; with no next event it completes. *)
Theorem next_event_is_scheduled_after_scaled_gap :
  forall (s : Replayer.Replayer) (event : JS.value) (t0 : Z),
    Replayer.isReplaying s = true ->
    Replayer.isPaused s = false ->
    Replayer.events s !! Replayer.currentIndex s = Some event ->
    JS.truthy event = true ->
    JS.get event "timestamp" = JS.VNum t0 ->
    t0 <> 0%Z ->
    let s1 := Replayer.setIndex (S (Replayer.currentIndex s))
                (Replayer.emit (Replayer.ReplayEvent event) s) in
    (forall nextEvent t1,
        Replayer.events s !! S (Replayer.currentIndex s) = Some nextEvent ->
        JS.truthy nextEvent = true ->
        JS.get nextEvent "timestamp" = JS.VNum t1 ->
        let delay :=
          Replayer.max0
            (PrimFloat.div
               (PrimFloat.sub (Replayer.float_of_Z t1) (Replayer.float_of_Z t0))
               (Replayer.replaySpeed s)) in
        Replayer.replayNext s = Replayer.setTimeout delay s1
        /\ PrimFloat.ltb delay 0 = false)
    /\ (Replayer.events s !! S (Replayer.currentIndex s) = None ->
        Replayer.replayNext s = Replayer.onReplayComplete s1).
Proof.
  intros s event t0 Hr Hp He Ht Hts Hnz s1. subst s1.
  rewrite (replayNext_dispatch s event Hr Hp He Ht). split.
  - intros nextEvent t1 Hn Htn Hts1 delay. subst delay.
    rewrite Hn. cbv zeta. rewrite Htn, Hts. cbn [andb JS.truthy].
    assert ((t0 =? 0)%Z = false) as -> by now apply Z.eqb_neq.
    cbn [negb]. unfold Replayer.delayBetween. rewrite Hts, Hts1.
    split; [reflexivity | apply max0_not_negative].
  - intros Hn. now rewrite Hn.
Qed.

Lemma next_event_is_scheduled_after_scaled_gap_witness :
  let e0 := JS.VObj [("type", JS.VStr "click"); ("timestamp", JS.VNum 40)] in
  let e1 := JS.VObj [("type", JS.VStr "keydown"); ("timestamp", JS.VNum 90)] in
  let s := {| Replayer.sessionData := JS.VObj [("events", JS.VArr [e0; e1])];
              Replayer.events := [e0; e1];
              Replayer.isReplaying := true; Replayer.isPaused := false;
              Replayer.currentIndex := 0; Replayer.replaySpeed := 2%float;
              Replayer.startTime := Some 5000%Z; Replayer.timers := [];
              Replayer.effects := [] |} in
  Replayer.timers (Replayer.replayNext s) = [25%float].
Proof.
  intros e0 e1 s.
  assert (40 <> 0)%Z as Hnz by discriminate.
  destruct (next_event_is_scheduled_after_scaled_gap s e0 40
              eq_refl eq_refl eq_refl eq_refl eq_refl Hnz) as [H _].
  destruct (H e1 90%Z eq_refl eq_refl eq_refl) as [E _].
  rewrite E. reflexivity.
Defined.

(** ** Objects: writing and reading properties *)

Lemma lookupProp_setProp_eq (props : list (string * JS.value)) (key : string)
    (v : JS.value) :
  JS.lookupProp (JS.setProp props key v) key = v.
Proof.
  induction props as [|[k old] rest IH]; cbn [JS.setProp JS.lookupProp].
  - now rewrite String.eqb_refl.
  - destruct (String.eqb k key) eqn:E; cbn [JS.lookupProp]; rewrite E;
      [reflexivity | exact IH].
Qed.

Lemma lookupProp_setProp_ne (props : list (string * JS.value)) (key other : string)
    (v : JS.value) :
  key <> other ->
  JS.lookupProp (JS.setProp props key v) other = JS.lookupProp props other.
Proof.
  intros Hne.
  assert (String.eqb key other = false) as Hko by now apply String.eqb_neq.
  induction props as [|[k old] rest IH]; cbn [JS.setProp JS.lookupProp].
  - now rewrite Hko.
  - destruct (String.eqb k key) eqn:E; cbn [JS.lookupProp].
    + apply String.eqb_eq in E. subst k. now rewrite Hko.
    + destruct (String.eqb k other); [reflexivity | exact IH].
Qed.

Lemma lookupProp_literal_other (entries base : list (string * JS.value))
    (key : string) :
  ~ In key (map fst entries) ->
  JS.lookupProp (JS.literal base entries) key = JS.lookupProp base key.
Proof.
  revert base. induction entries as [|[k v] entries IH]; intros base Hnot;
    [reflexivity|].
  unfold JS.literal in *. cbn [fold_left fst snd].
  rewrite IH by (intros H; apply Hnot; now right).
  apply lookupProp_setProp_ne. intros ->. apply Hnot. now left.
Qed.

(** ** The recorder: what a record holds, and in which order *)

(** X5. While recording, [recordEvent] appends exactly one record and changes
    nothing else.  The record carries the recorder's [sessionId], the
    [timestamp] [now - startTime], the page [url] and [timestampAbsolute =
    now], also when the event has properties of these names (they are
    overwritten); every other property of the event is kept as it is. *)
Theorem recordEvent_stamps_the_event :
  forall (now : Z) (url : string) (event : list (string * JS.value))
         (r : Recorder.Recorder),
    Recorder.isRecording r = true ->
    let r' := Recorder.recordEvent now url event r in
    exists record,
      Recorder.records r' = (Recorder.records r ++ [record])%list
      /\ JS.get record "sessionId" = JS.VStr (Recorder.sessionId r)
      /\ JS.get record "timestamp"
           = JS.VNum (now - default 0%Z (Recorder.startTime r))
      /\ JS.get record "url" = JS.VStr url
      /\ JS.get record "timestampAbsolute" = JS.VNum now
      /\ (forall key, ~ In key stampKeys ->
                      JS.get record key = JS.lookupProp event key)
      /\ JS.truthy record = true
      /\ Recorder.sessionId r' = Recorder.sessionId r
      /\ Recorder.startTime r' = Recorder.startTime r
      /\ Recorder.isRecording r' = true
      /\ Recorder.options r' = Recorder.options r
      /\ Recorder.listeners r' = Recorder.listeners r.
Proof.
  intros now url event r Hrec r'. subst r'.
  unfold Recorder.recordEvent. rewrite Hrec. cbn [negb].
  eexists. split; [reflexivity|].
  cbn [JS.get JS.literal fold_left fst snd].
  repeat split; try assumption.
  - rewrite !lookupProp_setProp_ne by discriminate.
    apply lookupProp_setProp_eq.
  - rewrite !lookupProp_setProp_ne by discriminate.
    apply lookupProp_setProp_eq.
  - rewrite lookupProp_setProp_ne by discriminate.
    apply lookupProp_setProp_eq.
  - apply lookupProp_setProp_eq.
  - intros key Hkey. unfold stampKeys in Hkey. cbn [In] in Hkey.
    rewrite !lookupProp_setProp_ne; [reflexivity | | | |];
      intros <-; apply Hkey; auto.
Qed.

Lemma recordEvent_stamps_the_event_witness :
  let r := {| Recorder.options := Recorder.defaultOptions;
              Recorder.sessionId := "s1"; Recorder.records := [];
              Recorder.isRecording := true; Recorder.startTime := Some 1000%Z;
              Recorder.listeners := ∅ |} in
  let event := [("type", JS.VStr "page-load"); ("url", JS.VStr "stale");
                ("title", JS.VStr "home")] in
  exists record,
    Recorder.records (Recorder.recordEvent 1500 "http://host/" event r) = [record]
    /\ JS.get record "url" = JS.VStr "http://host/"
    /\ JS.get record "timestamp" = JS.VNum 500
    /\ JS.get record "title" = JS.VStr "home".
Proof.
  intros r event.
  destruct (recordEvent_stamps_the_event 1500 "http://host/" event r eq_refl)
    as (record & E & _ & T & U & _ & K & _).
  exists record. split; [exact E|]. split; [exact U|]. split; [exact T|].
  rewrite K; [reflexivity|].
  unfold stampKeys. cbn [In]. intros [H|[H|[H|[H|[]]]]]; discriminate.
Defined.

Lemma recordEvent_appends (now : Z) (url : string)
    (event : list (string * JS.value)) (r : Recorder.Recorder) :
  Recorder.isRecording r = true ->
  exists record,
    Recorder.records (Recorder.recordEvent now url event r)
      = (Recorder.records r ++ [record])%list
    /\ JS.get record "timestamp"
         = JS.VNum (now - default 0%Z (Recorder.startTime r))
    /\ JS.truthy record = true
    /\ Recorder.isRecording (Recorder.recordEvent now url event r) = true
    /\ Recorder.startTime (Recorder.recordEvent now url event r)
         = Recorder.startTime r.
Proof.
  intros Hrec. unfold Recorder.recordEvent. rewrite Hrec. cbn [negb].
  eexists. split; [reflexivity|].
  cbn [JS.get JS.literal fold_left fst snd].
  repeat split; try assumption.
  rewrite !lookupProp_setProp_ne by discriminate.
  apply lookupProp_setProp_eq.
Qed.

Lemma recordAll_appends (url : string)
    (calls : list (Z * list (string * JS.value))) :
  forall r : Recorder.Recorder,
    Recorder.isRecording r = true ->
    exists stamped,
      Recorder.records (recordAll url calls r)
        = (Recorder.records r ++ stamped)%list
      /\ map (fun record => JS.get record "timestamp") stamped
           = map (fun call =>
                    JS.VNum (fst call - default 0%Z (Recorder.startTime r)))
                 calls
      /\ Forall (fun record => JS.truthy record = true) stamped.
Proof.
  induction calls as [|[now event] calls IH]; intros r Hrec.
  - exists []. cbn. rewrite List.app_nil_r. repeat split. constructor.
  - destruct (recordEvent_appends now url event r Hrec)
      as (record & E & T & Tr & Hrec' & Hst).
    destruct (IH _ Hrec') as (stamped & E' & T' & F').
    exists (record :: stamped). unfold recordAll in *. cbn [fold_left fst snd].
    rewrite E', E, <- List.app_assoc. split; [reflexivity|].
    cbn [map fst]. rewrite T, T', Hst. split; [reflexivity|].
    now constructor.
Qed.

Lemma sorted_shift (d : Z) (l : list Z) :
  StronglySorted Z.le l -> StronglySorted Z.le (map (fun t => t - d)%Z l).
Proof.
  induction 1 as [|a l S IH F]; cbn [map]; constructor; [assumption|].
  rewrite List.Forall_forall in *. intros y Hy.
  apply in_map_iff in Hy as (x & <- & Hx). specialize (F x Hx). lia.
Qed.

Lemma timestampOf_map (start : Z) (stamped : list JS.value) (times : list Z) :
  map (fun record => JS.get record "timestamp") stamped
    = map (fun t => JS.VNum (t - start)) times ->
  map timestampOf stamped = map (fun t => t - start)%Z times.
Proof.
  revert times. induction stamped as [|record stamped IH]; intros [|t times] H;
    try discriminate; [reflexivity|].
  cbn [map] in *. injection H as H1 H2.
  unfold timestampOf at 1. rewrite H1. f_equal. now apply IH.
Qed.

(** X6. The records of a session follow the clock.  Calls of [recordEvent]
    made while recording append one record each, in the order of the calls,
    behind the records already there; the timestamps of the new records are
    the clock readings less [startTime].  So when the clock readings do not
    decrease, neither do the timestamps, and a session that started empty
    is stored in non-decreasing timestamp order; readings at or after
    [startTime] give timestamps that are not negative. *)
Theorem records_follow_the_clock :
  forall (url : string) (calls : list (Z * list (string * JS.value)))
         (r : Recorder.Recorder),
    Recorder.isRecording r = true ->
    let start := default 0%Z (Recorder.startTime r) in
    exists stamped,
      Recorder.records (recordAll url calls r)
        = (Recorder.records r ++ stamped)%list
      /\ map timestampOf stamped = map (fun call => fst call - start)%Z calls
      /\ Forall (fun record => JS.truthy record = true) stamped
      /\ (StronglySorted Z.le (map fst calls) ->
          StronglySorted Z.le (map timestampOf stamped)
          /\ (Recorder.records r = [] ->
              StronglySorted Z.le
                (map timestampOf (Recorder.records (recordAll url calls r)))))
      /\ (Forall (fun call => start <= fst call)%Z calls ->
          Forall (fun record => 0 <= timestampOf record)%Z stamped).
Proof.
  intros url calls r Hrec start.
  destruct (recordAll_appends url calls r Hrec) as (stamped & E & T & F).
  exists stamped.
  assert (map timestampOf stamped = map (fun call => fst call - start)%Z calls)
    as Hts.
  { rewrite <- (map_map fst (fun t => t - start)%Z).
    apply timestampOf_map. rewrite map_map. exact T. }
  split; [exact E|]. split; [exact Hts|]. split; [exact F|]. split.
  - intros Hs.
    assert (StronglySorted Z.le (map timestampOf stamped)) as Hsorted.
    { rewrite Hts, <- (map_map fst (fun t => t - start)%Z).
      now apply sorted_shift. }
    split; [exact Hsorted|]. intros Hempty. now rewrite E, Hempty.
  - intros Hge.
    apply Forall_map. rewrite Hts. apply Forall_map.
    rewrite List.Forall_forall in *. intros call Hin. cbn.
    specialize (Hge call Hin). lia.
Qed.

Lemma records_follow_the_clock_witness :
  let r := {| Recorder.options := Recorder.defaultOptions;
              Recorder.sessionId := "s1"; Recorder.records := [];
              Recorder.isRecording := true; Recorder.startTime := Some 1000%Z;
              Recorder.listeners := ∅ |} in
  let calls := [(1040%Z, [("type", JS.VStr "click")]);
                (1040%Z, [("type", JS.VStr "focus")]);
                (1300%Z, [("type", JS.VStr "keydown")])] in
  map timestampOf (Recorder.records (recordAll "http://host/" calls r))
    = [40%Z; 40%Z; 300%Z].
Proof.
  intros r calls.
  destruct (records_follow_the_clock "http://host/" calls r eq_refl)
    as (stamped & E & T & _).
  rewrite E. change (Recorder.records r) with (@nil JS.value).
  cbn [app]. rewrite T. reflexivity.
Defined.

(** ** The recorder: the life of a session *)

Lemma addListeners_core (tys : list string) :
  forall p : Recorder.Page, sessionCore (Recorder.addListeners tys p) = sessionCore p.
Proof.
  induction tys as [|ty tys IH]; intros p; [reflexivity|].
  unfold Recorder.addListeners in *. cbn [fold_left]. now rewrite IH.
Qed.

Lemma recordElementScrolls_core (elements : list Dom.Element) :
  forall p : Recorder.Page,
    sessionCore (fold_left (fun q e => Recorder.recordElementScroll e q) elements p)
      = sessionCore p.
Proof.
  induction elements as [|e elements IH]; intros p; [reflexivity|].
  cbn [fold_left]. now rewrite IH.
Qed.

Lemma recordMouseEvents_core (q : Recorder.Page) :
  sessionCore (Recorder.recordMouseEvents q) = sessionCore q.
Proof.
  unfold Recorder.recordMouseEvents.
  destruct (Recorder.opt_recordMouse _); [|reflexivity]. cbn [negb].
  destruct (Recorder.opt_recordClicks _); [|reflexivity].
  change (sessionCore (Recorder.addListener "mousemove" ?x)) with (sessionCore x).
  apply addListeners_core.
Qed.

Lemma recordKeyboardEvents_core (q : Recorder.Page) :
  sessionCore (Recorder.recordKeyboardEvents q) = sessionCore q.
Proof.
  unfold Recorder.recordKeyboardEvents.
  destruct (Recorder.opt_recordKeyboard _); [apply addListeners_core | reflexivity].
Qed.

Lemma recordScrollEvents_core (q : Recorder.Page) :
  sessionCore (Recorder.recordScrollEvents q) = sessionCore q.
Proof.
  unfold Recorder.recordScrollEvents.
  destruct (Recorder.opt_recordScroll _); [|reflexivity]. cbn [negb].
  change (sessionCore (Recorder.addListener "wheel" (Recorder.observeBody ?x)))
    with (sessionCore x).
  now rewrite recordElementScrolls_core.
Qed.

Lemma recordResizeEvents_core (q : Recorder.Page) :
  sessionCore (Recorder.recordResizeEvents q) = sessionCore q.
Proof.
  unfold Recorder.recordResizeEvents.
  destruct (Recorder.opt_recordResize _); reflexivity.
Qed.

Lemma recordFormInputs_core (q : Recorder.Page) :
  sessionCore (Recorder.recordFormInputs q) = sessionCore q.
Proof.
  unfold Recorder.recordFormInputs.
  destruct (Recorder.opt_recordFormInputs _); [apply addListeners_core | reflexivity].
Qed.

Lemma recordNavigationEvents_core (q : Recorder.Page) :
  sessionCore (Recorder.recordNavigationEvents q) = sessionCore q.
Proof.
  unfold Recorder.recordNavigationEvents.
  destruct (Recorder.opt_recordNavigation _); [|reflexivity]. cbn [negb].
  change (sessionCore (Recorder.setUrlPoller ?x)) with (sessionCore x).
  apply addListeners_core.
Qed.

Lemma registration_core (p : Recorder.Page) :
  sessionCore
    (Recorder.recordNavigationEvents
       (Recorder.recordFormInputs
          (Recorder.recordResizeEvents
             (Recorder.recordScrollEvents
                (Recorder.recordKeyboardEvents (Recorder.recordMouseEvents p))))))
  = sessionCore p.
Proof.
  now rewrite recordNavigationEvents_core, recordFormInputs_core,
    recordResizeEvents_core, recordScrollEvents_core,
    recordKeyboardEvents_core, recordMouseEvents_core.
Qed.

Lemma sessionCore_options (p q : Recorder.Page) :
  sessionCore q = sessionCore p ->
  Recorder.options (Recorder.recorder q) = Recorder.options (Recorder.recorder p).
Proof. unfold sessionCore. now intros [= -> _ _ _ _]. Qed.

Lemma startRecording_core (now : Z) (freshId : string) (p : Recorder.Page) :
  Recorder.isRecording (Recorder.recorder p) = false ->
  sessionCore (Recorder.startRecording now freshId p)
    = (Recorder.options (Recorder.recorder p), freshId, [], true, Some now).
Proof.
  intros Hr. unfold Recorder.startRecording. rewrite Hr.
  now rewrite registration_core.
Qed.

(** X7. The life of a session.  [startRecording] on a recorder that is not
    recording opens a fresh session: the new id, no records (those of an
    earlier session are dropped), [startTime = now], the options as they
    were; called again while recording it changes nothing.
    [stopRecording] while recording returns the records and keeps them in
    the recorder; called when not recording (so also a second time) it
    returns the empty list and changes nothing. *)
Theorem recording_session_lifecycle :
  forall (p : Recorder.Page) (now now' : Z) (freshId freshId' : string),
    Recorder.isRecording (Recorder.recorder p) = false ->
    let started := Recorder.startRecording now freshId p in
    (Recorder.sessionId (Recorder.recorder started) = freshId
     /\ Recorder.records (Recorder.recorder started) = []
     /\ Recorder.startTime (Recorder.recorder started) = Some now
     /\ Recorder.isRecording (Recorder.recorder started) = true
     /\ Recorder.options (Recorder.recorder started)
          = Recorder.options (Recorder.recorder p))
    /\ Recorder.startRecording now' freshId' started = started
    /\ Recorder.stopRecording p = ([], p)
    /\ (forall q : Recorder.Page,
          Recorder.isRecording (Recorder.recorder q) = true ->
          let stopped := snd (Recorder.stopRecording q) in
          fst (Recorder.stopRecording q) = Recorder.records (Recorder.recorder q)
          /\ Recorder.records (Recorder.recorder stopped)
               = Recorder.records (Recorder.recorder q)
          /\ Recorder.isRecording (Recorder.recorder stopped) = false
          /\ Recorder.stopRecording stopped = ([], stopped)).
Proof.
  intros p now now' freshId freshId' Hr started.
  pose proof (startRecording_core now freshId p Hr) as C.
  fold started in C. unfold sessionCore in C.
  injection C as C1 C2 C3 C4 C5.
  split; [repeat split; assumption|]. split; [|split].
  - unfold Recorder.startRecording at 1. now rewrite C4.
  - unfold Recorder.stopRecording. now rewrite Hr.
  - intros q Hq stopped. subst stopped. unfold Recorder.stopRecording.
    rewrite Hq. cbn. repeat split.
Qed.

Lemma recording_session_lifecycle_witness :
  let page := Recorder.newPage Recorder.defaultOptions "s0" "http://host/" "home" [] in
  let started := Recorder.startRecording 1000 "s1" page in
  Recorder.sessionId (Recorder.recorder started) = "s1"
  /\ Recorder.startRecording 2000 "s2" started = started.
Proof.
  intros page started.
  destruct (recording_session_lifecycle page 1000 2000 "s1" "s2" eq_refl)
    as ((H1 & _) & H2 & _).
  split; [exact H1 | exact H2].
Defined.

(** ** The recorder: the listeners of [document] *)

Section Registered.

Variable base : list (string * Recorder.Handler).
Variable n0 : nat.

Lemma registered_addListener (q : Recorder.Page) (tys : list string) (ty : string) :
  registered base n0 q tys -> ~ In ty tys ->
  registered base n0 (Recorder.addListener ty q) (tys ++ [ty]).
Proof.
  intros (added & D & M & L & V & N) Hnew.
  exists (added ++ [(ty, Recorder.nextClosure q)])%list.
  cbn [Recorder.addListener Recorder.documentListeners Recorder.recorder
       Recorder.listeners Recorder.nextClosure].
  split; [now rewrite D, List.app_assoc|].
  split; [now rewrite map_app, M|].
  split; [|split; [|lia]].
  - intros ty' h' Hin. apply in_app_or in Hin as [Hin | [E | []]].
    + rewrite lookup_insert_ne; [now apply L|].
      intros <-. apply Hnew. rewrite <- M.
      apply in_map_iff. now exists (ty, h').
    + injection E as <- <-. apply lookup_insert_eq.
  - intros ty' h' Hl. destruct (decide (ty = ty')) as [<-|Hne].
    + rewrite lookup_insert_eq in Hl. injection Hl as <-. exact N.
    + rewrite lookup_insert_ne in Hl by assumption. now apply (V ty').
Qed.

Lemma registered_addListeners (new : list string) :
  forall (q : Recorder.Page) (tys : list string),
    registered base n0 q tys -> List.NoDup new ->
    (forall ty, In ty new -> ~ In ty tys) ->
    registered base n0 (Recorder.addListeners new q) (tys ++ new).
Proof.
  induction new as [|ty new IH]; intros q tys R Hnd Hdis.
  - now rewrite List.app_nil_r.
  - unfold Recorder.addListeners in *. cbn [fold_left].
    replace (tys ++ ty :: new)%list with ((tys ++ [ty]) ++ new)%list
      by now rewrite <- List.app_assoc.
    inversion Hnd as [|? ? Hty Hnd']; subst.
    apply IH; [|assumption|].
    + apply registered_addListener; [assumption|]. apply Hdis. now left.
    + intros ty' Hin Hin'. apply in_app_or in Hin' as [Hin' | [<- | []]].
      * apply (Hdis ty'); [now right | assumption].
      * contradiction.
Qed.

Lemma registered_recordElementScroll (q : Recorder.Page) (tys : list string)
    (e : Dom.Element) :
  registered base n0 q tys ->
  (forall ty, In ty tys ->
              ty <> "scroll-" ++ Recorder.getElementSelector (Some e)) ->
  registered base n0 (Recorder.recordElementScroll e q) tys.
Proof.
  intros (added & D & M & L & V & N) Hkey.
  exists added.
  cbn [Recorder.recordElementScroll Recorder.documentListeners Recorder.recorder
       Recorder.listeners Recorder.nextClosure].
  split; [exact D|]. split; [exact M|]. split; [|split; [|lia]].
  - intros ty h Hin. rewrite lookup_insert_ne; [now apply L|].
    intros E. apply (Hkey ty); [|now symmetry].
    rewrite <- M. apply in_map_iff. now exists (ty, h).
  - intros ty h Hl.
    destruct (decide ("scroll-" ++ Recorder.getElementSelector (Some e) = ty))
      as [<-|Hne].
    + rewrite lookup_insert_eq in Hl. injection Hl as <-. exact N.
    + rewrite lookup_insert_ne in Hl by assumption. now apply (V ty).
Qed.

Lemma registered_recordElementScrolls (elements : list Dom.Element) :
  forall (q : Recorder.Page) (tys : list string),
    registered base n0 q tys ->
    (forall ty sel, In ty tys -> ty <> "scroll-" ++ sel) ->
    registered base n0
      (fold_left (fun x e => Recorder.recordElementScroll e x) elements q) tys.
Proof.
  induction elements as [|e elements IH]; intros q tys R Hkey; [exact R|].
  cbn [fold_left]. apply IH; [|assumption].
  apply registered_recordElementScroll; [assumption|].
  intros ty Hin. now apply Hkey.
Qed.

End Registered.

Ltac flags :=
  unfold mouseTypes, keyboardTypes, scrollTypes, resizeTypes, formTypes,
    navigationTypes in *;
  repeat match goal with
         | |- context [if ?b then _ else _] => destruct b
         | H : context [if ?b then _ else _] |- _ => destruct b
         end.

Ltac absent :=
  flags; cbn [In app] in *; intuition (subst; cbn [In] in *; intuition discriminate).

Lemma no_scroll_key (o : Recorder.Options) (ty sel : string) :
  In ty (registeredTypes o) -> ty <> "scroll-" ++ sel.
Proof.
  unfold registeredTypes. intros Hin E.
  change ("scroll-" ++ sel)
    with (String "s" (String "c" (String "r" (String "o" (String "l"
           (String "l" (String "-" sel))))))) in E.
  flags; cbn [In app] in Hin; intuition (subst; discriminate).
Qed.

Lemma registered_types_grow (o : Recorder.Options) (front : list string)
    (back : list string) (ty sel : string) :
  registeredTypes o = (front ++ back)%list ->
  In ty front -> ty <> "scroll-" ++ sel.
Proof.
  intros E Hin. apply (no_scroll_key o). rewrite E. apply in_or_app. now left.
Qed.

(** What the registration of [startRecording] leaves on [document]. *)
Lemma registration_registered (base : list (string * Recorder.Handler))
    (n0 : nat) (p : Recorder.Page) :
  registered base n0 p [] ->
  registered base n0
    (Recorder.recordNavigationEvents
       (Recorder.recordFormInputs
          (Recorder.recordResizeEvents
             (Recorder.recordScrollEvents
                (Recorder.recordKeyboardEvents (Recorder.recordMouseEvents p))))))
    (registeredTypes (Recorder.options (Recorder.recorder p))).
Proof.
  intros R0. set (o := Recorder.options (Recorder.recorder p)).
  (* mouse *)
  assert (registered base n0 (Recorder.recordMouseEvents p) (mouseTypes o)) as R1.
  { unfold Recorder.recordMouseEvents, mouseTypes. fold o.
    destruct (Recorder.opt_recordMouse o); [|exact R0]. cbn [negb].
    destruct (Recorder.opt_recordClicks o).
    - apply registered_addListener.
      + apply (registered_addListeners base n0 _ p []); [assumption | | auto].
        repeat constructor; cbn [In]; intuition discriminate.
      + cbn [In app]. intuition discriminate.
    - apply (registered_addListener base n0 p []); auto. }
  set (p1 := Recorder.recordMouseEvents p) in *.
  assert (Recorder.options (Recorder.recorder p1) = o) as O1
    by (apply sessionCore_options, recordMouseEvents_core).
  (* keyboard *)
  assert (registered base n0 (Recorder.recordKeyboardEvents p1)
            (mouseTypes o ++ keyboardTypes o)) as R2.
  { unfold Recorder.recordKeyboardEvents. rewrite O1. unfold keyboardTypes at 1.
    destruct (Recorder.opt_recordKeyboard o); cbn [negb];
      [|now rewrite List.app_nil_r].
    apply registered_addListeners; [assumption | |].
    - repeat constructor; cbn [In]; intuition discriminate.
    - intros ty Hin Hin'. absent. }
  set (p2 := Recorder.recordKeyboardEvents p1) in *.
  assert (Recorder.options (Recorder.recorder p2) = o) as O2
    by (rewrite <- O1; apply sessionCore_options, recordKeyboardEvents_core).
  (* scroll *)
  assert (registered base n0 (Recorder.recordScrollEvents p2)
            ((mouseTypes o ++ keyboardTypes o) ++ scrollTypes o)) as R3.
  { unfold Recorder.recordScrollEvents. rewrite O2. unfold scrollTypes at 1.
    destruct (Recorder.opt_recordScroll o) eqn:Hs; cbn [negb];
      [|now rewrite List.app_nil_r].
    replace ((mouseTypes o ++ keyboardTypes o) ++ ["scroll"; "wheel"])%list
      with (((mouseTypes o ++ keyboardTypes o) ++ ["scroll"]) ++ ["wheel"])%list
      by now rewrite <- List.app_assoc.
    apply registered_addListener.
    - change (registered base n0 (Recorder.observeBody ?x) ?t)
        with (registered base n0 x t).
      apply registered_recordElementScrolls.
      + apply registered_addListener; [assumption|]. intros Hin. absent.
      + intros ty sel Hin.
        apply (registered_types_grow o
                 ((mouseTypes o ++ keyboardTypes o) ++ ["scroll"])
                 (["wheel"] ++ resizeTypes o ++ formTypes o ++ navigationTypes o));
          [|assumption].
        unfold registeredTypes, scrollTypes. rewrite Hs.
        now rewrite <- !List.app_assoc.
    - intros Hin. absent. }
  set (p3 := Recorder.recordScrollEvents p2) in *.
  assert (Recorder.options (Recorder.recorder p3) = o) as O3
    by (rewrite <- O2; apply sessionCore_options, recordScrollEvents_core).
  (* resize *)
  assert (registered base n0 (Recorder.recordResizeEvents p3)
            (((mouseTypes o ++ keyboardTypes o) ++ scrollTypes o)
               ++ resizeTypes o)) as R4.
  { unfold Recorder.recordResizeEvents. rewrite O3. unfold resizeTypes at 1.
    destruct (Recorder.opt_recordResize o); cbn [negb];
      [|now rewrite List.app_nil_r].
    apply registered_addListener; [assumption|]. intros Hin. absent. }
  set (p4 := Recorder.recordResizeEvents p3) in *.
  assert (Recorder.options (Recorder.recorder p4) = o) as O4
    by (rewrite <- O3; apply sessionCore_options, recordResizeEvents_core).
  (* forms *)
  assert (registered base n0 (Recorder.recordFormInputs p4)
            ((((mouseTypes o ++ keyboardTypes o) ++ scrollTypes o)
                ++ resizeTypes o) ++ formTypes o)) as R5.
  { unfold Recorder.recordFormInputs. rewrite O4. unfold formTypes at 1.
    destruct (Recorder.opt_recordFormInputs o); cbn [negb];
      [|now rewrite List.app_nil_r].
    apply registered_addListeners; [assumption | |].
    - repeat constructor; cbn [In]; intuition discriminate.
    - intros ty Hin Hin'. absent. }
  set (p5 := Recorder.recordFormInputs p4) in *.
  assert (Recorder.options (Recorder.recorder p5) = o) as O5
    by (rewrite <- O4; apply sessionCore_options, recordFormInputs_core).
  (* navigation *)
  unfold registeredTypes. rewrite !List.app_assoc.
  unfold Recorder.recordNavigationEvents. rewrite O5. unfold navigationTypes at 1.
  destruct (Recorder.opt_recordNavigation o); cbn [negb];
    [|now rewrite List.app_nil_r].
  change (registered base n0 (Recorder.setUrlPoller ?x) ?t)
    with (registered base n0 x t).
  apply registered_addListeners; [assumption | |].
  - repeat constructor; cbn [In]; intuition discriminate.
  - intros ty Hin Hin'. absent.
Qed.

Lemma filter_all {A : Type} (f : A -> bool) (l : list A) :
  Forall (fun x => f x = true) l -> List.filter f l = l.
Proof.
  induction 1 as [|x l Hx _ IH]; cbn [List.filter]; [reflexivity|].
  now rewrite Hx, IH.
Qed.

Lemma filter_none {A : Type} (f : A -> bool) (l : list A) :
  Forall (fun x => f x = false) l -> List.filter f l = [].
Proof.
  induction 1 as [|x l Hx _ IH]; cbn [List.filter]; [reflexivity|].
  now rewrite Hx, IH.
Qed.

(** X8. The listeners of [document].  On a recorder whose [listeners] map is
    empty, in a page whose document listeners are all older closures,
    [startRecording] adds one capture listener for each event type its
    options select, behind the listeners already there, and
    [stopRecording] removes exactly those: the document is left with the
    listeners it had before, the map is empty again, and the page is ready
    for the next [startRecording] under the same conditions. *)
Theorem stopRecording_detaches_document_listeners :
  forall (p : Recorder.Page) (now : Z) (freshId : string),
    Recorder.isRecording (Recorder.recorder p) = false ->
    Recorder.listeners (Recorder.recorder p) = ∅ ->
    Forall (fun l => (snd l < Recorder.nextClosure p)%nat)
           (Recorder.documentListeners p) ->
    let started := Recorder.startRecording now freshId p in
    let stopped := snd (Recorder.stopRecording started) in
    (exists added,
        Recorder.documentListeners started
          = (Recorder.documentListeners p ++ added)%list
        /\ map fst added = registeredTypes (Recorder.options (Recorder.recorder p))
        /\ Forall (fun l => (Recorder.nextClosure p <= snd l)%nat) added)
    /\ Recorder.documentListeners stopped = Recorder.documentListeners p
    /\ Recorder.listeners (Recorder.recorder stopped) = ∅
    /\ Recorder.isRecording (Recorder.recorder stopped) = false
    /\ Forall (fun l => (snd l < Recorder.nextClosure stopped)%nat)
              (Recorder.documentListeners stopped).
Proof.
  intros p now freshId Hr Hl Hold started stopped.
  pose proof (startRecording_core now freshId p Hr) as C. fold started in C.
  assert (Recorder.isRecording (Recorder.recorder started) = true) as Hs
    by (unfold sessionCore in C; now injection C).
  assert (registered (Recorder.documentListeners p) (Recorder.nextClosure p)
            started (registeredTypes (Recorder.options (Recorder.recorder p))))
    as (added & D & M & L & V & N).
  { subst started. unfold Recorder.startRecording. rewrite Hr.
    match goal with
    | |- registered _ _ (Recorder.recordNavigationEvents
                           (Recorder.recordFormInputs
                              (Recorder.recordResizeEvents
                                 (Recorder.recordScrollEvents
                                    (Recorder.recordKeyboardEvents
                                       (Recorder.recordMouseEvents ?q)))))) _ =>
        change (Recorder.options (Recorder.recorder p))
          with (Recorder.options (Recorder.recorder q));
        apply registration_registered
    end.
    exists []. cbn. rewrite List.app_nil_r, Hl.
    repeat split.
    - intros ty h [].
    - intros ty h H. now rewrite lookup_empty in H.
    - lia. }
  assert (Forall (fun l => (Recorder.nextClosure p <= snd l)%nat) added) as Hnew.
  { rewrite List.Forall_forall. intros [ty h] Hin. cbn. apply (V ty), L, Hin. }
  split; [exists added; repeat split; assumption|].
  assert (Recorder.documentListeners stopped = Recorder.documentListeners p) as Hdoc.
  { subst stopped. unfold Recorder.stopRecording. rewrite Hs.
    cbn [negb snd Recorder.documentListeners]. rewrite D, List.filter_app.
    rewrite filter_all, filter_none; [apply List.app_nil_r | |].
    - rewrite List.Forall_forall. intros [ty h] Hin. cbn [fst snd].
      rewrite (L ty h Hin). now rewrite bool_decide_eq_true_2.
    - rewrite List.Forall_forall in *. intros [ty h] Hin. cbn [fst snd].
      apply negb_true_iff, bool_decide_eq_false_2. intros E.
      specialize (Hold _ Hin). specialize (V ty h E). cbn in Hold. lia. }
  split; [exact Hdoc|].
  assert (Recorder.nextClosure stopped = Recorder.nextClosure started) as Hn
    by (subst stopped; unfold Recorder.stopRecording; now rewrite Hs).
  split; [|split].
  - subst stopped. unfold Recorder.stopRecording. now rewrite Hs.
  - subst stopped. unfold Recorder.stopRecording. now rewrite Hs.
  - rewrite Hdoc, Hn. rewrite List.Forall_forall in *. intros l Hin.
    specialize (Hold l Hin). lia.
Qed.

Lemma stopRecording_detaches_document_listeners_witness :
  let page := Recorder.newPage Recorder.defaultOptions "s0" "http://host/" "home" [] in
  let started := Recorder.startRecording 1000 "s1" page in
  List.length (Recorder.documentListeners started) = 17%nat
  /\ Recorder.documentListeners (snd (Recorder.stopRecording started)) = [].
Proof.
  intros page started.
  destruct (stopRecording_detaches_document_listeners page 1000 "s1"
              eq_refl eq_refl (List.Forall_nil _))
    as ((added & D & M & _) & H & _).
  split; [|exact H].
  fold started in D. rewrite D. cbn [app Recorder.documentListeners page Recorder.newPage].
  rewrite <- (length_map fst), M. reflexivity.
Defined.

(** ** The recorder: what the form listeners store *)

(** X9. The record of an input event does not say that it is one.  The
    listener's object literal names [type] twice, so the record's [type] is
    the control's [type] attribute ("text", "password", ...), while [name],
    [id] and [target] are stored as given.  On replay such a record is
    handed to the method its control type happens to name: to [replayInput]
    only when the control's type is the string "input", and to none at all
    for the usual control types. *)
Theorem input_record_carries_control_type :
  forall (now : Z) (url : string) (target : Dom.FormControl)
         (r : Recorder.Recorder),
    Recorder.isRecording r = true ->
    In (Dom.tagName (Dom.element target)) ["INPUT"; "TEXTAREA"; "SELECT"] ->
    exists stored,
      Recorder.records (Recorder.inputListener now url target r)
        = (Recorder.records r ++ [stored])%list
      /\ JS.get stored "type" = JS.VStr (Dom.type target)
      /\ JS.get stored "name" = JS.VStr (Dom.name target)
      /\ JS.get stored "id" = JS.VStr (Dom.id (Dom.element target))
      /\ JS.get stored "target"
           = JS.VStr (Recorder.getElementSelector (Some (Dom.element target)))
      /\ (ReplayEvent.replayEvent stored = Some ReplayEvent.replayInput
          <-> Dom.type target = "input")
      /\ (In (Dom.type target)
             [""; "text"; "password"; "email"; "number"; "tel"; "search"; "url";
              "checkbox"; "radio"; "date"; "textarea"; "select-one";
              "select-multiple"] ->
          ReplayEvent.replayEvent stored = None).
Proof.
  intros now url target r Hrec Htag.
  unfold Recorder.inputListener, Recorder.recordEvent.
  rewrite Hrec, (tag_accepted _ Htag). cbn [negb].
  eexists. split; [reflexivity|].
  split; [reflexivity|]. split; [reflexivity|]. split; [reflexivity|].
  split; [reflexivity|].
  unfold ReplayEvent.replayEvent.
  change (JS.get _ "type") with (JS.VStr (Dom.type target)).
  split.
  - split.
    + intros H.
      repeat match type of H with
             | (if String.eqb ?a ?b then _ else _) = _ =>
                 destruct (String.eqb a b) eqn:?; [try discriminate|]
             end; try discriminate.
      now apply String.eqb_eq.
    + intros ->. reflexivity.
  - cbn [In]. intros H.
    repeat (destruct H as [<- | H]; [reflexivity|]). destruct H.
Qed.

Lemma input_record_carries_control_type_witness :
  let body := Dom.mkElement "BODY" "" "" false
                (Some (Dom.mkElement "HTML" "" "" true None)) in
  let field := {| Dom.element := Dom.mkElement "INPUT" "q" "" false (Some body);
                  Dom.name := "query"; Dom.value := "rocq";
                  Dom.type := "text" |} in
  let r := {| Recorder.options := Recorder.defaultOptions;
              Recorder.sessionId := "s1"; Recorder.records := [];
              Recorder.isRecording := true; Recorder.startTime := Some 1000%Z;
              Recorder.listeners := ∅ |} in
  exists stored,
    Recorder.records (Recorder.inputListener 1500 "http://host/" field r) = [stored]
    /\ JS.get stored "type" = JS.VStr "text"
    /\ ReplayEvent.replayEvent stored = None.
Proof.
  intros body field r.
  assert (In (Dom.tagName (Dom.element field)) ["INPUT"; "TEXTAREA"; "SELECT"])
    as Htag by (left; reflexivity).
  destruct (input_record_carries_control_type 1500 "http://host/" field r
              eq_refl Htag) as (stored & E & T & _ & _ & _ & _ & N).
  exists stored. split; [exact E|]. split; [exact T|].
  apply N. right. left. reflexivity.
Defined.

Lemma lookupProp_formData (o : Recorder.Options) (key : string)
    (formData : list (string * string)) :
  key <> "__proto__" ->
  forall (acc : list (string * JS.value)) (seen : option string),
    JS.lookupProp acc key
      = from_option (fun v => JS.VStr (Recorder.maskSensitiveData o v key))
                    JS.VUndef seen ->
    JS.lookupProp
      (fold_left
         (fun a kv =>
            Recorder.assignText a (fst kv)
              (Recorder.maskSensitiveData o (snd kv) (fst kv)))
         formData acc) key
    = from_option (fun v => JS.VStr (Recorder.maskSensitiveData o v key))
        JS.VUndef
        (fold_left
           (fun a kv => if String.eqb (fst kv) key then Some (snd kv) else a)
           formData seen).
Proof.
  intros Hkey.
  induction formData as [|[k v] formData IH]; intros acc seen H; [exact H|].
  cbn [fold_left fst snd]. apply IH. unfold Recorder.assignText.
  destruct (String.eqb k key) eqn:E.
  - apply String.eqb_eq in E. subst k.
    assert (String.eqb key "__proto__" = false) as ->
        by now apply String.eqb_neq.
    cbn. apply lookupProp_setProp_eq.
  - apply String.eqb_neq in E.
    destruct (String.eqb k "__proto__"); [exact H|].
    now rewrite lookupProp_setProp_ne.
Qed.

(** No entry of the form adds a property [__proto__]. *)
Lemma lookupProp_formData_proto (o : Recorder.Options)
    (formData : list (string * string)) :
  forall acc : list (string * JS.value),
    JS.lookupProp acc "__proto__" = JS.VUndef ->
    JS.lookupProp
      (fold_left
         (fun a kv =>
            Recorder.assignText a (fst kv)
              (Recorder.maskSensitiveData o (snd kv) (fst kv)))
         formData acc) "__proto__"
    = JS.VUndef.
Proof.
  induction formData as [|[k v] formData IH]; intros acc H; [exact H|].
  cbn [fold_left fst snd]. apply IH. unfold Recorder.assignText.
  destruct (String.eqb k "__proto__") eqn:E; [exact H|].
  apply String.eqb_neq in E. now rewrite lookupProp_setProp_ne.
Qed.

(** X10. The record of a submitted form whose entries are strings.  The
    submit listener does nothing while the recorder is not recording, and
    records nothing when the selector of the form cannot be resolved.
    Otherwise it stores one record, of type
    [submit], with the selector as target and under [formData] an object
    that holds, for every key of the form other than [__proto__], the
    masking of the value submitted last under that key (under that key as
    the field name), and no property for a key that the form does not have
    or for [__proto__]; so a non-empty value under a sensitive key other
    than [__proto__] is stored as its marker when masking is enabled. *)
Theorem submitted_form_is_masked_by_key :
  forall (now : Z) (url : string) (form : Node.Element)
         (formData : list (string * string)) (r : Recorder.Recorder),
    (Recorder.isRecording r = false ->
     Recorder.submitListener now url form formData r = r)
    /\ (Recorder.isRecording r = true ->
        Selector.getElementSelector (Some form) = None ->
        Recorder.submitListener now url form formData r = r)
    /\ forall target,
        Recorder.isRecording r = true ->
        Selector.getElementSelector (Some form) = Some target ->
        exists stored data,
          Recorder.records (Recorder.submitListener now url form formData r)
            = (Recorder.records r ++ [stored])%list
          /\ JS.get stored "type" = JS.VStr "submit"
          /\ JS.get stored "target" = JS.VStr target
          /\ JS.get stored "formData" = JS.VObj data
          /\ (forall key,
                key <> "__proto__" ->
                JS.lookupProp data key
                  = match lastValue formData key with
                    | Some v =>
                        JS.VStr (Recorder.maskSensitiveData
                                   (Recorder.options r) v key)
                    | None => JS.VUndef
                    end)
          /\ JS.lookupProp data "__proto__" = JS.VUndef
          /\ (forall key v,
                key <> "__proto__" ->
                lastValue formData key = Some v -> v <> "" ->
                Recorder.opt_maskingEnabled (Recorder.options r) = true ->
                Network.isSensitiveField
                  (Recorder.opt_maskPatterns (Recorder.options r)) key = true ->
                JS.lookupProp data key = JS.VStr (marker v)).
Proof.
  intros now url form formData r.
  unfold Recorder.submitListener.
  split; [now intros ->|]. split; [now intros -> ->|].
  intros target Hrec ->. rewrite Hrec. cbn [negb]. cbv zeta.
  unfold Recorder.recordEvent. rewrite Hrec. cbn [negb].
  eexists. eexists. split; [reflexivity|].
  split; [reflexivity|]. split; [reflexivity|]. split; [reflexivity|].
  assert (forall key,
             key <> "__proto__" ->
             JS.lookupProp
               (fold_left
                  (fun acc kv =>
                     Recorder.assignText acc (fst kv)
                       (Recorder.maskSensitiveData (Recorder.options r)
                          (snd kv) (fst kv)))
                  formData []) key
             = match lastValue formData key with
               | Some v =>
                   JS.VStr (Recorder.maskSensitiveData (Recorder.options r) v key)
               | None => JS.VUndef
               end) as Hall.
  { intros key Hkey.
    rewrite (lookupProp_formData (Recorder.options r) key formData Hkey
               [] None eq_refl).
    unfold lastValue. now destruct (fold_left _ formData None). }
  split; [exact Hall|].
  split; [now apply lookupProp_formData_proto|].
  intros key v Hkey Hlast Hv Hon Hs. rewrite (Hall key Hkey), Hlast.
  now rewrite maskSensitiveData_sensitive.
Qed.

(** A login form under [body]; the form has a field named [__proto__]. *)
Lemma submitted_form_is_masked_by_key_witness :
  let html := Node.mkElement "HTML" "" (Node.ClassString "") true None in
  let body := Node.mkElement "BODY" "" (Node.ClassString "") false (Some html) in
  let form :=
    Node.mkElement "FORM" "login" (Node.ClassString "") false (Some body) in
  let r := {| Recorder.options := Recorder.defaultOptions;
              Recorder.sessionId := "s1"; Recorder.records := [];
              Recorder.isRecording := true; Recorder.startTime := Some 1000%Z;
              Recorder.listeners := ∅ |} in
  let formData := [("user", "ann"); ("password", "first");
                   ("__proto__", "x"); ("password", "secret123")] in
  exists stored data,
    Recorder.records (Recorder.submitListener 1500 "http://host/" form formData r)
      = [stored]
    /\ JS.get stored "target" = JS.VStr "form#login"
    /\ JS.get stored "formData" = JS.VObj data
    /\ JS.lookupProp data "password" = JS.VStr "********"
    /\ JS.lookupProp data "user" = JS.VStr "ann"
    /\ JS.lookupProp data "__proto__" = JS.VUndef.
Proof.
  intros html body form r formData.
  destruct (submitted_form_is_masked_by_key 1500 "http://host/" form formData r)
    as (_ & _ & H).
  destruct (H "form#login" eq_refl eq_refl)
    as (stored & data & E & _ & T & F & A & P & M).
  exists stored, data. split; [exact E|]. split; [exact T|].
  split; [exact F|]. split; [|split; [|exact P]].
  - apply (M "password" "secret123"); try reflexivity; discriminate.
  - rewrite A; [reflexivity | discriminate].
Defined.

(** ** The replayer: pausing, resuming and stale timers *)

Lemma replayNext_idle (s : Replayer.Replayer) :
  Replayer.isReplaying s = false -> Replayer.replayNext s = s.
Proof. intros H. rewrite replayNext_eq, H. reflexivity. Qed.

Lemma replayNext_inOrder (base : list Replayer.Effect) (evs : list JS.value)
    (s : Replayer.Replayer) :
  playable evs -> inOrder base evs s -> inOrder base evs (Replayer.replayNext s).
Proof.
  intros Hplay [Hev [(Hr & Hi & He) | (Hr & Hi & He)]].
  - destruct (Replayer.isPaused s) eqn:Hp.
    + rewrite replayNext_eq, Hr, Hp. cbn [negb orb].
      split; [assumption|]. left. now repeat split.
    + destruct (lookup_lt_is_Some_2 evs (Replayer.currentIndex s) Hi)
        as [event Hev'].
      destruct (Hplay _ _ Hev') as [Ht Hts].
      rewrite <- Hev in Hev'.
      rewrite (replayNext_dispatch s event Hr Hp Hev' Ht). cbv zeta.
      rewrite Hev in *.
      destruct (evs !! S (Replayer.currentIndex s)) as [next|] eqn:Hn.
      * pose proof (lookup_lt_Some _ _ _ Hn) as Hlt.
        destruct (Hplay _ _ Hn) as [Htn _].
        rewrite Htn, Hts by assumption. cbn [andb].
        split; [assumption|]. left.
        cbn [Replayer.setTimeout Replayer.setIndex Replayer.emit
             Replayer.isReplaying Replayer.currentIndex Replayer.effects].
        repeat split; [assumption..|].
        rewrite (take_S_r _ _ _ Hev'), map_app, He.
        now rewrite <- List.app_assoc.
      * apply lookup_ge_None_1 in Hn.
        split; [assumption|]. right.
        cbn [Replayer.onReplayComplete Replayer.setFlags Replayer.setIndex
             Replayer.emit Replayer.isReplaying Replayer.currentIndex
             Replayer.effects].
        repeat split; [lia|].
        assert (map Replayer.ReplayEvent evs
                = (map Replayer.ReplayEvent (take (Replayer.currentIndex s) evs)
                     ++ [Replayer.ReplayEvent event])%list) as Hall.
        { rewrite <- (take_ge evs (S (Replayer.currentIndex s))) at 1 by lia.
          now rewrite (take_S_r _ _ _ Hev'), map_app. }
        rewrite He, Hall, <- !List.app_assoc. reflexivity.
  - rewrite replayNext_idle by assumption.
    split; [assumption|]. right. now repeat split.
Qed.

Lemma control_inOrder (base : list Replayer.Effect) (evs : list JS.value)
    (s : Replayer.Replayer) (c : Control) :
  playable evs -> inOrder base evs s -> inOrder base evs (control s c).
Proof.
  intros Hplay Hin. destruct c as [| |speed]; cbn [control].
  - unfold Replayer.togglePause.
    destruct (Replayer.isReplaying s) eqn:Hr; cbn [negb]; [|exact Hin].
    assert (inOrder base evs
              (Replayer.setFlags true (negb (Replayer.isPaused s)) s)) as Hin'.
    { destruct Hin as [Hev [(_ & Hi & He) | (Hr' & _)]]; [|congruence].
      split; [exact Hev|]. left. now repeat split. }
    cbv zeta. cbn [Replayer.isPaused Replayer.setFlags].
    destruct (negb (negb (Replayer.isPaused s))); [|exact Hin'].
    now apply replayNext_inOrder.
  - unfold Replayer.fireTimer. destruct (Replayer.timers s) as [|d rest]; [exact Hin|].
    match goal with
    | |- inOrder _ _ (if _ then Replayer.replayNext ?x else _) =>
        assert (inOrder base evs x) as Hin'
    end.
    { destruct Hin as [Hev [(Hr & Hi & He) | (Hr & Hi & He)]];
        (split; [exact Hev|]); [left | right]; now repeat split. }
    destruct (_ && _); [now apply replayNext_inOrder | exact Hin'].
  - destruct Hin as [Hev [(Hr & Hi & He) | (Hr & Hi & He)]];
      (split; [exact Hev|]); [left | right]; now repeat split.
Qed.

(** X11. Pausing and resuming keep the order.  After [startReplay] on a
    loaded session whose entries are truthy and whose timestamps (all but
    the last) are truthy, whatever sequence of pause toggles, timer firings
    (timers left over from an earlier run included) and speed changes
    follows, the events replayed so far are exactly the stored events
    before the cursor, each once and in stored order; the run is completed
    once, exactly when the cursor has reached the end. *)
Theorem pause_and_resume_keep_stored_order :
  forall (s : Replayer.Replayer) (speed : option float) (now : Z)
         (controls : list Control),
    Replayer.isReplaying s = false ->
    Replayer.events s <> [] ->
    playable (Replayer.events s) ->
    let final := fold_left control controls (Replayer.startReplay speed now s) in
    Replayer.events final = Replayer.events s
    /\ Replayer.effects final
         = (Replayer.effects s
              ++ map Replayer.ReplayEvent
                     (take (Replayer.currentIndex final) (Replayer.events s))
              ++ (if Replayer.isReplaying final then [] else [Replayer.Complete]))%list
    /\ (Replayer.isReplaying final = true ->
        (Replayer.currentIndex final < List.length (Replayer.events s))%nat)
    /\ (Replayer.isReplaying final = false ->
        Replayer.currentIndex final = List.length (Replayer.events s)).
Proof.
  intros s speed now controls Hr He Hplay final.
  assert (inOrder (Replayer.effects s) (Replayer.events s)
            (Replayer.startReplay speed now s)) as H0.
  { unfold Replayer.startReplay. rewrite Hr.
    destruct (Replayer.events s) as [|e0 rest] eqn:Hev; [congruence|].
    cbn [List.length Nat.eqb]. apply replayNext_inOrder; [assumption|].
    split; [reflexivity|]. left. cbn. rewrite List.app_nil_r.
    repeat split. lia. }
  assert (inOrder (Replayer.effects s) (Replayer.events s) final) as Hfin.
  { subst final. revert H0. generalize (Replayer.startReplay speed now s).
    induction controls as [|c controls IH]; intros st Hst; [exact Hst|].
    cbn [fold_left]. apply IH. now apply control_inOrder. }
  destruct Hfin as [Hev [(R & I & E) | (R & I & E)]]; rewrite R.
  - rewrite E, List.app_nil_r.
    split; [exact Hev|]. split; [reflexivity|].
    split; [intros _; exact I | intros H; discriminate H].
  - rewrite E, I, take_ge by lia.
    split; [exact Hev|]. split; [reflexivity|].
    split; [intros H; discriminate H | intros _; reflexivity].
Qed.

Lemma pause_and_resume_keep_stored_order_witness :
  let e0 := JS.VObj [("type", JS.VStr "click"); ("timestamp", JS.VNum 40)] in
  let e1 := JS.VObj [("type", JS.VStr "keydown"); ("timestamp", JS.VNum 90)] in
  let e2 := JS.VObj [("type", JS.VStr "keyup"); ("timestamp", JS.VNum 130)] in
  let s := {| Replayer.sessionData := JS.VObj [("events", JS.VArr [e0; e1; e2])];
              Replayer.events := [e0; e1; e2];
              Replayer.isReplaying := false; Replayer.isPaused := false;
              Replayer.currentIndex := 0; Replayer.replaySpeed := 1%float;
              Replayer.startTime := None; Replayer.timers := [];
              Replayer.effects := [] |} in
  let final := fold_left control [TogglePause; TogglePause; TimerFires; TimerFires]
                 (Replayer.startReplay None 5000 s) in
  Replayer.effects final
    = [Replayer.ReplayEvent e0; Replayer.ReplayEvent e1; Replayer.ReplayEvent e2;
       Replayer.Complete].
Proof.
  intros e0 e1 e2 s final.
  assert (playable (Replayer.events s)) as Hplay.
  { intros [|[|[|i]]] event H; try discriminate; injection H as <-;
      split; try reflexivity; cbn; intros; (reflexivity || lia). }
  assert (Replayer.events s <> []) as Hne by discriminate.
  destruct (pause_and_resume_keep_stored_order s None 5000
              [TogglePause; TogglePause; TimerFires; TimerFires]
              eq_refl Hne Hplay) as (_ & E & _).
  fold final in E. rewrite E. reflexivity.
Defined.

Lemma control_idle (s : Replayer.Replayer) (c : Control) :
  Replayer.isReplaying s = false ->
  let s' := control s c in
  Replayer.isReplaying s' = false
  /\ Replayer.effects s' = Replayer.effects s
  /\ Replayer.currentIndex s' = Replayer.currentIndex s
  /\ Replayer.events s' = Replayer.events s
  /\ (List.length (Replayer.timers s') <= List.length (Replayer.timers s))%nat.
Proof.
  intros Hr. destruct c as [| |speed]; cbv zeta; cbn [control].
  - unfold Replayer.togglePause. rewrite Hr. cbn [negb].
    repeat split; auto.
  - unfold Replayer.fireTimer. destruct (Replayer.timers s) as [|d rest] eqn:Ht.
    + rewrite Ht. repeat split; auto.
    + cbv zeta. cbn [Replayer.isReplaying]. rewrite Hr. cbn [andb].
      cbn [Replayer.isReplaying Replayer.effects Replayer.currentIndex
           Replayer.events Replayer.timers List.length].
      repeat split; auto.
  - cbn. repeat split; auto.
Qed.

Lemma controls_idle (controls : list Control) :
  forall st : Replayer.Replayer,
    Replayer.isReplaying st = false ->
    Replayer.isReplaying (fold_left control controls st) = false
    /\ Replayer.effects (fold_left control controls st) = Replayer.effects st
    /\ Replayer.currentIndex (fold_left control controls st)
         = Replayer.currentIndex st
    /\ Replayer.events (fold_left control controls st) = Replayer.events st.
Proof.
  induction controls as [|c controls IH]; intros st Hst; [now repeat split|].
  cbn [fold_left].
  destruct (control_idle st c Hst) as (R & E & I & V & _).
  destruct (IH _ R) as (R' & E' & I' & V').
  repeat split; congruence.
Qed.

(** X12. A replayer that is not replaying stays put.  After [stopReplay]
    (and likewise after the run has completed) the pending timers are not
    cancelled, but when they fire they replay nothing: whatever sequence of
    timer firings, pause toggles and speed changes follows, no effect is
    added, the cursor does not move and the replayer stays stopped, until
    [startReplay] is called. *)
Theorem idle_replayer_replays_nothing :
  forall (s : Replayer.Replayer) (controls : list Control),
    Replayer.timers (Replayer.stopReplay s) = Replayer.timers s
    /\ (Replayer.isReplaying s = false ->
        let final := fold_left control controls s in
        Replayer.isReplaying final = false
        /\ Replayer.effects final = Replayer.effects s
        /\ Replayer.currentIndex final = Replayer.currentIndex s
        /\ Replayer.events final = Replayer.events s)
    /\ (let final := fold_left control controls (Replayer.stopReplay s) in
        Replayer.isReplaying final = false
        /\ Replayer.effects final = Replayer.effects s
        /\ Replayer.currentIndex final = 0%nat
        /\ Replayer.events final = Replayer.events s).
Proof.
  intros s controls. split; [reflexivity|]. split.
  - intros Hr. now apply controls_idle.
  - apply (controls_idle controls (Replayer.stopReplay s)). reflexivity.
Qed.

Lemma idle_replayer_replays_nothing_witness :
  let e0 := JS.VObj [("type", JS.VStr "click"); ("timestamp", JS.VNum 40)] in
  let e1 := JS.VObj [("type", JS.VStr "keydown"); ("timestamp", JS.VNum 90)] in
  let s := {| Replayer.sessionData := JS.VObj [("events", JS.VArr [e0; e1])];
              Replayer.events := [e0; e1];
              Replayer.isReplaying := false; Replayer.isPaused := false;
              Replayer.currentIndex := 1; Replayer.replaySpeed := 1%float;
              Replayer.startTime := None; Replayer.timers := [50%float];
              Replayer.effects := [Replayer.ReplayEvent e0] |} in
  Replayer.effects (fold_left control [TimerFires; TogglePause] s)
    = [Replayer.ReplayEvent e0].
Proof.
  intros e0 e1 s.
  destruct (idle_replayer_replays_nothing s [TimerFires; TogglePause])
    as (_ & H & _).
  destruct (H eq_refl) as (_ & E & _). exact E.
Defined.

(** ** From the recorder to the replayer *)

Lemma loadSession_saved (JSON_parse : string -> option JS.value)
    (pageInfo : JS.value) (endTime : Z) (r : Recorder.Recorder)
    (s : Replayer.Replayer) :
  let saved := Session.saveSession pageInfo endTime r in
  let loaded := snd (Replayer.loadSession JSON_parse saved s) in
  fst (Replayer.loadSession JSON_parse saved s) = Replayer.Returned true
  /\ Replayer.events loaded = Recorder.records r
  /\ Replayer.isReplaying loaded = Replayer.isReplaying s
  /\ Replayer.timers loaded = Replayer.timers s
  /\ Replayer.effects loaded = Replayer.effects s.
Proof. cbn. repeat split. Qed.

Lemma stamped_playable (start : Z) (calls : list (Z * list (string * JS.value)))
    (stamped : list JS.value) :
  map (fun record => JS.get record "timestamp") stamped
    = map (fun call => JS.VNum (fst call - start)) calls ->
  Forall (fun record => JS.truthy record = true) stamped ->
  Forall (fun call => fst call <> start) calls ->
  playable stamped.
Proof.
  intros T F Hne i event Hi. split.
  - exact (Forall_lookup_1 _ _ _ _ F Hi).
  - intros _.
    assert (map (fun record => JS.get record "timestamp") stamped !! i
            = Some (JS.get event "timestamp")) as Hm.
    { rewrite list_lookup_fmap, Hi. reflexivity. }
    rewrite T, list_lookup_fmap in Hm.
    destruct (calls !! i) as [call|] eqn:Hc; [|discriminate].
    injection Hm as Hm. rewrite <- Hm. cbn [JS.truthy].
    pose proof (Forall_lookup_1 _ _ _ _ Hne Hc) as Hcall. cbv beta in Hcall.
    apply negb_true_iff, Z.eqb_neq. lia.
Qed.

(** X13. From the recorder to the replayer.  Events recorded into a fresh
    recording at clock readings other than the one [startRecording] took,
    saved with [saveSession] and loaded into an idle replayer with no timer
    pending: [loadSession] accepts the session, its events are the records,
    one per call of [recordEvent], and a replay followed by one timer per
    remaining event replays every record once, in the order recorded, and
    completes. *)
Theorem recorded_session_replays_completely :
  forall (JSON_parse : string -> option JS.value) (url : string)
         (calls : list (Z * list (string * JS.value)))
         (r : Recorder.Recorder) (start : Z) (pageInfo : JS.value)
         (endTime : Z) (s : Replayer.Replayer) (speed : option float) (now : Z),
    Recorder.isRecording r = true ->
    Recorder.startTime r = Some start ->
    Recorder.records r = [] ->
    calls <> [] ->
    Forall (fun call => fst call <> start) calls ->
    Replayer.isReplaying s = false ->
    Replayer.timers s = [] ->
    let recorded := recordAll url calls r in
    let saved := Session.saveSession pageInfo endTime recorded in
    let loaded := snd (Replayer.loadSession JSON_parse saved s) in
    let final :=
      Replayer.runTimers (List.length calls - 1)
                         (Replayer.startReplay speed now loaded) in
    fst (Replayer.loadSession JSON_parse saved s) = Replayer.Returned true
    /\ Replayer.events loaded = Recorder.records recorded
    /\ List.length (Replayer.events loaded) = List.length calls
    /\ Replayer.effects final
         = (Replayer.effects s
              ++ map Replayer.ReplayEvent (Recorder.records recorded)
              ++ [Replayer.Complete])%list
    /\ Replayer.currentIndex final = List.length calls
    /\ Replayer.isReplaying final = false.
Proof.
  intros JSON_parse url calls r start pageInfo endTime s speed now
         Hrec Hstart Hempty Hcalls Hne Hidle Htimers recorded saved loaded final.
  destruct (loadSession_saved JSON_parse pageInfo endTime recorded s)
    as (Hret & Hev & Hr & Ht & He).
  fold saved in Hret, Hev, Hr, Ht, He. fold loaded in Hev, Hr, Ht, He.
  destruct (recordAll_appends url calls r Hrec) as (stamped & E & T & F).
  fold recorded in E. rewrite Hempty in E. cbn [app] in E.
  rewrite Hstart in T. cbn [from_option default id] in T.
  assert (List.length stamped = List.length calls) as Hlen.
  { rewrite <- (List.length_map (fun record => JS.get record "timestamp")), T.
    apply List.length_map. }
  assert (playable stamped) as Hplay by (eapply stamped_playable; eassumption).
  rewrite E in *.
  split; [exact Hret|]. split; [exact Hev|].
  split; [now rewrite Hev|].
  subst final. unfold Replayer.startReplay. rewrite Hr, Hidle, Hev.
  destruct stamped as [|e0 rest] eqn:Hst.
  { destruct calls; [congruence | discriminate]. }
  cbn [List.length Nat.eqb]. rewrite Ht, He, Htimers.
  match goal with
  | |- context [Replayer.replayNext ?x] =>
      pose proof (run_from_cursor (List.length rest) x) as H
  end.
  cbn [Replayer.isReplaying Replayer.isPaused Replayer.timers Replayer.events
       Replayer.currentIndex Replayer.effects drop] in H.
  cbn [List.length] in Hlen.
  replace (List.length calls - 1)%nat with (List.length rest) by lia.
  destruct H as (E' & I & R & _ & _); try reflexivity; try assumption.
  cbn [List.length] in I.
  repeat split; [exact E' | lia | exact R].
Qed.

Lemma recorded_session_replays_completely_witness :
  let r := {| Recorder.options := Recorder.defaultOptions;
              Recorder.sessionId := "session_1"; Recorder.records := [];
              Recorder.isRecording := true; Recorder.startTime := Some 1000%Z;
              Recorder.listeners := ∅ |} in
  let calls := [(1040%Z, [("type", JS.VStr "click")]);
                (1090%Z, [("type", JS.VStr "keydown")])] in
  let loaded :=
    snd (Replayer.loadSession sampleParse
           (Session.saveSession JS.VNull 2000 (recordAll "http://a.test/" calls r))
           (Replayer.newReplayer None)) in
  let final := Replayer.runTimers 1 (Replayer.startReplay None 5000 loaded) in
  Replayer.effects final
    = (map Replayer.ReplayEvent
           (Recorder.records (recordAll "http://a.test/" calls r))
         ++ [Replayer.Complete])%list.
Proof.
  intros r calls loaded final.
  assert (calls <> []) as Hc by discriminate.
  assert (Forall (fun call : Z * list (string * JS.value) => fst call <> 1000%Z)
                 calls) as Hne.
  { repeat constructor; cbn; lia. }
  destruct (recorded_session_replays_completely sampleParse "http://a.test/"
              calls r 1000 JS.VNull 2000 (Replayer.newReplayer None) None 5000
              eq_refl eq_refl eq_refl Hc Hne eq_refl eq_refl)
    as (_ & _ & _ & E & _).
  exact E.
Defined.

(** X14. An event recorded in the millisecond of [startRecording] ends the
    replay.  Its relative timestamp is 0, so when such a session (with at
    least one more event) is saved, loaded and replayed, the first record
    is replayed and the run completes at once: the records after it are
    never replayed, whatever timers fire and whatever the user toggles
    afterwards. *)
Theorem event_at_start_instant_ends_replay :
  forall (JSON_parse : string -> option JS.value) (url : string)
         (first : list (string * JS.value))
         (later : list (Z * list (string * JS.value)))
         (r : Recorder.Recorder) (start : Z) (pageInfo : JS.value)
         (endTime : Z) (s : Replayer.Replayer) (speed : option float) (now : Z)
         (controls : list Control),
    Recorder.isRecording r = true ->
    Recorder.startTime r = Some start ->
    Recorder.records r = [] ->
    later <> [] ->
    Replayer.isReplaying s = false ->
    let recorded := recordAll url ((start, first) :: later) r in
    let saved := Session.saveSession pageInfo endTime recorded in
    let loaded := snd (Replayer.loadSession JSON_parse saved s) in
    let final := fold_left control controls (Replayer.startReplay speed now loaded) in
    exists record,
      Replayer.events loaded !! 0%nat = Some record
      /\ timestampOf record = 0%Z
      /\ List.length (Replayer.events loaded) = S (List.length later)
      /\ Replayer.effects final
           = (Replayer.effects s
                ++ [Replayer.ReplayEvent record; Replayer.Complete])%list
      /\ Replayer.currentIndex final = 1%nat
      /\ Replayer.isReplaying final = false.
Proof.
  intros JSON_parse url first later r start pageInfo endTime s speed now controls
         Hrec Hstart Hempty Hlater Hidle recorded saved loaded final.
  destruct (loadSession_saved JSON_parse pageInfo endTime recorded s)
    as (_ & Hev & Hr & _ & He).
  fold saved in Hev, Hr, He. fold loaded in Hev, Hr, He.
  destruct (recordAll_appends url ((start, first) :: later) r Hrec)
    as (stamped & E & T & F).
  fold recorded in E. rewrite Hempty in E. cbn [app] in E.
  rewrite Hstart in T. cbn [from_option default id] in T.
  assert (List.length stamped = S (List.length later)) as Hlen.
  { rewrite <- (List.length_map (fun record => JS.get record "timestamp")), T.
    cbn [map List.length]. now rewrite List.length_map. }
  destruct stamped as [|record [|next more]]; try discriminate.
  { destruct later; [congruence | discriminate]. }
  cbn [map fst] in T. injection T as T0 _.
  replace (start - start)%Z with 0%Z in T0 by lia.
  apply Forall_cons_1 in F as [F0 F]. apply Forall_cons_1 in F as [F1 _].
  rewrite E in Hev.
  exists record. rewrite Hev.
  split; [reflexivity|].
  split; [unfold timestampOf; now rewrite T0|].
  split; [exact Hlen|].
  assert (Replayer.startReplay speed now loaded
          = Replayer.onReplayComplete
              (Replayer.setIndex 1
                 (Replayer.emit (Replayer.ReplayEvent record)
                    {| Replayer.sessionData := Replayer.sessionData loaded;
                       Replayer.events := Replayer.events loaded;
                       Replayer.isReplaying := true; Replayer.isPaused := false;
                       Replayer.currentIndex := 0;
                       Replayer.replaySpeed :=
                         default (Replayer.replaySpeed loaded) speed;
                       Replayer.startTime := Some now;
                       Replayer.timers := Replayer.timers loaded;
                       Replayer.effects := Replayer.effects loaded |})))
    as Hrun.
  { unfold Replayer.startReplay. rewrite Hr, Hidle, Hev.
    cbn [List.length Nat.eqb].
    rewrite (replayNext_dispatch _ record); try reflexivity; [|assumption].
    cbn [Replayer.events Replayer.currentIndex lookup list_lookup].
    cbv zeta. rewrite F1, T0. reflexivity. }
  subst final. rewrite Hrun.
  match goal with
  | |- context [fold_left control controls ?x] =>
      destruct (controls_idle controls x eq_refl) as (R & E' & I & _)
  end.
  rewrite R, E', I.
  cbn [Replayer.onReplayComplete Replayer.setFlags Replayer.setIndex
       Replayer.emit Replayer.effects Replayer.currentIndex].
  rewrite He, <- List.app_assoc. repeat split.
Qed.

Lemma event_at_start_instant_ends_replay_witness :
  let r := {| Recorder.options := Recorder.defaultOptions;
              Recorder.sessionId := "session_1"; Recorder.records := [];
              Recorder.isRecording := true; Recorder.startTime := Some 1000%Z;
              Recorder.listeners := ∅ |} in
  let later := [(1090%Z, [("type", JS.VStr "keydown")])] in
  let loaded :=
    snd (Replayer.loadSession sampleParse
           (Session.saveSession JS.VNull 2000
              (recordAll "http://a.test/"
                 ((1000%Z, [("type", JS.VStr "click")]) :: later) r))
           (Replayer.newReplayer None)) in
  let final := fold_left control [TimerFires; TogglePause]
                 (Replayer.startReplay None 5000 loaded) in
  List.length (Replayer.events loaded) = 2%nat
  /\ List.length (Replayer.effects final) = 2%nat.
Proof.
  intros r later loaded final.
  assert (later <> []) as Hl by discriminate.
  destruct (event_at_start_instant_ends_replay sampleParse "http://a.test/"
              [("type", JS.VStr "click")] later r 1000 JS.VNull 2000
              (Replayer.newReplayer None) None 5000 [TimerFires; TogglePause]
              eq_refl eq_refl eq_refl Hl eq_refl)
    as (record & _ & _ & L & E & _).
  split; [exact L|].
  fold loaded in E. fold final in E. rewrite E. reflexivity.
Defined.

(** ** Keystrokes *)

Lemma typedKeys_app (a b : list JS.value) :
  typedKeys (a ++ b)%list = typedKeys a ++ typedKeys b.
Proof.
  induction a as [|x a IH]; [reflexivity|].
  change (typedKeys ((x :: a) ++ b)%list) with (keyOf x ++ typedKeys (a ++ b)%list).
  change (typedKeys (x :: a)) with (keyOf x ++ typedKeys a).
  now rewrite IH, append_assoc.
Qed.

Lemma keyOf_input (props : list (string * JS.value)) (ty : string) :
  JS.lookupProp props "type" = JS.VStr ty ->
  JS.lookupProp props "key" = JS.VUndef ->
  keyOf (JS.VObj props) = "".
Proof.
  intros Ht Hk. unfold keyOf. cbn [JS.get]. now rewrite Ht, Hk.
Qed.

Lemma typeKey_step (url : string) (c : Dom.FormControl) (r : Recorder.Recorder)
    (k : Keystroke) :
  Recorder.isRecording r = true ->
  In (Dom.tagName (Dom.element c)) ["INPUT"; "TEXTAREA"; "SELECT"] ->
  let c' := fst (typeKey url (c, r) k) in
  let r' := snd (typeKey url (c, r) k) in
  exists down input up,
    Recorder.records r' = (Recorder.records r ++ [down; input; up])%list
    /\ typedKeys [down; input; up] = String (typed k) ""
    /\ JS.get down "value" = JS.VUndef
    /\ JS.get up "value" = JS.VUndef
    /\ JS.get input "value"
         = JS.VStr (Recorder.maskSensitiveData (Recorder.options r) (Dom.value c')
                      (JS.orElse (Dom.name c) (Dom.id (Dom.element c))))
    /\ Recorder.isRecording r' = true
    /\ Recorder.options r' = Recorder.options r
    /\ Dom.value c' = Dom.value c ++ String (typed k) ""
    /\ Dom.element c' = Dom.element c
    /\ Dom.name c' = Dom.name c.
Proof.
  intros Hrec Htag c' r'. subst c' r'.
  unfold typeKey, Keyboard.keyupListener, Recorder.inputListener,
    Keyboard.keydownListener, Recorder.recordEvent.
  cbn [fst snd Dom.element Dom.name Dom.value Dom.type].
  rewrite Hrec. cbn [negb Recorder.isRecording Recorder.options].
  rewrite (tag_accepted _ Htag).
  cbn [negb Recorder.isRecording Recorder.options Recorder.records
       Recorder.startTime Recorder.sessionId].
  do 3 eexists. split; [rewrite <- !List.app_assoc; reflexivity|].
  split.
  { match goal with
    | |- typedKeys [?d; ?i; ?u] = _ =>
        change (keyOf d ++ keyOf i ++ keyOf u ++ "" = String (typed k) "");
        assert (keyOf d = String (typed k) "") as Hd by reflexivity;
        assert (keyOf i = "") as Hi
          by (apply (keyOf_input _ (Dom.type c)); reflexivity);
        assert (keyOf u = "") as Hu by reflexivity;
        rewrite Hd, Hi, Hu
    end.
    reflexivity. }
  repeat split.
Qed.

(** X15. Keystrokes are recorded in clear.  While a text is typed into a
    form control, each character gives a key press, an input and a key
    release record.  With masking on and a sensitive field name the input
    records hold the marker of asterisks, never the value; the key press
    records, which [maskSensitiveData] is not applied to, hold every
    character: read in order, their keys spell the text that was typed. *)
Theorem keystrokes_are_recorded_in_clear :
  forall (url : string) (keys : list Keystroke) (c : Dom.FormControl)
         (r : Recorder.Recorder),
    Recorder.isRecording r = true ->
    In (Dom.tagName (Dom.element c)) ["INPUT"; "TEXTAREA"; "SELECT"] ->
    Recorder.opt_maskingEnabled (Recorder.options r) = true ->
    Network.isSensitiveField (Recorder.opt_maskPatterns (Recorder.options r))
      (JS.orElse (Dom.name c) (Dom.id (Dom.element c))) = true ->
    let text := string_of_list_ascii (map typed keys) in
    let c' := fst (typeText url keys c r) in
    let r' := snd (typeText url keys c r) in
    exists stamped,
      Recorder.records r' = (Recorder.records r ++ stamped)%list
      /\ List.length stamped = (3 * List.length keys)%nat
      /\ Dom.value c' = Dom.value c ++ text
      /\ typedKeys stamped = text
      /\ Forall (fun record =>
                   JS.get record "value" = JS.VUndef
                   \/ exists prefix, prefix <> ""
                        /\ JS.get record "value" = JS.VStr (marker prefix))
                stamped.
Proof.
  intros url keys. induction keys as [|k keys IH]; intros c r Hrec Htag Hon Hs.
  - exists []. cbn. rewrite List.app_nil_r.
    repeat split; try constructor.
    clear. induction (Dom.value c) as [|a v IHv]; [reflexivity|].
    change (String a v ++ "") with (String a (v ++ "")). now rewrite <- IHv.
  - pose proof (typeKey_step url c r k Hrec Htag) as Hstep. cbv zeta in Hstep.
    cbv zeta. unfold typeText in *. cbn [fold_left].
    destruct (typeKey url (c, r) k) as [c1 r1]. cbn [fst snd] in Hstep.
    destruct Hstep
      as (down & input & up & E & K & Vd & Vu & Vi & Hrec' & Ho & Hv & He & Hn).
    specialize (IH c1 r1). rewrite He, Hn, Ho in IH.
    destruct (IH Hrec' Htag Hon Hs) as (stamped & E' & L & V & K' & F).
    exists ([down; input; up] ++ stamped)%list.
    split; [now rewrite E', E, <- List.app_assoc|].
    split; [rewrite List.length_app, L; cbn [List.length]; lia|].
    split.
    { rewrite V, Hv, append_assoc. reflexivity. }
    split.
    { rewrite typedKeys_app, K, K'. reflexivity. }
    apply Forall_app. split; [|exact F].
    apply List.Forall_cons; [left; exact Vd|].
    apply List.Forall_cons; [|apply List.Forall_cons; [left; exact Vu | constructor]].
    right. exists (Dom.value c1).
    assert (Dom.value c1 <> "") as Hne.
    { rewrite Hv. destruct (Dom.value c); discriminate. }
    split; [exact Hne|].
    rewrite Vi. f_equal. now apply maskSensitiveData_sensitive.
Qed.

Lemma keystrokes_are_recorded_in_clear_witness :
  let body := Dom.mkElement "BODY" "" "" false
                (Some (Dom.mkElement "HTML" "" "" true None)) in
  let field := {| Dom.element := Dom.mkElement "INPUT" "pw" "" false (Some body);
                  Dom.name := "password"; Dom.value := ""; Dom.type := "password" |} in
  let r := {| Recorder.options := Recorder.defaultOptions;
              Recorder.sessionId := "session_1"; Recorder.records := [];
              Recorder.isRecording := true; Recorder.startTime := Some 1000%Z;
              Recorder.listeners := ∅ |} in
  let stroke (a : ascii) (t : Z) :=
    {| typed := a; strokeCode := "Key"; strokeKeyCode := 0; strokeShift := false;
       downAt := t; inputAt := (t + 1)%Z; upAt := (t + 40)%Z |} in
  let keys := [stroke "h"%char 1100%Z; stroke "i"%char 1200%Z] in
  typedKeys (Recorder.records (snd (typeText "http://a.test/" keys field r))) = "hi".
Proof.
  intros body field r stroke keys.
  destruct (keystrokes_are_recorded_in_clear "http://a.test/" keys field r
              eq_refl (or_introl eq_refl) eq_refl eq_refl)
    as (stamped & E & _ & _ & K & _).
  rewrite E. exact K.
Defined.

(** ** The domain checks of the suspicious-activity tracker *)

Lemma length_append (a b : string) :
  String.length (a ++ b) = (String.length a + String.length b)%nat.
Proof.
  induction a as [|c a IH]; [reflexivity|].
  change (String c a ++ b) with (String c (a ++ b)).
  cbn [String.length]. now rewrite IH.
Qed.

Lemma substring_all (s : string) : String.substring 0 (String.length s) s = s.
Proof. induction s as [|c s IH]; [reflexivity|]. cbn. now rewrite IH. Qed.

Lemma substring_after (front suffix : string) :
  String.substring (String.length front) (String.length suffix) (front ++ suffix)
    = suffix.
Proof.
  induction front as [|c front IH]; [apply substring_all|].
  change (String c front ++ suffix) with (String c (front ++ suffix)).
  cbn [String.length String.substring]. exact IH.
Qed.

Lemma substring_split (s : string) :
  forall k : nat,
    (k <= String.length s)%nat ->
    s = String.substring 0 k s ++ String.substring k (String.length s - k) s.
Proof.
  induction s as [|c s IH]; intros k Hk.
  - destruct k; [reflexivity | cbn in Hk; lia].
  - destruct k as [|k].
    + cbn [String.substring]. rewrite Nat.sub_0_r.
      change (String c s = String.substring 0 (String.length (String c s)) (String c s)).
      now rewrite substring_all.
    + cbn [String.length] in *. cbn [String.substring Nat.sub].
      change (String c s
              = String c (String.substring 0 k s
                            ++ String.substring k (String.length s - k) s)).
      f_equal. apply IH. lia.
Qed.

Lemma endsWith_spec (s suffix : string) :
  Domains.endsWith s suffix = true <-> exists front, s = front ++ suffix.
Proof.
  unfold Domains.endsWith. cbv zeta. split.
  - destruct (String.length s <? String.length suffix)%nat eqn:Hlt; [discriminate|].
    apply Nat.ltb_ge in Hlt. intros H. apply String.eqb_eq in H.
    exists (String.substring 0 (String.length s - String.length suffix) s).
    pose proof (substring_split s (String.length s - String.length suffix))
      as Hsplit.
    replace (String.length s - (String.length s - String.length suffix))%nat
      with (String.length suffix) in Hsplit by lia.
    rewrite H in Hsplit. apply Hsplit. lia.
  - intros [front ->]. rewrite length_append.
    destruct (_ <? _)%nat eqn:Hlt; [apply Nat.ltb_lt in Hlt; lia|].
    replace (String.length front + String.length suffix - String.length suffix)%nat
      with (String.length front) by lia.
    rewrite substring_after. apply String.eqb_refl.
Qed.

Lemma allowed_spec (allowedDomains : list string) (hostname : string) :
  existsb (fun domain => Domains.endsWith hostname domain) allowedDomains = true
  <-> hasAllowedSuffix allowedDomains hostname.
Proof.
  rewrite existsb_exists. unfold hasAllowedSuffix. split.
  - intros (domain & Hin & H). apply endsWith_spec in H as [front ->]. eauto.
  - intros (domain & front & Hin & ->). exists domain. split; [assumption|].
    apply endsWith_spec. eauto.
Qed.

(** X16. The domain checks are suffix tests.  [trackDomainMismatch] leaves
    the tracker alone exactly when some allowed domain is a suffix of the
    page's host name, with no regard for label boundaries; otherwise it
    appends one record of type [domain-mismatch] with severity 1.0, filed
    as suspicious when the threshold is at most 1.0.  With no allowed
    domain configured, every page is reported.  The observer of
    [trackExternalScripts] applies the same test to the host of an added
    [SCRIPT] node that has a [src], and ignores every other node; the
    [url] of its record is the address of the page, which [record] writes
    over the one of the script. *)
Theorem domain_check_is_a_suffix_test :
  forall (now : Z) (href hostname : string) (t : Suspicious.Tracker)
         (node : Domains.AddedNode),
    let allowedDomains := Suspicious.allowedDomains (Suspicious.options t) in
    let threshold := Suspicious.suspiciousThreshold (Suspicious.options t) in
    let t' := Domains.trackDomainMismatch now href hostname t in
    let t'' := Domains.scriptObserver now href node t in
    (hasAllowedSuffix allowedDomains hostname -> t' = t)
    /\ (~ hasAllowedSuffix allowedDomains hostname ->
        exists entry,
          Suspicious.records t' = (Suspicious.records t ++ [entry])%list
          /\ JS.lookupProp (Suspicious.event entry) "type" = JS.VStr "domain-mismatch"
          /\ JS.lookupProp (Suspicious.event entry) "hostname" = JS.VStr hostname
          /\ Suspicious.severity entry = 1.0%float
          /\ Suspicious.console t'
               = (Suspicious.console t
                    ++ [(if Suspicious.geq 1.0 threshold
                         then Suspicious.SUSPICIOUS else Suspicious.ACTIVITY,
                         entry)])%list)
    /\ (allowedDomains = [] -> ~ hasAllowedSuffix allowedDomains hostname)
    /\ (Domains.tagName node <> "SCRIPT" \/ Domains.src node = "" -> t'' = t)
    /\ (forall host,
          Domains.tagName node = "SCRIPT" -> Domains.src node <> "" ->
          Domains.srcHostname node = Some host ->
          (hasAllowedSuffix allowedDomains host -> t'' = t)
          /\ (~ hasAllowedSuffix allowedDomains host ->
              exists entry,
                Suspicious.records t'' = (Suspicious.records t ++ [entry])%list
                /\ JS.lookupProp (Suspicious.event entry) "type"
                     = JS.VStr "external-script"
                /\ Suspicious.url entry = href
                /\ JS.lookupProp (Suspicious.event entry) "hostname" = JS.VStr host
                /\ Suspicious.severity entry = 0.9%float)).
Proof.
  intros now href hostname t node allowedDomains threshold t' t''.
  subst allowedDomains threshold t' t''.
  unfold Domains.trackDomainMismatch, Domains.scriptObserver. cbv zeta.
  split; [|split; [|split; [|split]]].
  - intros H. apply allowed_spec in H. now rewrite H.
  - intros H.
    destruct (existsb _ _) eqn:Hex; [apply allowed_spec in Hex; contradiction|].
    cbn [negb]. eexists. split; [reflexivity|]. repeat split.
  - intros -> (domain & front & [] & _).
  - intros [Htag | Hsrc].
    + destruct (String.eqb _ "SCRIPT") eqn:E; [|reflexivity].
      apply String.eqb_eq in E. contradiction.
    + rewrite Hsrc. cbn. now rewrite andb_false_r.
  - intros host Htag Hsrc Hhost. rewrite Htag, Hhost.
    assert (JS.nonEmpty (Domains.src node) = true) as Hne.
    { unfold JS.nonEmpty. apply negb_true_iff, String.eqb_neq. exact Hsrc. }
    rewrite Hne. change (String.eqb "SCRIPT" "SCRIPT" && true) with true.
    cbv iota.
    split.
    + intros H. apply allowed_spec in H. now rewrite H.
    + intros H.
      destruct (existsb _ _) eqn:Hex; [apply allowed_spec in Hex; contradiction|].
      cbn [negb]. eexists. split; [reflexivity|]. repeat split.
Qed.

Lemma domain_check_is_a_suffix_test_witness :
  let t := Suspicious.newTracker
             {| Suspicious.raw_suspiciousThreshold := None;
                Suspicious.raw_logLevel := None;
                Suspicious.raw_allowedDomains := Some ["example.com"] |} in
  Domains.trackDomainMismatch 1000 "https://evil-example.com/" "evil-example.com" t
    = t.
Proof.
  intros t.
  refine (proj1 (domain_check_is_a_suffix_test 1000 "https://evil-example.com/"
                   "evil-example.com" t
                   {| Domains.tagName := "DIV"; Domains.src := "";
                      Domains.srcHostname := None |}) _).
  exists "example.com", "evil-". split; [now left | reflexivity].
Defined.

(** ** The DOM tracker: its observers *)

Lemma start_connected (p : DomTracker.Page) :
  DomTracker.connected (DomTracker.start p)
  = (DomTracker.connected p
       ++ [("input", DomTracker.nextObserver p);
           ("text", S (DomTracker.nextObserver p));
           ("node", S (S (DomTracker.nextObserver p)));
           ("disable", S (S (S (DomTracker.nextObserver p))))])%list.
Proof. cbn. now rewrite <- !List.app_assoc. Qed.

Lemma start_observers (p : DomTracker.Page) (key : string) (o : DomTracker.Observer) :
  DomTracker.observers (DomTracker.start p) !! key = Some o <->
  (key = "input" /\ o = DomTracker.nextObserver p)
  \/ (key = "text" /\ o = S (DomTracker.nextObserver p))
  \/ (key = "node" /\ o = S (S (DomTracker.nextObserver p)))
  \/ (key = "disable" /\ o = S (S (S (DomTracker.nextObserver p))))
  \/ (~ In key observerKeys /\ DomTracker.observers p !! key = Some o).
Proof.
  change (DomTracker.observers (DomTracker.start p))
    with (<["disable" := S (S (S (DomTracker.nextObserver p)))]>
            (<["node" := S (S (DomTracker.nextObserver p))]>
               (<["text" := S (DomTracker.nextObserver p)]>
                  (<["input" := DomTracker.nextObserver p]>
                     (DomTracker.observers p))))).
  rewrite !lookup_insert_Some. unfold observerKeys. cbn [In].
  split.
  - intros [[<- <-] | [Hd [[<- <-] | [Hn [[<- <-] | [Ht [[<- <-] | [Hi H]]]]]]]];
      try (now auto 6).
    right. right. right. right. split; [|exact H].
    intros [E | [E | [E | [E | []]]]]; congruence.
  - intros [[-> ->] | [[-> ->] | [[-> ->] | [[-> ->] | [Hk H]]]]].
    + right. split; [discriminate|]. right. split; [discriminate|].
      right. split; [discriminate|]. now left.
    + right. split; [discriminate|]. right. split; [discriminate|]. now left.
    + right. split; [discriminate|]. now left.
    + now left.
    + right. split; [intros <-; apply Hk; now auto 6|].
      right. split; [intros <-; apply Hk; now auto 6|].
      right. split; [intros <-; apply Hk; now auto 6|].
      right. split; [intros <-; apply Hk; now auto 6|]. exact H.
Qed.

Lemma held_spec (m : gmap string DomTracker.Observer) (o : DomTracker.Observer) :
  existsb (Nat.eqb o) (map snd (map_to_list m)) = true
  <-> exists key, m !! key = Some o.
Proof.
  rewrite existsb_exists. split.
  - intros (x & Hin & E). apply Nat.eqb_eq in E. subst x.
    apply in_map_iff in Hin as ([key o'] & E & Hin). cbn in E. subst o'.
    exists key. now apply elem_of_map_to_list, list_elem_of_In.
  - intros (key & H). exists o. split; [|apply Nat.eqb_refl].
    apply in_map_iff. exists (key, o). split; [reflexivity|].
    now apply list_elem_of_In, elem_of_map_to_list.
Qed.

Lemma wellFormed_start (p : DomTracker.Page) :
  wellFormed p -> wellFormed (DomTracker.start p).
Proof.
  intros [Hk Hc]. split.
  - intros key o H. apply start_observers in H.
    unfold observerKeys. cbn [In].
    destruct H as [[-> _] | [[-> _] | [[-> _] | [[-> _] | [Hn H]]]]];
      auto 6.
    exfalso. apply Hn. eapply Hk. exact H.
  - rewrite start_connected. apply Forall_app. split.
    + eapply Forall_impl; [exact Hc|]. cbn. intros c H. lia.
    + repeat apply List.Forall_cons; cbn; try lia. constructor.
Qed.

Lemma wellFormed_stop (p : DomTracker.Page) :
  wellFormed p -> wellFormed (DomTracker.stop p).
Proof.
  intros [Hk Hc]. split.
  - intros key o H. cbn in H. now rewrite lookup_empty in H.
  - cbn [DomTracker.stop DomTracker.connected DomTracker.nextObserver].
    rewrite List.Forall_forall in *. intros c Hin.
    apply filter_In in Hin as [Hin _]. now apply Hc.
Qed.

Lemma wellFormed_history (patterns : option (list string))
    (history : list TrackerCall) :
  wellFormed (fold_left call history (DomTracker.newPage patterns)).
Proof.
  assert (wellFormed (DomTracker.newPage patterns)) as H0.
  { split; [|constructor]. intros key o H. cbn in H.
    now rewrite lookup_empty in H. }
  revert H0. generalize (DomTracker.newPage patterns).
  induction history as [|c history IH]; intros p Hp; [exact Hp|].
  cbn [fold_left]. apply IH.
  destruct c; [now apply wellFormed_start | now apply wellFormed_stop].
Qed.

Lemma stop_start_connected (p : DomTracker.Page) :
  wellFormed p ->
  DomTracker.connected (DomTracker.stop (DomTracker.start p))
    = DomTracker.connected p.
Proof.
  intros [Hk Hc].
  cbn [DomTracker.stop DomTracker.connected].
  rewrite start_connected, List.filter_app.
  rewrite filter_all, filter_none; [apply List.app_nil_r | |].
  - repeat apply List.Forall_cons; try constructor; cbn [snd];
      apply negb_false_iff, held_spec; eexists; apply start_observers.
    + left. split; reflexivity.
    + right. left. split; reflexivity.
    + right. right. left. split; reflexivity.
    + right. right. right. left. split; reflexivity.
  - eapply Forall_impl; [exact Hc|]. cbn beta. intros c Hlt.
    apply negb_true_iff. destruct (existsb _ _) eqn:E; [|reflexivity].
    apply held_spec in E as [key H]. apply start_observers in H.
    destruct H as [[_ H] | [[_ H] | [[_ H] | [[_ H] | [Hn H]]]]]; try lia.
    exfalso. apply Hn. eapply Hk. exact H.
Qed.

Lemma nodeAdded_fold (now : Z) (href : string) (node : Node.Element)
    (selector : string) (l : list (string * DomTracker.Observer)) :
  DomTracker.getElementSelector (Some node) = Some selector ->
  forall q : DomTracker.Page,
    DomTracker.records
      (fold_left
         (fun q c =>
            if String.eqb (fst c) "node" then
              match DomTracker.getElementSelector (Some node) with
              | Some selector =>
                  DomTracker.record now href
                    [("type", JS.VStr "node-added");
                     ("tag", JS.VStr (Node.tagName node));
                     ("selector", JS.VStr selector)] q
              | None => q
              end
            else q) l q)
    = (DomTracker.records q
         ++ List.repeat
              (JS.VObj [("type", JS.VStr "node-added");
                        ("tag", JS.VStr (Node.tagName node));
                        ("selector", JS.VStr selector);
                        ("timestamp", JS.VNum now);
                        ("url", JS.VStr href)])
              (List.length (List.filter (fun c => String.eqb (fst c) "node") l)))%list.
Proof.
  intros ->.
  induction l as [|c l IH]; intros q.
  - cbn. now rewrite List.app_nil_r.
  - cbn [fold_left List.filter]. rewrite IH.
    destruct (String.eqb (fst c) "node"); [|reflexivity].
    cbn [DomTracker.record DomTracker.records List.length List.repeat].
    now rewrite <- List.app_assoc.
Qed.

Lemma nodeAdded_raises (now : Z) (href : string) (node : Node.Element)
    (l : list (string * DomTracker.Observer)) :
  DomTracker.getElementSelector (Some node) = None ->
  forall q : DomTracker.Page,
    fold_left
      (fun q c =>
         if String.eqb (fst c) "node" then
           match DomTracker.getElementSelector (Some node) with
           | Some selector =>
               DomTracker.record now href
                 [("type", JS.VStr "node-added");
                  ("tag", JS.VStr (Node.tagName node));
                  ("selector", JS.VStr selector)] q
           | None => q
           end
         else q) l q
    = q.
Proof.
  intros ->.
  induction l as [|c l IH]; intros q; [reflexivity|].
  cbn [fold_left]. rewrite IH. now destruct (String.eqb (fst c) "node").
Qed.

(** The resolver of the tracker raises on the elements it cannot read,
    the root apart. *)
Lemma dom_selector_raises (node : Node.Element) :
  DomTracker.getElementSelector (Some node) = None
  <-> Node.isDocumentElement node = false /\ unreadable node = true.
Proof.
  unfold DomTracker.getElementSelector, unreadable.
  destruct (Node.isDocumentElement node); [split; [discriminate | now intros [? _]]|].
  cbv zeta. destruct (JS.nonEmpty (Node.id node)); cbn [negb andb];
    [split; [discriminate | now intros [_ ?]]|].
  destruct (Node.className node) as [c|v]; cbn [Node.truthy Node.split].
  - destruct (JS.nonEmpty c); (split; [discriminate | now intros [_ ?]]).
  - split; [now split | reflexivity].
Qed.



(** ** The DOM tracker: its masking *)

Lemma replaceAll_length (value : list N) :
  List.length (DomTracker.replaceAll value) = List.length value.
Proof. induction value as [|c rest IH]; cbn; [reflexivity | now rewrite IH]. Qed.

Lemma lookahead_short (rest : list N) :
  (List.length rest < 4)%nat -> DomTracker.lookahead rest = false.
Proof.
  destruct rest as [|a [|b [|c [|d rest]]]]; cbn; try reflexivity. lia.
Qed.

Lemma lookahead_plain (rest : list N) :
  (4 <= List.length rest)%nat ->
  Forall (fun c => DomTracker.lineTerminator c = false) rest ->
  DomTracker.lookahead rest = true.
Proof.
  destruct rest as [|a [|b [|c [|d rest]]]]; cbn [List.length]; try lia.
  intros _ H.
  apply Forall_cons_1 in H as [Ha H]. apply Forall_cons_1 in H as [Hb H].
  apply Forall_cons_1 in H as [Hc H]. apply Forall_cons_1 in H as [Hd _].
  cbn [DomTracker.lookahead]. now rewrite Ha, Hb, Hc, Hd.
Qed.

Lemma replaceAll_short (value : list N) :
  (List.length value <= 4)%nat -> DomTracker.replaceAll value = value.
Proof.
  induction value as [|c rest IH]; [reflexivity|].
  cbn [List.length DomTracker.replaceAll]. intros H.
  rewrite lookahead_short, andb_false_r by lia. f_equal. apply IH. lia.
Qed.

Lemma replaceAll_tail (value : list N) :
  drop (List.length value - 4) (DomTracker.replaceAll value)
    = drop (List.length value - 4) value.
Proof.
  induction value as [|c rest IH]; [reflexivity|].
  destruct (le_lt_dec 4 (List.length rest)) as [Hge | Hlt].
  - cbn [List.length DomTracker.replaceAll].
    replace (S (List.length rest) - 4)%nat with (S (List.length rest - 4)) by lia.
    cbn [drop]. exact IH.
  - now rewrite replaceAll_short by (cbn [List.length]; lia).
Qed.

Lemma replaceAll_plain (value : list N) :
  Forall (fun c => DomTracker.lineTerminator c = false) value ->
  DomTracker.replaceAll value
    = (List.repeat DomTracker.bullet (List.length value - 4)
         ++ drop (List.length value - 4) value)%list.
Proof.
  induction value as [|c rest IH]; [reflexivity|].
  intros H. apply Forall_cons_1 in H as [Hc H].
  destruct (le_lt_dec 4 (List.length rest)) as [Hge | Hlt].
  - cbn [List.length DomTracker.replaceAll].
    rewrite Hc, (lookahead_plain rest Hge H). cbn [negb andb].
    replace (S (List.length rest) - 4)%nat with (S (List.length rest - 4)) by lia.
    cbn [List.repeat drop app]. f_equal. now apply IH.
  - rewrite replaceAll_short by (cbn [List.length]; lia).
    replace (List.length (c :: rest) - 4)%nat with 0%nat
      by (cbn [List.length]; lia).
    reflexivity.
Qed.

Lemma prefix_chars (p s : string) :
  String.prefix p s = true ->
  forall c, In c (list_ascii_of_string p) -> In c (list_ascii_of_string s).
Proof.
  revert s. induction p as [|a p IH]; intros s H c Hin; [destruct Hin|].
  destruct s as [|b s]; [discriminate|].
  cbn [String.prefix] in H.
  destruct (ascii_dec a b) as [->|]; [|discriminate].
  cbn [list_ascii_of_string In] in *.
  destruct Hin as [<- | Hin]; [now left | right; now apply (IH s)].
Qed.

Lemma includes_chars (s p : string) :
  JS.includes s p = true ->
  forall c, In c (list_ascii_of_string p) -> In c (list_ascii_of_string s).
Proof.
  induction s as [|b s IH]; cbn [JS.includes]; intros H c Hin.
  - rewrite orb_false_r in H. now apply (prefix_chars p "").
  - apply orb_true_iff in H as [H | H]; [now apply (prefix_chars p (String b s))|].
    cbn [list_ascii_of_string In]. right. now apply IH.
Qed.

Lemma lowerChar_not_upper (c : ascii) :
  ~ (65 <= nat_of_ascii (JS.lowerChar c) <= 90)%nat.
Proof.
  unfold JS.lowerChar.
  destruct ((65 <=? nat_of_ascii c)%nat && (nat_of_ascii c <=? 90)%nat) eqn:E.
  - apply andb_true_iff in E as [E1 E2].
    apply Nat.leb_le in E1. apply Nat.leb_le in E2.
    rewrite nat_ascii_embedding by lia. lia.
  - intros [H1 H2]. apply andb_false_iff in E as [E | E];
      apply Nat.leb_gt in E; lia.
Qed.

Lemma toLowerCase_not_upper (s : string) (c : ascii) :
  In c (list_ascii_of_string (JS.toLowerCase s)) ->
  ~ (65 <= nat_of_ascii c <= 90)%nat.
Proof.
  induction s as [|a s IH]; cbn [JS.toLowerCase list_ascii_of_string In];
    [tauto|].
  intros [<- | H]; [apply lowerChar_not_upper | now apply IH].
Qed.

(** X18. What the DOM tracker's mask leaves readable.  [maskSensitiveData]
    keeps the length of the value and always leaves its last four code
    units as they are, so a value of at most four characters is stored
    unmasked; when the type holds a pattern and the value has no line
    terminator, all the code units before the last four become bullets.
    Only the type is put in lower case: when all the configured patterns
    hold an upper-case letter, nothing is ever masked. *)
Theorem dom_mask_keeps_last_four :
  forall (patterns : list string) (value : list N) (type : string),
    let masked := DomTracker.maskSensitiveData patterns value type in
    List.length masked = List.length value
    /\ drop (List.length value - 4) masked = drop (List.length value - 4) value
    /\ ((List.length value <= 4)%nat -> masked = value)
    /\ (existsb (fun pattern => JS.includes (JS.toLowerCase type) pattern)
                patterns = true ->
        Forall (fun c => DomTracker.lineTerminator c = false) value ->
        masked = (List.repeat DomTracker.bullet (List.length value - 4)
                    ++ drop (List.length value - 4) value)%list)
    /\ (Forall hasUpperCase patterns -> masked = value).
Proof.
  intros patterns value type masked. subst masked.
  unfold DomTracker.maskSensitiveData.
  destruct value as [|c rest]; [now repeat split|].
  set (value := c :: rest).
  destruct (existsb _ patterns) eqn:E.
  - split; [apply replaceAll_length|].
    split; [apply replaceAll_tail|].
    split; [apply replaceAll_short|].
    split; [intros _; apply replaceAll_plain|].
    intros Hup. exfalso.
    apply existsb_exists in E as (pattern & Hin & Hinc).
    rewrite List.Forall_forall in Hup.
    destruct (Hup pattern Hin) as (u & Hu & Hrange).
    apply (toLowerCase_not_upper type u); [|exact Hrange].
    now apply (includes_chars _ pattern).
  - repeat split; try reflexivity. intros H. discriminate H.
Qed.

Lemma dom_mask_keeps_last_four_witness :
  DomTracker.maskSensitiveData ["card"; "password"]
    [52; 49; 49; 49; 45; 57; 56; 55; 54]%N "cardNumber"
  = [DomTracker.bullet; DomTracker.bullet; DomTracker.bullet; DomTracker.bullet;
     DomTracker.bullet; 57; 56; 55; 54]%N.
Proof.
  refine (proj1 (proj2 (proj2 (proj2
            (dom_mask_keeps_last_four ["card"; "password"]
               [52; 49; 49; 49; 45; 57; 56; 55; 54]%N "cardNumber")))) _ _).
  - reflexivity.
  - repeat constructor.
Defined.

(** ** The suspicious-activity tracker: values read and values sent *)

Lemma no_transmission_record (now : Z) (href : string) (ev : list (string * JS.value))
    (t : Suspicious.Tracker) (ty : string) :
  JS.lookupProp ev "type" = JS.VStr ty ->
  ty <> "sensitive-network" ->
  Suspicious.accessedValues t = [] ->
  Forall (fun entry => typeOf entry <> JS.VStr "sensitive-network")
         (Suspicious.records t) ->
  Suspicious.accessedValues (Suspicious.record now href ev t) = []
  /\ Forall (fun entry => typeOf entry <> JS.VStr "sensitive-network")
            (Suspicious.records (Suspicious.record now href ev t)).
Proof.
  intros Hty Hne Ha Hr. split; [exact Ha|].
  cbn [Suspicious.record Suspicious.records]. apply Forall_app. split; [exact Hr|].
  apply List.Forall_cons; [|constructor].
  unfold typeOf. cbn [Suspicious.event]. rewrite Hty. congruence.
Qed.

Lemma maybe_record_keeps (b : bool) (now : Z) (href : string)
    (ev : list (string * JS.value)) (t : Suspicious.Tracker) (ty : string) :
  JS.lookupProp ev "type" = JS.VStr ty ->
  ty <> "sensitive-network" ->
  Suspicious.accessedValues t = []
  /\ Forall (fun entry => typeOf entry <> JS.VStr "sensitive-network")
            (Suspicious.records t) ->
  Suspicious.accessedValues (if b then Suspicious.record now href ev t else t) = []
  /\ Forall (fun entry => typeOf entry <> JS.VStr "sensitive-network")
            (Suspicious.records (if b then Suspicious.record now href ev t else t)).
Proof.
  intros Hty Hne [Ha Hr]. destruct b; [|now split].
  now apply (no_transmission_record _ _ _ _ ty).
Qed.

Lemma act_keeps (href : string) (t : Suspicious.Tracker) (a : Activity) :
  Suspicious.accessedValues t = [] ->
  Forall (fun entry => typeOf entry <> JS.VStr "sensitive-network")
         (Suspicious.records t) ->
  Suspicious.accessedValues (act href t a) = []
  /\ Forall (fun entry => typeOf entry <> JS.VStr "sensitive-network")
            (Suspicious.records (act href t a)).
Proof.
  intros Ha Hr. destruct a as [[now c | now resource method body] | now el];
    cbn [act Suspicious.step].
  - unfold Suspicious.clickListener. cbv zeta.
    apply (maybe_record_keeps _ _ _ _ _ "iframe-click");
      [reflexivity | discriminate |].
    apply (maybe_record_keeps _ _ _ _ _ "hidden-click");
      [reflexivity | discriminate |].
    split; [exact Ha | exact Hr].
  - unfold Suspicious.fetchWrapper. cbv zeta. rewrite Ha. cbn [existsb].
    destruct (_ && _); now split.
  - unfold ValueAccess.valueGetter.
    destruct (negb _); [now split|].
    destruct (ValueAccess.ownSelector el); [|now split].
    cbn [snd]. apply (no_transmission_record _ _ _ _ "value-access");
      try assumption; [reflexivity | discriminate].
Qed.

(** X19. No transmission of a value is ever reported.  The getter that
    [trackValueAccess] installs adds the value it reads to a set of the
    input element, not to the tracker's [accessedValues], which therefore
    stays empty whatever the page does: whatever clicks, fetches and
    reads of input values happen after the tracker is made, none of its
    records has the type [sensitive-network], and a [fetch] that posts a
    body, whatever it holds, leaves the tracker as it is. *)
Theorem sensitive_network_is_never_reported :
  forall (raw : Suspicious.RawOptions) (href : string)
         (activities : list Activity)
         (now : Z) (resource method body : string),
    let t := fold_left (act href) activities (Suspicious.newTracker raw) in
    Suspicious.accessedValues t = []
    /\ Forall (fun entry => typeOf entry <> JS.VStr "sensitive-network")
              (Suspicious.records t)
    /\ Forall (fun entry => typeOf entry <> JS.VStr "sensitive-network")
              (Suspicious.getSuspiciousRecords t)
    /\ Suspicious.fetchWrapper now href resource method body t = t.
Proof.
  intros raw href activities now resource method body t.
  assert (Suspicious.accessedValues t = []
          /\ Forall (fun entry => typeOf entry <> JS.VStr "sensitive-network")
               (Suspicious.records t)) as [Ha Hr].
  { subst t.
    assert (Suspicious.accessedValues (Suspicious.newTracker raw) = []
            /\ Forall (fun entry => typeOf entry <> JS.VStr "sensitive-network")
                 (Suspicious.records (Suspicious.newTracker raw))) as H0
      by (split; [reflexivity | constructor]).
    revert H0. generalize (Suspicious.newTracker raw).
    induction activities as [|a activities IH]; intros t0 H0; [exact H0|].
    cbn [fold_left]. apply IH. destruct H0. now apply act_keeps. }
  split; [exact Ha|]. split; [exact Hr|]. split.
  - unfold Suspicious.getSuspiciousRecords.
    rewrite List.Forall_forall in *. intros entry Hin.
    apply filter_In in Hin as [Hin _]. now apply Hr.
  - unfold Suspicious.fetchWrapper. cbv zeta. rewrite Ha. cbn [existsb].
    now destruct (_ && _).
Qed.

(** ** The throttle of the pointer moves *)

Lemma moveAll_pending (moves : list (Z * Z)) (r : Recorder.Recorder)
    (captured : Z * Z) :
  moveAll moves {| Pointer.recorder := r;
                   Pointer.mouseMoveTimeout := Some captured |}
  = {| Pointer.recorder := r; Pointer.mouseMoveTimeout := Some captured |}.
Proof.
  induction moves as [|m moves IH]; [reflexivity|].
  unfold moveAll in *. cbn [fold_left].
  unfold Pointer.mousemoveListener at 2.
  cbn [Pointer.recorder Pointer.mouseMoveTimeout].
  destruct (negb (Recorder.isRecording r)); exact IH.
Qed.

(** X20. One record per throttle window, of the first move.  While
    recording with no timer pending, a move of the pointer arms the timer;
    every further move before the timer fires is dropped.  When the timer
    fires, one [mousemove] record is appended: it holds the position of the
    first move of the window, not the latest, under the timestamp of the
    firing; the timer is cleared, also when the recording was stopped in
    between, in which case nothing is appended. *)
Theorem mousemove_records_first_move_of_window :
  forall (r : Recorder.Recorder) (x y : Z) (later : list (Z * Z))
         (now : Z) (url : string),
    Recorder.isRecording r = true ->
    let armed := moveAll ((x, y) :: later)
                   {| Pointer.recorder := r; Pointer.mouseMoveTimeout := None |} in
    let fired := Pointer.timeoutCallback now url armed in
    Pointer.mouseMoveTimeout armed = Some (x, y)
    /\ Pointer.recorder armed = r
    /\ Pointer.mouseMoveTimeout fired = None
    /\ (exists record,
          Recorder.records (Pointer.recorder fired)
            = (Recorder.records r ++ [record])%list
          /\ JS.get record "type" = JS.VStr "mousemove"
          /\ JS.get record "x" = JS.VNum x
          /\ JS.get record "y" = JS.VNum y
          /\ JS.get record "timestamp"
               = JS.VNum (now - default 0%Z (Recorder.startTime r)))
    /\ (forall (r' : Recorder.Recorder) (captured : Z * Z),
          Recorder.isRecording r' = false ->
          Pointer.timeoutCallback now url
            {| Pointer.recorder := r'; Pointer.mouseMoveTimeout := Some captured |}
          = {| Pointer.recorder := r'; Pointer.mouseMoveTimeout := None |}).
Proof.
  intros r x y later now url Hrec armed fired.
  assert (armed = {| Pointer.recorder := r;
                     Pointer.mouseMoveTimeout := Some (x, y) |}) as Harmed.
  { subst armed. unfold moveAll. cbn [fold_left fst snd].
    unfold Pointer.mousemoveListener at 2.
    cbn [Pointer.recorder Pointer.mouseMoveTimeout]. rewrite Hrec. cbn [negb].
    apply moveAll_pending. }
  subst fired. rewrite Harmed.
  cbn [Pointer.timeoutCallback Pointer.mouseMoveTimeout Pointer.recorder].
  split; [reflexivity|]. split; [reflexivity|]. split; [reflexivity|]. split.
  - unfold Recorder.recordEvent. rewrite Hrec. cbn [negb].
    eexists. split; [reflexivity|]. repeat split.
  - intros r' [cx cy] Hstopped. unfold Pointer.timeoutCallback.
    cbn [Pointer.mouseMoveTimeout Pointer.recorder].
    unfold Recorder.recordEvent. now rewrite Hstopped.
Qed.

Lemma mousemove_records_first_move_of_window_witness :
  let r := {| Recorder.options := Recorder.defaultOptions;
              Recorder.sessionId := "session_1"; Recorder.records := [];
              Recorder.isRecording := true; Recorder.startTime := Some 1000%Z;
              Recorder.listeners := ∅ |} in
  let armed := moveAll [(10, 10); (20, 25); (300, 400)]%Z
                 {| Pointer.recorder := r; Pointer.mouseMoveTimeout := None |} in
  Pointer.mouseMoveTimeout armed = Some (10, 10)%Z
  /\ Pointer.mouseMoveTimeout
       (Pointer.timeoutCallback 1100 "http://a.test/" armed) = None.
Proof.
  intros r armed.
  destruct (mousemove_records_first_move_of_window r 10 10
              [(20, 25); (300, 400)]%Z 1100 "http://a.test/" eq_refl)
    as (A & _ & F & _).
  split; [exact A | exact F].
Defined.

(** ** The masking of parsed JSON *)

Lemma value_nested_ind (P : JS.value -> Prop) :
  P JS.VUndef -> P JS.VNull -> (forall b, P (JS.VBool b)) ->
  (forall n, P (JS.VNum n)) -> (forall s, P (JS.VStr s)) ->
  (forall items, Forall P items -> P (JS.VArr items)) ->
  (forall props, Forall (fun kv => P (snd kv)) props -> P (JS.VObj props)) ->
  forall v, P v.
Proof.
  intros Hu Hn Hb Hz Hs Ha Ho. fix IH 1. intros [| | b | n | s | items | props].
  - exact Hu.
  - exact Hn.
  - apply Hb.
  - apply Hz.
  - apply Hs.
  - apply Ha. induction items as [|x items IHitems]; constructor;
      [apply IH | exact IHitems].
  - apply Ho. induction props as [|[key x] props IHprops]; constructor;
      [apply IH | exact IHprops].
Qed.

Section NetworkMasking.

Variable lengthCount : JS.value -> option nat.
Variable maskPatterns : list string.

Abbreviation self := (NetworkMask.maskObject lengthCount maskPatterns).
Abbreviation maskEntry := (NetworkMask.maskEntry lengthCount maskPatterns self).
Abbreviation settled := (settled lengthCount maskPatterns).
Abbreviation built := (built lengthCount maskPatterns).
Abbreviation returns := (returns lengthCount maskPatterns).

Lemma stars_form (n : nat) : maskedForm (NetworkMask.stars n).
Proof. right. exists (Nat.min n 8). split; [lia | reflexivity]. Qed.

Lemma maskValue_form (x y : JS.value) :
  NetworkMask.maskValue lengthCount x = Some y -> maskedForm y.
Proof.
  unfold NetworkMask.maskValue. destruct (JS.truthy x) eqn:T; cbn [negb].
  - destruct x as [| | b | n | s | items | props]; intros H;
      try (injection H as <-; apply stars_form).
    destruct (NetworkMask.count _ _); [|discriminate].
    injection H as <-. apply stars_form.
  - intros H. injection H as <-. now left.
Qed.

Lemma maskValue_fixed (y : JS.value) :
  maskedForm y -> NetworkMask.maskValue lengthCount y = Some y.
Proof.
  intros [T | (n & Hn & ->)]; unfold NetworkMask.maskValue.
  - now rewrite T.
  - destruct n as [|n]; [reflexivity|].
    cbn [JS.truthy JS.repeat String.eqb negb].
    unfold NetworkMask.stars.
    change (String "*" (JS.repeat "*" n)) with (JS.repeat "*" (S n)).
    rewrite repeat_length. now rewrite Nat.min_l by lia.
Qed.

Lemma maskValue_returns (x : JS.value) :
  match x with JS.VObj _ => False | _ => True end ->
  exists y, NetworkMask.maskValue lengthCount x = Some y.
Proof.
  unfold NetworkMask.maskValue.
  destruct x as [| | b | n | s | items | props]; intros H; try destruct H;
    destruct (negb _); eauto.
Qed.

Lemma maskEntry_settled (key : string) (x y : JS.value) :
  settled x ->
  maskEntry key x = Some y ->
  redactedEntry maskPatterns (redacted maskPatterns) key y
  /\ maskEntry key y = Some y.
Proof.
  intros Hx. unfold NetworkMask.maskEntry, redactedEntry.
  destruct (Network.isSensitiveField maskPatterns key).
  - intros H. apply maskValue_form in H as Hform.
    split; [exact Hform | now apply maskValue_fixed].
  - destruct x as [| | b | n | s | items | props]; intros H;
      try (injection H as <-; split; [exact I | reflexivity]).
    + destruct (Hx _ H) as [Hr Hf]. split; [exact Hr|].
      cbn [NetworkMask.maskObject] in H.
      destruct (NetworkMask.maskItems _ _ _ _ _); [|discriminate].
      injection H as <-. exact Hf.
    + destruct (Hx _ H) as [Hr Hf]. split; [exact Hr|].
      cbn [NetworkMask.maskObject] in H.
      destruct (NetworkMask.maskProps _ _ _ _ _); [|discriminate].
      injection H as <-. exact Hf.
Qed.

Lemma maskItems_settled (items : list JS.value) :
  Forall settled items ->
  forall (i : nat) (out : list JS.value),
    NetworkMask.maskItems lengthCount maskPatterns self i items = Some out ->
    redactedItems maskPatterns (redacted maskPatterns) i out
    /\ NetworkMask.maskItems lengthCount maskPatterns self i out = Some out.
Proof.
  induction 1 as [|x items Hx _ IH]; intros i out H; cbn [NetworkMask.maskItems] in H.
  - injection H as <-. split; [exact I | reflexivity].
  - destruct (maskEntry (NetworkMask.indexKey i) x) as [y|] eqn:E; [|discriminate].
    destruct (NetworkMask.maskItems _ _ _ (S i) items) as [rest|] eqn:R;
      [|discriminate].
    injection H as <-.
    destruct (maskEntry_settled _ _ _ Hx E) as [Hr Hf].
    destruct (IH _ _ R) as [Hr' Hf'].
    split; [split; assumption|].
    cbn [NetworkMask.maskItems]. now rewrite Hf, Hf'.
Qed.

Lemma setProp_present (masked : list (string * JS.value)) (key : string)
    (v : JS.value) :
  In key (map fst masked) ->
  map fst (JS.setProp masked key v) = map fst masked.
Proof.
  induction masked as [|[k old] masked IH]; [intros []|].
  cbn [map fst In JS.setProp]. intros H.
  destruct (String.eqb k key) eqn:E; [reflexivity|].
  apply String.eqb_neq in E. cbn [map fst]. f_equal. apply IH. tauto.
Qed.

Lemma setProp_entries (masked : list (string * JS.value)) (key : string)
    (v : JS.value) (P : string * JS.value -> Prop) :
  Forall P masked -> P (key, v) -> Forall P (JS.setProp masked key v).
Proof.
  intros H Hv. induction H as [|[k old] masked Hk Hrest IH]; cbn [JS.setProp].
  - now constructor.
  - destruct (String.eqb k key) eqn:E.
    + apply String.eqb_eq in E. subst k. now constructor.
    + now constructor.
Qed.

Lemma setProp_fresh (masked : list (string * JS.value)) (key : string)
    (v : JS.value) :
  ~ In key (map fst masked) ->
  JS.setProp masked key v = (masked ++ [(key, v)])%list.
Proof.
  induction masked as [|[k old] masked IH]; [reflexivity|].
  cbn [map fst In JS.setProp app]. intros H.
  destruct (String.eqb k key) eqn:E.
  - apply String.eqb_eq in E. tauto.
  - rewrite IH by tauto. reflexivity.
Qed.

Lemma assign_built (masked : list (string * JS.value)) (key : string)
    (v : JS.value) :
  built masked ->
  redactedEntry maskPatterns (redacted maskPatterns) key v ->
  maskEntry key v = Some v ->
  built (NetworkMask.assign masked key v).
Proof.
  intros (Hnd & Hproto & Hall) Hr Hf. unfold NetworkMask.assign.
  destruct (String.eqb key "__proto__") eqn:E; [now repeat split|].
  apply String.eqb_neq in E.
  destruct (in_dec string_dec key (map fst masked)) as [Hin | Hnin].
  - split; [|split].
    + now rewrite setProp_present.
    + now rewrite setProp_present.
    + apply setProp_entries; [exact Hall | now split].
  - rewrite (setProp_fresh _ _ _ Hnin). split; [|split].
    + rewrite map_app. apply List.NoDup_app; [exact Hnd | |].
      * repeat constructor. intros [].
      * intros a Ha [<- | []]. contradiction.
    + rewrite map_app, in_app_iff. cbn [map fst In]. intros [H | [H | []]];
        [contradiction | congruence].
    + apply Forall_app. split; [exact Hall|].
      apply List.Forall_cons; [now split | constructor].
Qed.

Lemma maskProps_built (props : list (string * JS.value)) :
  Forall (fun kv => settled (snd kv)) props ->
  forall masked out : list (string * JS.value),
    built masked ->
    NetworkMask.maskProps lengthCount maskPatterns self props masked = Some out ->
    built out.
Proof.
  induction 1 as [|[key x] props Hx _ IH]; intros masked out Hb H;
    cbn [NetworkMask.maskProps] in H.
  - now injection H as <-.
  - cbn [snd] in Hx.
    destruct (maskEntry key x) as [y|] eqn:E; [|discriminate].
    destruct (maskEntry_settled _ _ _ Hx E) as [Hr Hf].
    apply (IH _ _ (assign_built _ _ _ Hb Hr Hf) H).
Qed.

Lemma maskProps_fixed (props : list (string * JS.value)) :
  forall masked : list (string * JS.value),
    List.NoDup (map fst (masked ++ props)%list) ->
    ~ In "__proto__" (map fst props) ->
    Forall (fun kv => maskEntry (fst kv) (snd kv) = Some (snd kv)) props ->
    NetworkMask.maskProps lengthCount maskPatterns self props masked
      = Some (masked ++ props)%list.
Proof.
  induction props as [|[key x] props IH]; intros masked Hnd Hproto Hall.
  - cbn. now rewrite List.app_nil_r.
  - apply Forall_cons_1 in Hall as [Hx Hall]. cbn [fst snd] in Hx.
    cbn [NetworkMask.maskProps]. rewrite Hx.
    cbn [map fst In] in Hproto.
    unfold NetworkMask.assign.
    destruct (String.eqb key "__proto__") eqn:E;
      [apply String.eqb_eq in E; subst key; tauto|].
    rewrite map_app in Hnd. cbn [map fst] in Hnd.
    pose proof (NoDup_remove_2 _ _ _ Hnd) as Hfresh.
    rewrite setProp_fresh by (intros Hin; apply Hfresh, in_app_iff; now left).
    rewrite IH; [now rewrite <- List.app_assoc | | tauto | exact Hall].
    rewrite <- List.app_assoc, map_app. exact Hnd.
Qed.

Lemma props_redacted (props : list (string * JS.value)) :
  Forall (fun kv =>
            redactedEntry maskPatterns (redacted maskPatterns) (fst kv) (snd kv)
            /\ maskEntry (fst kv) (snd kv) = Some (snd kv))
         props ->
  redactedProps maskPatterns (redacted maskPatterns) props
  /\ Forall (fun kv => maskEntry (fst kv) (snd kv) = Some (snd kv)) props.
Proof.
  induction 1 as [|[key x] props [Hr Hf] _ [IHr IHf]].
  - split; [exact I | constructor].
  - split; [split; assumption | now constructor].
Qed.

Lemma maskObject_settled (v : JS.value) : settled v.
Proof.
  induction v as [| | b | n | s | items IH | props IH] using value_nested_ind;
    intros y H; cbn [NetworkMask.maskObject] in H;
    try (injection H as <-; split; [exact I | reflexivity]).
  - destruct (NetworkMask.maskItems _ _ _ 0 items) as [out|] eqn:E; [|discriminate].
    injection H as <-.
    destruct (maskItems_settled items IH 0 out E) as [Hr Hf].
    split; [exact Hr|]. cbn [NetworkMask.maskObject]. now rewrite Hf.
  - destruct (NetworkMask.maskProps _ _ _ props []) as [out|] eqn:E; [|discriminate].
    injection H as <-.
    assert (built []) as H0.
    { split; [constructor | split; [intros [] | constructor]]. }
    destruct (maskProps_built props IH [] out H0 E) as (Hnd & Hproto & Hall).
    destruct (props_redacted out Hall) as [Hr Hf].
    split; [exact Hr|]. cbn [NetworkMask.maskObject].
    now rewrite (maskProps_fixed out [] Hnd Hproto Hf).
Qed.

Lemma maskEntry_returns (key : string) (x : JS.value) :
  returns x ->
  maskableEntry maskPatterns (maskable maskPatterns) key x ->
  exists y, maskEntry key x = Some y.
Proof.
  intros Hx. unfold NetworkMask.maskEntry, maskableEntry.
  destruct (Network.isSensitiveField maskPatterns key).
  - apply maskValue_returns.
  - destruct x; eauto.
Qed.

Lemma maskItems_returns (items : list JS.value) :
  Forall returns items ->
  forall i : nat,
    maskableItems maskPatterns (maskable maskPatterns) i items ->
    exists out,
      NetworkMask.maskItems lengthCount maskPatterns self i items = Some out.
Proof.
  induction 1 as [|x items Hx _ IH]; intros i Hm; cbn [NetworkMask.maskItems].
  - eauto.
  - destruct Hm as [Hm Hrest].
    destruct (maskEntry_returns _ _ Hx Hm) as [y ->].
    destruct (IH _ Hrest) as [out ->]. cbn. eauto.
Qed.

Lemma maskProps_returns (props : list (string * JS.value)) :
  Forall (fun kv => returns (snd kv)) props ->
  forall masked : list (string * JS.value),
    maskableProps maskPatterns (maskable maskPatterns) props ->
    exists out,
      NetworkMask.maskProps lengthCount maskPatterns self props masked = Some out.
Proof.
  induction 1 as [|[key x] props Hx _ IH]; intros masked Hm;
    cbn [NetworkMask.maskProps].
  - eauto.
  - destruct Hm as [Hm Hrest]. cbn [snd] in Hx.
    destruct (maskEntry_returns _ _ Hx Hm) as [y ->].
    apply IH, Hrest.
Qed.

Lemma maskObject_returns (v : JS.value) : returns v.
Proof.
  induction v as [| | b | n | s | items IH | props IH] using value_nested_ind;
    intros Hm; cbn [NetworkMask.maskObject]; eauto.
  - destruct (maskItems_returns items IH 0 Hm) as [out ->]. cbn. eauto.
  - destruct (maskProps_returns props IH [] Hm) as [out ->]. cbn. eauto.
Qed.

End NetworkMasking.

(** X21. The masking of a parsed JSON body.  [maskObject] raises only on
    an object that sits under a sensitive key: when the body holds none, it
    returns.  In what it returns, every value under a sensitive key of an
    object or a sensitive index of an array, at any depth, is falsy or a run
    of at most eight asterisks (a number becomes the empty string, an array
    as many asterisks as it has items), and masking the result again gives
    the result.  On a string [maskValue] is the masking of the claims.  An
    object with a negative [length] under a sensitive key makes
    [maskObject] raise the RangeError of [repeat], whatever else the body
    holds. *)
Theorem maskObject_redacts_sensitive_keys :
  forall (lengthCount : JS.value -> option nat) (maskPatterns : list string)
         (obj : JS.value),
    (maskable maskPatterns obj ->
     exists masked, NetworkMask.maskObject lengthCount maskPatterns obj = Some masked)
    /\ (forall masked,
          NetworkMask.maskObject lengthCount maskPatterns obj = Some masked ->
          redacted maskPatterns masked
          /\ NetworkMask.maskObject lengthCount maskPatterns masked = Some masked)
    /\ (forall (s : string),
          NetworkMask.maskValue lengthCount (JS.VStr s)
            = Some (JS.VStr (Network.maskValue s)))
    /\ (forall (key : string) (n : Z) (rest : list (string * JS.value)),
          Network.isSensitiveField maskPatterns key = true ->
          (n < 0)%Z ->
          NetworkMask.maskObject lengthCount maskPatterns
            (JS.VObj ((key, JS.VObj [("length", JS.VNum n)]) :: rest)) = None).
Proof.
  intros lengthCount maskPatterns obj.
  split; [apply maskObject_returns|].
  split; [apply maskObject_settled|].
  split.
  - intros s. unfold NetworkMask.maskValue, Network.maskValue, JS.nonEmpty.
    cbn [JS.truthy]. destruct (negb (negb _)); reflexivity.
  - intros key n rest Hs Hn.
    cbn [NetworkMask.maskObject NetworkMask.maskProps].
    unfold NetworkMask.maskEntry. rewrite Hs.
    unfold NetworkMask.maskValue. cbn [JS.truthy negb].
    change (JS.lookupProp [("length", JS.VNum n)] "length") with (JS.VNum n).
    cbn [NetworkMask.count]. apply Z.ltb_lt in Hn. now rewrite Hn.
Qed.

Lemma maskObject_redacts_sensitive_keys_witness :
  NetworkMask.maskObject (fun _ => Some 0%nat) ["card"; "password"]
    (JS.VObj [("user", JS.VStr "ann");
              ("login", JS.VObj [("password", JS.VStr "s3cret-phrase");
                                 ("cards", JS.VArr [JS.VNum 4111; JS.VNum 5500])]);
              ("items", JS.VArr [JS.VObj [("cardNumber", JS.VNum 4111)]])])
  = Some (JS.VObj [("user", JS.VStr "ann");
                   ("login", JS.VObj [("password", JS.VStr "********");
                                      ("cards", JS.VStr "**")]);
                   ("items", JS.VArr [JS.VObj [("cardNumber", JS.VStr "")]])]).
Proof.
  destruct (proj1 (maskObject_redacts_sensitive_keys (fun _ => Some 0%nat)
                     ["card"; "password"]
                     (JS.VObj [("user", JS.VStr "ann");
                               ("login",
                                JS.VObj [("password", JS.VStr "s3cret-phrase");
                                         ("cards",
                                          JS.VArr [JS.VNum 4111; JS.VNum 5500])]);
                               ("items",
                                JS.VArr [JS.VObj [("cardNumber", JS.VNum 4111)]])]))
             ltac:(vm_compute; tauto)) as [masked H].
  rewrite H. vm_compute in H. now injection H as <-.
Defined.

(** ** The masking of a request body *)

Section BodyMasking.

Variable maskPatterns : list string.

Abbreviation sensitive := (Network.isSensitiveField maskPatterns).
Abbreviation prune := (prune maskPatterns).

Lemma set_at (done tl : list (string * string)) (key v0 v : string) :
  Forall (fun p => fst p <> key) done ->
  NetworkBody.set (done ++ (key, v0) :: tl) key v
  = (done ++ (key, v)
          :: List.filter (fun p => negb (String.eqb (fst p) key)) tl)%list.
Proof.
  induction 1 as [|[k x] done Hk _ IH]; cbn [app NetworkBody.set].
  - now rewrite String.eqb_refl.
  - cbn [fst] in Hk. destruct (String.eqb k key) eqn:E.
    + apply String.eqb_eq in E. contradiction.
    + now rewrite IH.
Qed.

Lemma prune_key (seen : list string) (key : string)
    (params : list (string * string)) :
  sensitive key = true ->
  List.filter (fun p => negb (String.eqb (fst p) key)) (prune seen params)
  = prune (key :: seen) params.
Proof.
  intros Hs. unfold prune.
  induction params as [|[k x] params IH]; [reflexivity|].
  cbn [List.filter fst existsb].
  destruct (String.eqb k key) eqn:E.
  - apply String.eqb_eq in E. subst k. rewrite Hs. cbn [andb orb negb].
    destruct (existsb _ seen); cbn [negb List.filter fst];
      [exact IH | rewrite String.eqb_refl; exact IH].
  - cbn [orb].
    destruct (negb (sensitive k && existsb (String.eqb k) seen));
      [cbn [List.filter fst]; rewrite E; cbn [negb]; now rewrite IH | exact IH].
Qed.

Lemma prune_keep (seen : list string) (key value : string)
    (params : list (string * string)) :
  sensitive key && existsb (String.eqb key) seen = false ->
  prune seen ((key, value) :: params) = (key, value) :: prune seen params.
Proof. intros H. unfold prune. cbn [List.filter fst]. now rewrite H. Qed.

Lemma prune_drop (seen : list string) (key value : string)
    (params : list (string * string)) :
  sensitive key && existsb (String.eqb key) seen = true ->
  prune seen ((key, value) :: params) = prune seen params.
Proof. intros H. unfold prune. cbn [List.filter fst]. now rewrite H. Qed.

Lemma prune_nil (params : list (string * string)) : prune [] params = params.
Proof.
  unfold prune. apply filter_all. apply List.Forall_forall. intros p _.
  cbn [existsb]. now rewrite andb_false_r.
Qed.

Lemma filter_shorter {A : Type} (f : A -> bool) (l : list A) :
  (List.length (List.filter f l) <= List.length l)%nat.
Proof.
  induction l as [|x l IH]; [reflexivity|].
  cbn [List.filter]. destruct (f x); cbn [List.length]; lia.
Qed.

Section Loop.

Variable lengthCount : JS.value -> option nat.
Variable JSON_parse : string -> option JS.value.
Variable JSON_stringify : JS.value -> string.
Variable parseParams : JS.value -> option (list (string * string)).
Variable serializeParams : list (string * string) -> string.
Variable replaceMatches : string -> string -> (string -> string) -> option string.

Lemma maskEntries_collapse (params : list (string * string)) :
  forall (done : list (string * string)) (seen : list string) (fuel : nat),
    Forall (fun p => sensitive (fst p) = true ->
                     existsb (String.eqb (fst p)) seen = true) done ->
    (List.length (prune seen params) <= fuel)%nat ->
    NetworkBody.maskEntries maskPatterns fuel (List.length done)
      (done ++ prune seen params)
    = (done ++ collapse maskPatterns seen params)%list.
Proof.
  induction params as [|[key value] params IH]; intros done seen fuel Hdone Hfuel.
  - change (prune seen []) with (@nil (string * string)).
    destruct fuel as [|fuel]; [reflexivity|].
    cbn [NetworkBody.maskEntries collapse].
    now rewrite lookup_ge_None_2 by (rewrite List.length_app; cbn; lia).
  - cbn [collapse].
    destruct (sensitive key) eqn:Hs.
    + destruct (existsb (String.eqb key) seen) eqn:Hseen.
      * rewrite (prune_drop seen key value params) in * by (now rewrite Hs, Hseen).
        now apply IH.
      * rewrite (prune_keep seen key value params) in *
          by (rewrite Hs, Hseen; reflexivity).
        cbn [List.length] in Hfuel. destruct fuel as [|fuel]; [lia|].
        cbn [NetworkBody.maskEntries].
        rewrite lookup_app_r, Nat.sub_diag by lia.
        cbn [lookup list_lookup]. rewrite Hs.
        rewrite set_at.
        2:{ eapply Forall_impl; [exact Hdone|]. cbn beta. intros [k x] H E.
            cbn [fst] in *. subst k. rewrite (H Hs) in Hseen. discriminate. }
        rewrite (prune_key _ _ _ Hs).
        specialize (IH (done ++ [(key, Network.maskValue value)])%list
                       (key :: seen) fuel).
        rewrite List.length_app, Nat.add_1_r, <- List.app_assoc in IH.
        cbn [app] in IH. rewrite IH; [now rewrite <- List.app_assoc| |].
        -- apply Forall_app. split.
           ++ eapply Forall_impl; [exact Hdone|]. cbn beta. intros p H Hp.
              cbn [existsb]. rewrite (H Hp). apply orb_true_r.
           ++ apply List.Forall_cons; [|constructor]. intros _.
              cbn [existsb fst]. now rewrite String.eqb_refl.
        -- rewrite <- (prune_key seen _ _ Hs).
           pose proof (filter_shorter
                         (fun p : string * string => negb (String.eqb (fst p) key))
                         (prune seen params)) as Hle.
           lia.
    + rewrite (prune_keep seen key value params) in * by (now rewrite Hs).
      cbn [List.length] in Hfuel. destruct fuel as [|fuel]; [lia|].
      cbn [NetworkBody.maskEntries].
      rewrite lookup_app_r, Nat.sub_diag by lia.
      cbn [lookup list_lookup]. rewrite Hs.
      specialize (IH (done ++ [(key, value)])%list seen fuel).
      rewrite List.length_app, Nat.add_1_r, <- List.app_assoc in IH.
      cbn [app] in IH. rewrite IH; [now rewrite <- List.app_assoc| |].
      * apply Forall_app. split; [exact Hdone|].
        apply List.Forall_cons; [|constructor]. cbn [fst]. congruence.
      * lia.
Qed.

Lemma maskParams_collapse (params : list (string * string)) :
  NetworkBody.maskParams maskPatterns params = collapse maskPatterns [] params.
Proof.
  unfold NetworkBody.maskParams.
  pose proof (maskEntries_collapse params [] [] (List.length params)) as H.
  rewrite prune_nil in H. cbn [app List.length] in H. apply H;
    [constructor | reflexivity].
Qed.

End Loop.

Lemma collapse_plain (seen : list string) (params : list (string * string)) :
  plainPairs maskPatterns (collapse maskPatterns seen params)
  = plainPairs maskPatterns params.
Proof.
  revert seen. unfold plainPairs.
  induction params as [|[key value] params IH]; intros seen; [reflexivity|].
  cbn [collapse List.filter fst].
  destruct (sensitive key) eqn:Hs; cbn [negb].
  - destruct (existsb _ seen); [apply IH|].
    cbn [List.filter fst]. rewrite Hs. cbn [negb]. apply IH.
  - cbn [List.filter fst]. rewrite Hs. cbn [negb]. f_equal. apply IH.
Qed.

Lemma collapse_masked (seen : list string) (params : list (string * string)) :
  Forall (fun p =>
            sensitive (fst p) = true ->
            existsb (String.eqb (fst p)) seen = false
            /\ exists value, In (fst p, value) params
                             /\ snd p = Network.maskValue value)
         (collapse maskPatterns seen params).
Proof.
  revert seen.
  induction params as [|[key value] params IH]; intros seen; [constructor|].
  cbn [collapse].
  destruct (sensitive key) eqn:Hs.
  - destruct (existsb (String.eqb key) seen) eqn:Hseen.
    + eapply Forall_impl; [apply IH|]. cbn beta.
      intros p H Hp. destruct (H Hp) as (Hn & v & Hin & E).
      split; [exact Hn|]. exists v. split; [now right | exact E].
    + apply List.Forall_cons.
      * intros _. cbn [fst snd]. split; [exact Hseen|].
        exists value. split; [now left | reflexivity].
      * eapply Forall_impl; [apply IH|]. cbn beta.
        intros p H Hp. destruct (H Hp) as (Hn & v & Hin & E).
        cbn [existsb] in Hn. apply orb_false_iff in Hn as [_ Hn].
        split; [exact Hn|]. exists v. split; [now right | exact E].
  - apply List.Forall_cons.
    + cbn [fst]. congruence.
    + eapply Forall_impl; [apply IH|]. cbn beta.
      intros p H Hp. destruct (H Hp) as (Hn & v & Hin & E).
      split; [exact Hn|]. exists v. split; [now right | exact E].
Qed.

End BodyMasking.

(** X22. The masking of a request body by its content type.  A falsy body
    is returned as it is, and so is every body whose content type is
    neither nullish, a string nor an array.  Under a JSON content type the
    body (parsed when it is a string) goes through [maskObject] and is
    returned as the text of the redacted result; a text that does not
    parse and a body on which [maskObject] raises are returned unmasked.
    Under a form content type the pairs under a sensitive key are reduced
    to the first pair of that key, its value masked, and the other pairs
    are kept, in order. *)
Theorem body_is_masked_by_content_type :
  forall (lengthCount : JS.value -> option nat) (maskPatterns : list string)
         (JSON_parse : string -> option JS.value)
         (JSON_stringify : JS.value -> string)
         (parseParams : JS.value -> option (list (string * string)))
         (serializeParams : list (string * string) -> string)
         (replaceMatches : string -> string -> (string -> string) -> option string)
         (data contentType : JS.value),
    let maskSensitiveData :=
      NetworkBody.maskSensitiveData lengthCount maskPatterns JSON_parse
        JSON_stringify parseParams serializeParams replaceMatches in
    (JS.truthy data = false -> maskSensitiveData data contentType = data)
    /\ (NetworkBody.includesType contentType "application/json" = None ->
        maskSensitiveData data contentType = data)
    /\ (NetworkBody.includesType contentType "application/json" = Some true ->
        (forall text,
           data = JS.VStr text -> JSON_parse text = None ->
           maskSensitiveData data contentType = data)
        /\ (forall parsed,
              Decodes JSON_parse data parsed ->
              NetworkMask.maskObject lengthCount maskPatterns parsed = None ->
              maskSensitiveData data contentType = data)
        /\ (forall parsed,
              Decodes JSON_parse data parsed ->
              maskable maskPatterns parsed ->
              exists masked,
                NetworkMask.maskObject lengthCount maskPatterns parsed = Some masked
                /\ redacted maskPatterns masked
                /\ maskSensitiveData data contentType
                     = JS.VStr (JSON_stringify masked)))
    /\ (NetworkBody.includesType contentType "application/json" = Some false ->
        NetworkBody.includesType contentType "application/x-www-form-urlencoded"
          = Some true ->
        JS.truthy data = true ->
        forall params,
          parseParams data = Some params ->
          let masked := collapse maskPatterns [] params in
          maskSensitiveData data contentType = JS.VStr (serializeParams masked)
          /\ plainPairs maskPatterns masked = plainPairs maskPatterns params
          /\ Forall (fun p =>
                       Network.isSensitiveField maskPatterns (fst p) = true ->
                       exists value, In (fst p, value) params
                                     /\ snd p = Network.maskValue value)
                    masked).
Proof.
  intros lengthCount maskPatterns JSON_parse JSON_stringify parseParams
         serializeParams replaceMatches data contentType maskSensitiveData.
  subst maskSensitiveData. unfold NetworkBody.maskSensitiveData.
  split; [|split; [|split]].
  - intros H. now rewrite H.
  - intros H. rewrite H. now destruct (negb _).
  - intros Hjson. rewrite Hjson. split; [|split].
    + intros text -> Hp. rewrite Hp. now destruct (negb _).
    + intros parsed Hd Hraise.
      destruct Hd as [data Ht Hns | text sd Hne Hp].
      * rewrite Ht. cbn [negb]. destruct data; try (now rewrite Hraise).
        now destruct (Hns s).
      * rewrite Hp, Hraise. now destruct (negb _).
    + intros parsed Hd Hm.
      destruct (maskObject_returns lengthCount maskPatterns parsed Hm)
        as [masked Hmasked].
      exists masked. split; [exact Hmasked|].
      split; [apply (maskObject_settled lengthCount maskPatterns parsed _ Hmasked)|].
      destruct Hd as [data Ht Hns | text sd Hne Hp].
      * rewrite Ht. cbn [negb]. destruct data; try (now rewrite Hmasked).
        now destruct (Hns s).
      * assert (JS.truthy (JS.VStr text) = true) as Ht.
        { cbn. apply negb_true_iff, String.eqb_neq. exact Hne. }
        rewrite Ht, Hp, Hmasked. reflexivity.
  - intros Hjson Hform Ht params Hp. cbv zeta.
    rewrite Ht, Hjson, Hform, Hp. cbn [negb].
    rewrite maskParams_collapse.
    split; [reflexivity|]. split; [apply collapse_plain|].
    eapply Forall_impl; [apply collapse_masked|]. cbn beta.
    intros p H Hs. now destruct (H Hs).
Qed.

Lemma body_is_masked_by_content_type_witness :
  NetworkBody.maskSensitiveData (fun _ => Some 0%nat) ["card"; "password"]
    sampleParse (fun _ => "{}")
    (fun _ => Some [("user", "ann"); ("password", "hunter2"); ("q", "1");
                    ("password", "second")])
    (fun params => JS.join "&" (map (fun p => fst p ++ "=" ++ snd p) params))
    (fun _ text _ => Some text)
    (JS.VStr "user=ann&password=hunter2&q=1&password=second")
    (JS.VStr "application/x-www-form-urlencoded")
  = JS.VStr "user=ann&password=*******&q=1".
Proof.
  refine (eq_trans
            (proj1 (proj2 (proj2 (proj2
               (body_is_masked_by_content_type (fun _ => Some 0%nat)
                  ["card"; "password"] sampleParse (fun _ => "{}")
                  (fun _ => Some [("user", "ann"); ("password", "hunter2");
                                  ("q", "1"); ("password", "second")])
                  (fun params =>
                     JS.join "&" (map (fun p => fst p ++ "=" ++ snd p) params))
                  (fun _ text _ => Some text)
                  (JS.VStr "user=ann&password=hunter2&q=1&password=second")
                  (JS.VStr "application/x-www-form-urlencoded"))))
               eq_refl eq_refl eq_refl _ eq_refl)) _).
  reflexivity.
Defined.

(** ** The trackers at work in one page *)

Section ForensicFacts.

Variable page : Forensic.Page.

Lemma mask_pure (global : JS.value -> JS.value -> Forensic.Run Forensic.Promise)
    (data contentType : JS.value) (w : Forensic.World) :
  Forensic.parseWrappers page = 0%nat ->
  Forensic.maskSensitiveData page global data contentType w
  = (w, Forensic.Returned (maskedBody page data contentType)).
Proof.
  intros H0.
  unfold Forensic.maskSensitiveData, maskedBody, NetworkBody.maskSensitiveData.
  rewrite H0.
  destruct (negb (JS.truthy data)); [reflexivity|].
  unfold Forensic.catch, Forensic.bind, Forensic.lift, Forensic.ret,
    Forensic.raise.
  destruct (NetworkBody.includesType contentType "application/json")
    as [[|]|]; [| |reflexivity].
  - destruct data; cbn [Forensic.parse];
      try (destruct (NetworkMask.maskObject _ _ _); reflexivity).
    unfold Forensic.lift, Forensic.ret, Forensic.raise.
    destruct (Forensic.JSON_parse page s) as [parsed|]; [|reflexivity].
    destruct (NetworkMask.maskObject _ _ parsed); reflexivity.
  - destruct (NetworkBody.includesType contentType
                "application/x-www-form-urlencoded") as [[|]|];
      [| |reflexivity].
    + destruct (Forensic.parseParams page data); reflexivity.
    + destruct data; try reflexivity.
      destruct (NetworkBody.maskText _ _ _); reflexivity.
Qed.


Lemma get_orEmpty (init : JS.value) (key : string) :
  JS.get (Forensic.orEmpty init) key = JS.get init key.
Proof. destruct init; reflexivity. Qed.

Lemma contentTypeOf_orEmpty (init : JS.value) :
  contentTypeOf (Forensic.orEmpty init) = contentTypeOf init.
Proof. destruct init; reflexivity. Qed.

Lemma networkWrapper_rejects
    (global : JS.value -> JS.value -> Forensic.Run Forensic.Promise)
    (resource init : JS.value) (w : Forensic.World) :
  resource = JS.VUndef \/ resource = JS.VNull \/ init = JS.VNull ->
  Forensic.networkWrapper page global resource init w
  = (w, Forensic.Returned Forensic.Rejected).
Proof.
  intros [-> | [-> | ->]]; try reflexivity.
  destruct resource; reflexivity.
Qed.

Lemma networkSave_spec
    (global : JS.value -> JS.value -> Forensic.Run Forensic.Promise)
    (stamp : Z) (props h : list (string * JS.value)) (w : Forensic.World) :
  Forensic.parseWrappers page = 0%nat ->
  JS.lookupProp props "headers" = JS.VObj h ->
  let key := {| Forensic.prefix := "network_"; Forensic.stamp := stamp |} in
  let text :=
    Forensic.JSON_stringify page
      (JS.VObj
         (JS.literal props
            [("body",
              maskedBody page (JS.lookupProp props "body")
                (JS.lookupProp h "content-type"))])) in
  Forensic.networkSave page global stamp props w
  = if Forensic.accepts page (Forensic.storage w) key text then
      let w2 := Forensic.withStorage (Forensic.storage w ++ [(key, text)]) w in
      if JS.truthy (Forensic.networkApi page) then
        match global (Forensic.networkApi page) (Forensic.post text) w2 with
        | (w3, Forensic.Unfinished) => (w3, Forensic.Unfinished)
        | (w3, _) => (w3, Forensic.Returned tt)
        end
      else (w2, Forensic.Returned tt)
    else (w, Forensic.Returned tt).
Proof.
  intros H0 Hh key text.
  unfold Forensic.networkSave, Forensic.catch. rewrite Hh.
  unfold Forensic.bind at 1. cbn [JS.get]. rewrite (mask_pure _ _ _ _ H0).
  fold text. unfold Forensic.bind at 1. unfold Forensic.setItem. fold key.
  destruct (Forensic.accepts page (Forensic.storage w) key text);
    [|reflexivity].
  cbv zeta.
  destruct (JS.truthy (Forensic.networkApi page)); [|reflexivity].
  unfold Forensic.bind.
  destruct (global (Forensic.networkApi page) (Forensic.post text) _)
    as [w3 [p| |]]; reflexivity.
Qed.

Lemma networkWrapper_step
    (global : JS.value -> JS.value -> Forensic.Run Forensic.Promise)
    (resource init : JS.value) (w : Forensic.World) :
  Forensic.parseWrappers page = 0%nat ->
  resource <> JS.VUndef -> resource <> JS.VNull -> init <> JS.VNull ->
  let stamp := Forensic.clock page (S (Forensic.ticks w)) in
  let key := {| Forensic.prefix := "network_"; Forensic.stamp := stamp |} in
  let text := savedText page init stamp in
  let w1 :=
    Forensic.withNetwork (Forensic.network w ++ [fetchRecord page init stamp])
      (Forensic.tick (Forensic.tick w)) in
  let w2 := Forensic.withStorage (Forensic.storage w ++ [(key, text)]) w1 in
  Forensic.networkWrapper page global resource init w
  = if Forensic.accepts page (Forensic.storage w) key text then
      if JS.truthy (Forensic.networkApi page) then
        match global (Forensic.networkApi page) (Forensic.post text) w2 with
        | (w3, Forensic.Unfinished) => (w3, Forensic.Unfinished)
        | (w3, _) =>
            (Forensic.withSent
               (Forensic.sent w3 ++ [(resource, Forensic.orEmpty init)]) w3,
             Forensic.Returned Forensic.Pending)
        end
      else
        (Forensic.withSent
           (Forensic.sent w ++ [(resource, Forensic.orEmpty init)]) w2,
         Forensic.Returned Forensic.Pending)
    else
      (Forensic.withSent
         (Forensic.sent w ++ [(resource, Forensic.orEmpty init)]) w1,
       Forensic.Returned Forensic.Pending).
Proof.
  intros H0 Hu Hn Hi stamp key text w1 w2.
  assert (Forensic.networkWrapper page global resource init w
          = Forensic.async
              (Forensic.bind
                 (if JS.truthy (JS.get (Forensic.orEmpty init) "body")
                  then Forensic.maskSensitiveData page global
                         (JS.get (Forensic.orEmpty init) "body")
                         (contentTypeOf (Forensic.orEmpty init))
                  else Forensic.ret (JS.get (Forensic.orEmpty init) "body"))
                 (fun body =>
                    Forensic.bind (Forensic.now page)
                      (fun called =>
                         Forensic.bind
                           (Forensic.networkRecord page global
                              [("type", JS.VStr "fetch");
                               ("url", NetworkBody.orValue (JS.get resource "url")
                                         resource);
                               ("method",
                                NetworkBody.orValue
                                  (JS.get (Forensic.orEmpty init) "method")
                                  (JS.VStr "GET"));
                               ("headers",
                                JS.VObj
                                  [("referer",
                                    JS.get (NetworkBody.orValue
                                              (JS.get (Forensic.orEmpty init) "headers")
                                              (JS.VObj [])) "referer");
                                   ("origin",
                                    JS.get (NetworkBody.orValue
                                              (JS.get (Forensic.orEmpty init) "headers")
                                              (JS.VObj [])) "origin");
                                   ("content-type",
                                    contentTypeOf (Forensic.orEmpty init))]);
                               ("body", body);
                               ("timestamp", JS.VNum called)])
                           (fun _ =>
                              Forensic.browserFetch resource
                                (Forensic.orEmpty init))))) w) as ->.
  { destruct resource; try congruence; destruct init; try congruence;
      reflexivity. }
  rewrite !get_orEmpty, !contentTypeOf_orEmpty.
  unfold Forensic.async, Forensic.bind at 1.
  assert ((if JS.truthy (JS.get init "body")
           then Forensic.maskSensitiveData page global (JS.get init "body")
                  (contentTypeOf init)
           else Forensic.ret (JS.get init "body")) w
          = (w, Forensic.Returned (recordedBody page init))) as ->.
  { unfold recordedBody. destruct (JS.truthy (JS.get init "body"));
      [now apply mask_pure | reflexivity]. }
  unfold Forensic.bind at 1. unfold Forensic.now at 1.
  unfold Forensic.bind at 1. unfold Forensic.networkRecord.
  unfold Forensic.bind at 1. unfold Forensic.now at 1.
  unfold Forensic.bind at 1.
  cbn [Forensic.ticks Forensic.tick].
  fold stamp.
  set (props := JS.literal _ _).
  change (JS.VObj props) with (fetchRecord page init stamp).
  change (Forensic.network (Forensic.tick (Forensic.tick w)))
    with (Forensic.network w).
  fold w1.
  rewrite (networkSave_spec global stamp props
             [("referer",
               JS.get (NetworkBody.orValue (JS.get init "headers") (JS.VObj []))
                 "referer");
              ("origin",
               JS.get (NetworkBody.orValue (JS.get init "headers") (JS.VObj []))
                 "origin");
              ("content-type", contentTypeOf init)] w1 H0 eq_refl).
  change (Forensic.JSON_stringify page _) with text.
  change (Forensic.storage w1) with (Forensic.storage w).
  fold key. fold w2. cbv zeta.
  destruct (Forensic.accepts page (Forensic.storage w) key text);
    [|reflexivity].
  destruct (JS.truthy (Forensic.networkApi page)); [|reflexivity].
  destruct (global (Forensic.networkApi page) (Forensic.post text) w2)
    as [w3 [p| |]]; reflexivity.
Qed.


Lemma arguments_cases (resource init : JS.value) :
  (resource = JS.VUndef \/ resource = JS.VNull \/ init = JS.VNull)
  \/ (resource <> JS.VUndef /\ resource <> JS.VNull /\ init <> JS.VNull).
Proof.
  destruct resource; try (left; tauto);
    destruct init; try (left; tauto);
    right; repeat split; discriminate.
Qed.

Lemma truthy_given (v : JS.value) :
  JS.truthy v = true -> v <> JS.VUndef /\ v <> JS.VNull.
Proof. destruct v; intros H; split; try discriminate. Qed.

Lemma fetchRecord_pageFetch (init : JS.value) (stamp : Z) :
  pageFetch page (fetchRecord page init stamp).
Proof. split; reflexivity. Qed.

Section NetworkAlone.

Hypothesis Hwindow : Forensic.windowFetch page = Forensic.NetworkWrapper.
Hypothesis Hparse : Forensic.parseWrappers page = 0%nat.

Lemma fetch_S (fuel : nat) (resource init : JS.value) (w : Forensic.World) :
  Forensic.fetch page (S fuel) resource init w
  = Forensic.networkWrapper page (Forensic.fetch page fuel) resource init w.
Proof. cbn [Forensic.fetch]. now rewrite Hwindow. Qed.

(** Whatever the depth, the nested calls only add records of type [fetch]
    that give the address of the page, one a level at most, and leave the
    suspicious-activity tracker alone. *)
Lemma fetch_network_grows (fuel : nat) :
  forall (resource init : JS.value) (w : Forensic.World),
  exists new,
    Forensic.network (fst (Forensic.fetch page fuel resource init w))
      = (Forensic.network w ++ new)%list
    /\ Forall (pageFetch page) new
    /\ (List.length new <= fuel)%nat
    /\ Forensic.suspicious (fst (Forensic.fetch page fuel resource init w))
       = Forensic.suspicious w.
Proof.
  induction fuel as [|fuel IH]; intros resource init w.
  - exists []. cbn. rewrite List.app_nil_r. repeat split; constructor.
  - rewrite fetch_S.
    destruct (arguments_cases resource init) as [Hbad | (Hu & Hn & Hi)].
    + rewrite (networkWrapper_rejects _ _ _ _ Hbad). exists []. cbn.
      rewrite List.app_nil_r. repeat split; [constructor | lia].
    + rewrite (networkWrapper_step _ _ _ _ Hparse Hu Hn Hi). cbv zeta.
      set (stamp := Forensic.clock page (S (Forensic.ticks w))).
      destruct (Forensic.accepts page _ _ _);
        [|exists [fetchRecord page init stamp]; cbn;
          repeat split; [repeat constructor; reflexivity | lia]].
      destruct (JS.truthy (Forensic.networkApi page));
        [|exists [fetchRecord page init stamp]; cbn;
          repeat split; [repeat constructor; reflexivity | lia]].
      match goal with
      | |- context [Forensic.fetch page fuel ?r ?i ?w2] =>
          destruct (IH r i w2) as (new & E & F & L & S);
          destruct (Forensic.fetch page fuel r i w2) as [w3 o]
      end.
      cbn [fst] in E, S.
      exists (fetchRecord page init stamp :: new).
      assert (Forensic.network w3
              = (Forensic.network w ++ fetchRecord page init stamp :: new)%list)
        as E'.
      { rewrite E. cbn. now rewrite <- List.app_assoc. }
      assert (Forall (pageFetch page) (fetchRecord page init stamp :: new)) as F'.
      { constructor; [apply fetchRecord_pageFetch | exact F]. }
      destruct o as [p| |]; cbn [fst Forensic.network Forensic.withSent
                                   Forensic.suspicious];
        (split; [exact E' | split; [exact F' | split; [cbn; lia | exact S]]]).
Qed.

(** The records do not depend on the resource that is fetched. *)
Lemma fetch_network_same (fuel : nat) (resource other init : JS.value)
    (w : Forensic.World) :
  resource <> JS.VUndef -> resource <> JS.VNull ->
  other <> JS.VUndef -> other <> JS.VNull ->
  Forensic.network (fst (Forensic.fetch page fuel other init w))
  = Forensic.network (fst (Forensic.fetch page fuel resource init w)).
Proof.
  intros Hu Hn Hu' Hn'. destruct fuel as [|fuel]; [reflexivity|].
  rewrite !fetch_S.
  destruct init;
    try (rewrite !networkWrapper_rejects by tauto; reflexivity);
    (rewrite !networkWrapper_step by (assumption || discriminate); cbv zeta;
     destruct (Forensic.accepts page _ _ _); [|reflexivity];
     destruct (JS.truthy (Forensic.networkApi page)); [|reflexivity];
     match goal with
     | |- context [Forensic.fetch page fuel ?r ?i ?w2] =>
         destruct (Forensic.fetch page fuel r i w2) as [w3 [p| |]]
     end; reflexivity).
Qed.

(** With an endpoint and a storage that takes every write, each level
    records and calls [fetch] again. *)
Lemma fetch_never_returns (fuel : nat) :
  JS.truthy (Forensic.networkApi page) = true ->
  (forall items key text, Forensic.accepts page items key text = true) ->
  forall (resource init : JS.value) (w : Forensic.World),
    resource <> JS.VUndef -> resource <> JS.VNull -> init <> JS.VNull ->
    snd (Forensic.fetch page fuel resource init w) = Forensic.Unfinished
    /\ List.length
         (Forensic.network (fst (Forensic.fetch page fuel resource init w)))
       = (List.length (Forensic.network w) + fuel)%nat
    /\ Forensic.sent (fst (Forensic.fetch page fuel resource init w))
       = Forensic.sent w.
Proof.
  intros Hapi Hacc.
  induction fuel as [|fuel IH]; intros resource init w Hu Hn Hi.
  - cbn. repeat split. lia.
  - rewrite fetch_S, (networkWrapper_step _ _ _ _ Hparse Hu Hn Hi). cbv zeta.
    rewrite Hacc, Hapi.
    destruct (truthy_given _ Hapi) as [Ha Ha'].
    match goal with
    | |- context [Forensic.fetch page fuel ?r ?i ?w2] =>
        destruct (IH r i w2 Ha Ha' ltac:(discriminate)) as (O & L & S);
        destruct (Forensic.fetch page fuel r i w2) as [w3 o]
    end.
    cbn [fst snd] in O, L, S. subst o. cbn [fst snd].
    split; [reflexivity|]. split; [|exact S].
    rewrite L. cbn. rewrite List.length_app. cbn. lia.
Qed.

End NetworkAlone.

End ForensicFacts.



Section BothTrackers.

Variable page : Forensic.Page.

(** [record] of the suspicious-activity tracker: the record is made, then
    written to the storage and, with an endpoint, posted. *)
Lemma suspiciousRecord_spec
    (global : JS.value -> JS.value -> Forensic.Run Forensic.Promise)
    (event : list (string * JS.value)) (w : Forensic.World) :
  let stamp := Forensic.clock page (Forensic.ticks w) in
  let entry := {| Suspicious.event := event;
                  Suspicious.timestamp := stamp;
                  Suspicious.url := Forensic.href page;
                  Suspicious.severity := Suspicious.calculateSeverity event |} in
  let key := {| Forensic.prefix := "suspicious_"; Forensic.stamp := stamp |} in
  let text := Forensic.stringifyEntry page entry in
  let w1 :=
    Forensic.withSuspicious
      (Suspicious.record stamp (Forensic.href page) event (Forensic.suspicious w))
      (Forensic.tick w) in
  let w2 := Forensic.withStorage (Forensic.storage w ++ [(key, text)]) w1 in
  Forensic.suspiciousRecord page global event w
  = if Forensic.accepts page (Forensic.storage w) key text then
      if JS.truthy (Forensic.suspiciousApi page) then
        match global (Forensic.suspiciousApi page) (Forensic.post text) w2 with
        | (w3, Forensic.Unfinished) => (w3, Forensic.Unfinished)
        | (w3, _) => (w3, Forensic.Returned tt)
        end
      else (w2, Forensic.Returned tt)
    else (w1, Forensic.Returned tt).
Proof.
  intros stamp entry key text w1 w2.
  unfold Forensic.suspiciousRecord.
  unfold Forensic.bind at 1. unfold Forensic.now at 1.
  unfold Forensic.bind at 1.
  cbn [Forensic.suspicious Forensic.tick]. fold stamp. fold entry. fold w1.
  unfold Forensic.suspiciousSave, Forensic.catch.
  unfold Forensic.bind at 1. unfold Forensic.setItem.
  cbn [Suspicious.timestamp entry]. fold key. fold text.
  change (Forensic.storage w1) with (Forensic.storage w).
  destruct (Forensic.accepts page (Forensic.storage w) key text);
    [|reflexivity].
  fold w2.
  destruct (JS.truthy (Forensic.suspiciousApi page)); [|reflexivity].
  unfold Forensic.bind.
  destruct (global (Forensic.suspiciousApi page) (Forensic.post text) w2)
    as [w3 [p| |]]; reflexivity.
Qed.

Lemma suspiciousRecord_outcome
    (global : JS.value -> JS.value -> Forensic.Run Forensic.Promise)
    (event : list (string * JS.value)) (w : Forensic.World) :
  snd (Forensic.suspiciousRecord page global event w) = Forensic.Returned tt
  \/ snd (Forensic.suspiciousRecord page global event w) = Forensic.Unfinished.
Proof.
  rewrite suspiciousRecord_spec. cbv zeta.
  destruct (Forensic.accepts page _ _ _); [|now left].
  destruct (JS.truthy (Forensic.suspiciousApi page)); [|now left].
  destruct (global _ _ _) as [w3 [p| |]]; cbn; tauto.
Qed.

(** The masking where its [JSON.parse] is not reached, or is the built-in
    function. *)
Lemma mask_without_parse
    (global : JS.value -> JS.value -> Forensic.Run Forensic.Promise)
    (data contentType : JS.value) (w : Forensic.World) :
  (forall text, data <> JS.VStr text)
  \/ data = JS.VStr ""
  \/ NetworkBody.includesType contentType "application/json" <> Some true ->
  Forensic.maskSensitiveData page global data contentType w
  = (w, Forensic.Returned (maskedBody page data contentType)).
Proof.
  intros H.
  unfold Forensic.maskSensitiveData, maskedBody, NetworkBody.maskSensitiveData.
  destruct (negb (JS.truthy data)) eqn:Ht; [reflexivity|].
  unfold Forensic.catch, Forensic.bind, Forensic.lift, Forensic.ret,
    Forensic.raise.
  destruct (NetworkBody.includesType contentType "application/json")
    as [[|]|]; [| |reflexivity].
  - destruct H as [H | [H | H]]; [| |congruence].
    + destruct data; try (now destruct (H s));
        destruct (NetworkMask.maskObject _ _ _); reflexivity.
    + subst data. discriminate Ht.
  - destruct (NetworkBody.includesType contentType
                "application/x-www-form-urlencoded") as [[|]|];
      [| |reflexivity].
    + destruct (Forensic.parseParams page data); reflexivity.
    + destruct data; try reflexivity.
      destruct (NetworkBody.maskText _ _ _); reflexivity.
Qed.

(** The masking of a text under a JSON content type, [JSON.parse] having
    been replaced once: the call is recorded first. *)
Lemma mask_with_parse
    (global : JS.value -> JS.value -> Forensic.Run Forensic.Promise)
    (text : string) (contentType : JS.value) (w : Forensic.World) :
  Forensic.parseWrappers page = 1%nat ->
  text <> "" ->
  NetworkBody.includesType contentType "application/json" = Some true ->
  Forensic.maskSensitiveData page global (JS.VStr text) contentType w
  = match Forensic.suspiciousRecord page global (parseEvent text) w with
    | (w', Forensic.Unfinished) => (w', Forensic.Unfinished)
    | (w', _) =>
        (w', Forensic.Returned (maskedBody page (JS.VStr text) contentType))
    end.
Proof.
  intros H1 Hne Hjson.
  pose proof (suspiciousRecord_outcome global (parseEvent text) w) as Hout.
  unfold Forensic.maskSensitiveData, maskedBody, NetworkBody.maskSensitiveData.
  assert (JS.truthy (JS.VStr text) = true) as ->.
  { cbn. apply negb_true_iff, String.eqb_neq. exact Hne. }
  cbn [negb]. rewrite H1, Hjson.
  unfold Forensic.catch. unfold Forensic.bind at 1.
  cbn [Forensic.lift]. unfold Forensic.ret at 1.
  unfold Forensic.bind at 1. cbn [Forensic.parse].
  unfold Forensic.bind at 1. fold (parseEvent text).
  destruct (Forensic.suspiciousRecord page global (parseEvent text) w)
    as [w' [[]| |]]; cbn [snd] in Hout;
    [| destruct Hout; discriminate | reflexivity].
  unfold Forensic.lift, Forensic.bind, Forensic.ret, Forensic.raise.
  destruct (Forensic.JSON_parse page text) as [parsed|]; [|reflexivity].
  destruct (NetworkMask.maskObject _ _ parsed); reflexivity.
Qed.

(** The wrapper of [trackSensitiveNetwork] while no input value has been
    noted. *)
Lemma sensitiveNetwork_quiet
    (global : JS.value -> JS.value -> Forensic.Run Forensic.Promise)
    (resource init : JS.value) (w : Forensic.World) :
  resource <> JS.VUndef -> resource <> JS.VNull -> init <> JS.VNull ->
  Suspicious.accessedValues (Forensic.suspicious w) = [] ->
  Forensic.sensitiveNetwork page global resource init w
  = (w, Forensic.Returned tt).
Proof.
  intros Hu Hn Hi Hnone.
  assert (Forensic.sensitiveNetwork page global resource init w
          = (if Forensic.isPost
                  (NetworkBody.orValue (JS.get (Forensic.orEmpty init) "method")
                     (JS.VStr "GET"))
                && JS.truthy (JS.get (Forensic.orEmpty init) "body")
             then
               Forensic.bind
                 (fun w0 =>
                    Forensic.lift
                      (Forensic.some (JS.get (Forensic.orEmpty init) "body")
                         (Suspicious.accessedValues (Forensic.suspicious w0)))
                      w0)
                 (fun hasSensitiveData : bool =>
                    if hasSensitiveData then
                      Forensic.bind
                        (fun w0 =>
                           match Suspicious.lastClick (Forensic.suspicious w0) with
                           | None => Forensic.ret JS.VNull w0
                           | Some click =>
                               Forensic.bind (Forensic.now page)
                                 (fun reading =>
                                    Forensic.ret
                                      (JS.VBool
                                         (reading
                                            - Suspicious.clickTimestamp click
                                          <? 1000)%Z)) w0
                           end)
                        (fun triggeredByClick =>
                           Forensic.suspiciousRecord page global
                             [("type", JS.VStr "sensitive-network");
                              ("url",
                               NetworkBody.orValue (JS.get resource "url")
                                 resource);
                              ("method",
                               NetworkBody.orValue
                                 (JS.get (Forensic.orEmpty init) "method")
                                 (JS.VStr "GET"));
                              ("triggeredByClick", triggeredByClick)])
                    else Forensic.ret tt)
             else Forensic.ret tt) w) as ->.
  { destruct resource; try congruence; destruct init; try congruence;
      reflexivity. }
  destruct (_ && _); [|reflexivity].
  unfold Forensic.bind at 1. rewrite Hnone. reflexivity.
Qed.

(** The form of the wrapper of [interceptFetch] on arguments it accepts. *)
Lemma networkWrapper_unfold
    (global : JS.value -> JS.value -> Forensic.Run Forensic.Promise)
    (resource init : JS.value) (w : Forensic.World) :
  resource <> JS.VUndef -> resource <> JS.VNull -> init <> JS.VNull ->
  Forensic.networkWrapper page global resource init w
  = Forensic.async
      (Forensic.bind
         (if JS.truthy (JS.get init "body")
          then Forensic.maskSensitiveData page global (JS.get init "body")
                 (contentTypeOf init)
          else Forensic.ret (JS.get init "body"))
         (fun body =>
            Forensic.bind (Forensic.now page)
              (fun called =>
                 Forensic.bind
                   (Forensic.networkRecord page global
                      [("type", JS.VStr "fetch");
                       ("url", NetworkBody.orValue (JS.get resource "url")
                                 resource);
                       ("method",
                        NetworkBody.orValue (JS.get init "method")
                          (JS.VStr "GET"));
                       ("headers",
                        JS.VObj
                          [("referer",
                            JS.get (NetworkBody.orValue
                                      (JS.get init "headers") (JS.VObj []))
                              "referer");
                           ("origin",
                            JS.get (NetworkBody.orValue
                                      (JS.get init "headers") (JS.VObj []))
                              "origin");
                           ("content-type", contentTypeOf init)]);
                       ("body", body);
                       ("timestamp", JS.VNum called)])
                   (fun _ =>
                      Forensic.browserFetch resource (Forensic.orEmpty init)))))
      w.
Proof.
  intros Hu Hn Hi.
  destruct resource; try congruence; destruct init; try congruence;
    reflexivity.
Qed.

Section Started.

(** The page as [WebForensic.start] leaves it, with an endpoint and a
    storage that takes every write. *)
Hypothesis Hwindow :
  Forensic.windowFetch page = Forensic.SuspiciousWrapper Forensic.NetworkWrapper.
Hypothesis Hparse : Forensic.parseWrappers page = 1%nat.
Hypothesis Hapi : JS.truthy (Forensic.suspiciousApi page) = true.
Hypothesis Haccepts :
  forall items key text, Forensic.accepts page items key text = true.
Hypothesis Htext : forall entry, Forensic.stringifyEntry page entry <> "".

(** Posting a record of the suspicious-activity tracker makes the network
    tracker parse it, which is recorded and posted in turn. *)
Lemma record_step (fuel : nat) (event : list (string * JS.value))
    (w : Forensic.World) :
  Suspicious.accessedValues (Forensic.suspicious w) = [] ->
  let stamp := Forensic.clock page (Forensic.ticks w) in
  let entry := {| Suspicious.event := event;
                  Suspicious.timestamp := stamp;
                  Suspicious.url := Forensic.href page;
                  Suspicious.severity := Suspicious.calculateSeverity event |} in
  let posted := Forensic.stringifyEntry page entry in
  let w2 :=
    Forensic.withStorage
      (Forensic.storage w
         ++ [({| Forensic.prefix := "suspicious_"; Forensic.stamp := stamp |},
              posted)])
      (Forensic.withSuspicious
         (Suspicious.record stamp (Forensic.href page) event
            (Forensic.suspicious w))
         (Forensic.tick w)) in
  let inner :=
    Forensic.suspiciousRecord page (Forensic.fetch page fuel)
      (parseEvent posted) w2 in
  snd inner = Forensic.Unfinished ->
  Forensic.suspiciousRecord page (Forensic.fetch page (S fuel)) event w
  = (fst inner, Forensic.Unfinished).
Proof.
  intros Hnone stamp entry posted w2 inner Hinner.
  rewrite suspiciousRecord_spec. cbv zeta. rewrite Haccepts, Hapi.
  fold stamp. fold entry. fold posted. fold w2.
  destruct (truthy_given _ Hapi) as [Hu Hn].
  cbn [Forensic.fetch]. rewrite Hwindow. cbn [Forensic.call].
  unfold Forensic.async at 1. unfold Forensic.bind at 1.
  rewrite sensitiveNetwork_quiet;
    [|assumption|assumption|discriminate|exact Hnone].
  change (Forensic.orEmpty (Forensic.post posted)) with (Forensic.post posted).
  rewrite networkWrapper_unfold; [|assumption|assumption|discriminate].
  change (JS.get (Forensic.post posted) "body") with (JS.VStr posted).
  assert (JS.truthy (JS.VStr posted) = true) as ->.
  { cbn. apply negb_true_iff, String.eqb_neq. apply Htext. }
  unfold Forensic.async. unfold Forensic.bind at 1.
  rewrite mask_with_parse; [|exact Hparse|apply Htext|reflexivity].
  fold inner. destruct inner as [w3 o]. cbn [snd] in Hinner. subst o.
  reflexivity.
Qed.

Lemma record_never_returns (fuel : nat) :
  forall (event : list (string * JS.value)) (w : Forensic.World),
    Suspicious.accessedValues (Forensic.suspicious w) = [] ->
    let run :=
      Forensic.suspiciousRecord page (Forensic.fetch page fuel) event w in
    snd run = Forensic.Unfinished
    /\ (exists more,
          Suspicious.records (Forensic.suspicious (fst run))
            = (Suspicious.records (Forensic.suspicious w)
                 ++ {| Suspicious.event := event;
                       Suspicious.timestamp :=
                         Forensic.clock page (Forensic.ticks w);
                       Suspicious.url := Forensic.href page;
                       Suspicious.severity :=
                         Suspicious.calculateSeverity event |}
                 :: more)%list
          /\ List.length more = fuel
          /\ Forall (fun entry => typeOf entry = JS.VStr "encoding-attempt") more)
    /\ Forensic.network (fst run) = Forensic.network w
    /\ Forensic.sent (fst run) = Forensic.sent w.
Proof.
  induction fuel as [|fuel IH]; intros event w Hnone run; subst run.
  - rewrite suspiciousRecord_spec. cbv zeta. rewrite Haccepts, Hapi.
    cbn. split; [reflexivity|]. split; [|split; reflexivity].
    exists []. repeat split. constructor.
  - pose proof (record_step fuel event w Hnone) as Hstep. cbv zeta in Hstep.
    match type of Hstep with
    | snd (Forensic.suspiciousRecord _ _ ?e ?v) = _ -> _ =>
        destruct (IH e v Hnone) as (O & (more & E & L & F) & N & S)
    end.
    rewrite (Hstep O).
    cbn [fst snd].
    split; [reflexivity|]. split; [|split; [exact N | exact S]].
    eexists (_ :: more).
    split; [|split; [cbn; now rewrite L | constructor; [|exact F]]].
    + rewrite E. cbn. rewrite <- List.app_assoc. reflexivity.
    + reflexivity.
Qed.

End Started.

End BothTrackers.



